(** * Trigger resolution and config composition of the workflow runner

    A shallow embedding of [models/trigger_map_item.go] (event classifier,
    trigger matching, legacy migration, trigger item validation) and of
    [cli/trigger_check.go] (pattern based workflow lookup), followed by a
    model of the config composition engine, and the properties proved of
    them.

    Conventions of the embedding:
    - a Go [error] is the text of its message; [nil] is [None];
    - a Go function returning [(T, error)] returns a pair [T * option error];
    - a Go function that can panic returns an [outcome]: either it returned
      normally or the goroutine panicked;
    - an [interface{}] holding a trigger condition is a [condition]. *)

From Stdlib Require Import String Ascii List Bool Arith ZArith NArith Lia DecimalString.
Import ListNotations.
Open Scope list_scope.
Open Scope string_scope.

(** ** Go runtime conventions *)

Definition error : Type := string.

Inductive outcome (A : Type) : Type :=
| Returned (a : A)
| Panicked (reason : string).
Arguments Returned {A} a.
Arguments Panicked {A} reason.

Definition bind {A B : Type} (m : outcome A) (k : A -> outcome B) : outcome B :=
  match m with
  | Returned a => k a
  | Panicked r => Panicked r
  end.

Notation "x <- m ;; k" := (bind m (fun x => k))
  (at level 61, m at next level, right associativity).

Definition returns {A : Type} (m : outcome A) : Prop :=
  exists a, m = Returned a.

(** [%d] of a Go [int]: 64 bit two's complement, printed in decimal. *)
Definition wrapInt (z : Z) : Z :=
  ((z + 2 ^ 63) mod 2 ^ 64 - 2 ^ 63)%Z.

Definition itoa (z : Z) : string :=
  NilZero.string_of_int (Z.to_int z).

(** [sliceutil.IsStringInSlice] *)
Definition IsStringInSlice (s : string) (l : list string) : bool :=
  existsb (String.eqb s) l.

(** ** models/trigger_map_item.go *)

Inductive TriggerEventType : Type :=
| TriggerEventTypeCodePush
| TriggerEventTypePullRequest
| TriggerEventTypeTag
| TriggerEventTypeUnknown.

Definition TriggerEventType_eqb (a b : TriggerEventType) : bool :=
  match a, b with
  | TriggerEventTypeCodePush, TriggerEventTypeCodePush => true
  | TriggerEventTypePullRequest, TriggerEventTypePullRequest => true
  | TriggerEventTypeTag, TriggerEventTypeTag => true
  | TriggerEventTypeUnknown, TriggerEventTypeUnknown => true
  | _, _ => false
  end.

(** [PullRequestReadyState] is a string type: a caller may pass any text. *)
Definition PullRequestReadyState : Type := string.
Definition PullRequestReadyStateDraft : PullRequestReadyState := "draft".
Definition PullRequestReadyStateReadyForReview : PullRequestReadyState :=
  "ready_for_review".
Definition PullRequestReadyStateConvertedToReadyForReview : PullRequestReadyState :=
  "converted_to_ready_for_review".

Definition defaultDraftPullRequestEnabled : bool := true.

Record TriggerItemConditionRegexValue : Type := mkRegexValue {
  Regex : string
}.

Definition TriggerItemType : Type := string.
Definition CodePushType : TriggerItemType := "code-push".
Definition PullRequestType : TriggerItemType := "pull-request".
Definition TagPushType : TriggerItemType := "tag-push".

(** The dynamic value of a condition field ([interface{}]). *)
Inductive condition : Type :=
| CondNil
| CondString (s : string)
| CondRegex (r : TriggerItemConditionRegexValue)
| CondOther.

Record TriggerMapItemModel : Type := mkItem {
  Type_ : TriggerItemType;
  Enabled : bool;
  PipelineID : string;
  WorkflowID : string;
  PushBranch : condition;
  CommitMessage : condition;
  ChangedFiles : condition;
  Tag : condition;
  PullRequestSourceBranch : condition;
  PullRequestTargetBranch : condition;
  DraftPullRequestEnabled : option bool;
  PullRequestLabel : condition;
  Pattern : string;
  IsPullRequestAllowed : bool
}.

(** The zero value [TriggerMapItemModel{}]. *)
Definition zeroItem : TriggerMapItemModel :=
  {| Type_ := ""; Enabled := false; PipelineID := ""; WorkflowID := "";
     PushBranch := CondNil; CommitMessage := CondNil; ChangedFiles := CondNil;
     Tag := CondNil; PullRequestSourceBranch := CondNil;
     PullRequestTargetBranch := CondNil; DraftPullRequestEnabled := None;
     PullRequestLabel := CondNil; Pattern := ""; IsPullRequestAllowed := false |}.

(** [value.(string)] without the comma-ok form panics on any other type. *)
Definition stringFromTriggerCondition (value : condition) : outcome string :=
  match value with
  | CondNil => Returned ""
  | CondString s => Returned s
  | CondRegex _ =>
      Panicked "interface conversion: interface {} is models.TriggerItemConditionRegexValue, not string"
  | CondOther => Panicked "interface conversion: interface {} is not string"
  end.

Definition stringLiteralOrRegex (value : condition) : string :=
  match value with
  | CondNil => ""
  | CondString s => s
  | CondRegex r => Regex r
  | CondOther => ""
  end.

Definition isStringLiteralOrRegexSet (value : condition) : bool :=
  negb (stringLiteralOrRegex value =? "").

Definition triggerEventType (pushBranch prSourceBranch prTargetBranch tag : string)
  : TriggerEventType * option error :=
  if negb (pushBranch =? "") then
    if negb (prSourceBranch =? "") then
      (TriggerEventTypeUnknown,
       Some ("push_branch (" ++ pushBranch
             ++ ") selects code-push trigger event, but pull_request_source_branch ("
             ++ prSourceBranch ++ ") also provided"))
    else if negb (prTargetBranch =? "") then
      (TriggerEventTypeUnknown,
       Some ("push_branch (" ++ pushBranch
             ++ ") selects code-push trigger event, but pull_request_target_branch ("
             ++ prTargetBranch ++ ") also provided"))
    else if negb (tag =? "") then
      (TriggerEventTypeUnknown,
       Some ("push_branch (" ++ pushBranch
             ++ ") selects code-push trigger event, but tag ("
             ++ tag ++ ") also provided"))
    else (TriggerEventTypeCodePush, None)
  else if negb (prSourceBranch =? "") || negb (prTargetBranch =? "") then
    if negb (tag =? "") then
      (TriggerEventTypeUnknown,
       Some ("pull_request_source_branch (" ++ prSourceBranch
             ++ ") and pull_request_target_branch (" ++ prTargetBranch
             ++ ") selects pull-request trigger event, but tag ("
             ++ tag ++ ") also provided"))
    else (TriggerEventTypePullRequest, None)
  else if negb (tag =? "") then (TriggerEventTypeTag, None)
  else
    (TriggerEventTypeUnknown,
     Some ("failed to determin trigger event from params: push-branch: " ++ pushBranch
           ++ ", pr-source-branch: " ++ prSourceBranch
           ++ ", pr-target-branch: " ++ prTargetBranch
           ++ ", tag: " ++ tag)).

Definition migrateDeprecatedTriggerItem (triggerItem : TriggerMapItemModel)
  : list TriggerMapItemModel :=
  let migratedItems :=
    [ {| Type_ := ""; Enabled := false; PipelineID := "";
         WorkflowID := WorkflowID triggerItem;
         PushBranch := CondString (Pattern triggerItem);
         CommitMessage := CondNil; ChangedFiles := CondNil; Tag := CondNil;
         PullRequestSourceBranch := CondNil; PullRequestTargetBranch := CondNil;
         DraftPullRequestEnabled := None; PullRequestLabel := CondNil;
         Pattern := ""; IsPullRequestAllowed := false |} ] in
  if IsPullRequestAllowed triggerItem then
    List.app migratedItems
    [ {| Type_ := ""; Enabled := false; PipelineID := "";
         WorkflowID := WorkflowID triggerItem;
         PushBranch := CondNil;
         CommitMessage := CondNil; ChangedFiles := CondNil; Tag := CondNil;
         PullRequestSourceBranch := CondString (Pattern triggerItem);
         PullRequestTargetBranch := CondNil;
         DraftPullRequestEnabled := None; PullRequestLabel := CondNil;
         Pattern := ""; IsPullRequestAllowed := false |} ]
  else migratedItems.

Definition IsDraftPullRequestEnabled (item : TriggerMapItemModel) : bool :=
  match DraftPullRequestEnabled item with
  | Some b => b
  | None => defaultDraftPullRequestEnabled
  end.

(** The classification of a rule's own conditions, as the first statement of
    the loop body of [MatchWithParams] computes it: the four arguments are
    evaluated left to right, then the classifier is called. *)
Definition itemEventType (item : TriggerMapItemModel)
  : outcome (TriggerEventType * option error) :=
  pb <- stringFromTriggerCondition (PushBranch item) ;;
  ps <- stringFromTriggerCondition (PullRequestSourceBranch item) ;;
  pt <- stringFromTriggerCondition (PullRequestTargetBranch item) ;;
  tg <- stringFromTriggerCondition (Tag item) ;;
  Returned (triggerEventType pb ps pt tg).

Section Matching.

(** [glob.Glob] of the external package [github.com/ryanuber/go-glob]. *)
Variable Glob : string -> string -> bool.

(** The [TriggerEventTypePullRequest] case of the switch. *)
Definition matchPullRequest (migratedTriggerItem : TriggerMapItemModel)
    (prSourceBranch prTargetBranch : string) (prReadyState : PullRequestReadyState)
  : outcome (bool * option error) :=
  src <- stringFromTriggerCondition (PullRequestSourceBranch migratedTriggerItem) ;;
  sourceMatch <-
    (if src =? "" then Returned true
     else
       p <- stringFromTriggerCondition (PullRequestSourceBranch migratedTriggerItem) ;;
       Returned (Glob p prSourceBranch)) ;;
  tgt <- stringFromTriggerCondition (PullRequestTargetBranch migratedTriggerItem) ;;
  targetMatch <-
    (if tgt =? "" then Returned true
     else
       p <- stringFromTriggerCondition (PullRequestTargetBranch migratedTriggerItem) ;;
       Returned (Glob p prTargetBranch)) ;;
  let stateMismatch :=
    if IsDraftPullRequestEnabled migratedTriggerItem then
      if prReadyState =? PullRequestReadyStateConvertedToReadyForReview
      then true else false
    else
      if prReadyState =? PullRequestReadyStateDraft then true else false in
  Returned (sourceMatch && targetMatch && negb stateMismatch, None).

(** The [for ... range migratedTriggerItems] loop of [MatchWithParams]. *)
Fixpoint matchMigratedItems (migratedTriggerItems : list TriggerMapItemModel)
    (paramsEventType : TriggerEventType)
    (pushBranch prSourceBranch prTargetBranch : string)
    (prReadyState : PullRequestReadyState) (tag : string)
  : outcome (bool * option error) :=
  match migratedTriggerItems with
  | [] => Returned (false, None)
  | migratedTriggerItem :: rest =>
      r <- itemEventType migratedTriggerItem ;;
      match r with
      | (_, Some err) => Returned (false, Some err)
      | (itemEventType, None) =>
          if negb (TriggerEventType_eqb paramsEventType itemEventType) then
            matchMigratedItems rest paramsEventType
              pushBranch prSourceBranch prTargetBranch prReadyState tag
          else
            match itemEventType with
            | TriggerEventTypeCodePush =>
                p <- stringFromTriggerCondition (PushBranch migratedTriggerItem) ;;
                Returned (Glob p pushBranch, None)
            | TriggerEventTypePullRequest =>
                matchPullRequest migratedTriggerItem
                  prSourceBranch prTargetBranch prReadyState
            | TriggerEventTypeTag =>
                p <- stringFromTriggerCondition (Tag migratedTriggerItem) ;;
                Returned (Glob p tag, None)
            | TriggerEventTypeUnknown =>
                matchMigratedItems rest paramsEventType
                  pushBranch prSourceBranch prTargetBranch prReadyState tag
            end
      end
  end.

Definition MatchWithParams (item : TriggerMapItemModel)
    (pushBranch prSourceBranch prTargetBranch : string)
    (prReadyState : PullRequestReadyState) (tag : string)
  : outcome (bool * option error) :=
  match triggerEventType pushBranch prSourceBranch prTargetBranch tag with
  | (_, Some err) => Returned (false, Some err)
  | (paramsEventType, None) =>
      let migratedTriggerItems :=
        if negb (Pattern item =? "") then migrateDeprecatedTriggerItem item
        else [item] in
      matchMigratedItems migratedTriggerItems paramsEventType
        pushBranch prSourceBranch prTargetBranch prReadyState tag
  end.

End Matching.

(** ** Trigger item validation (load time) *)

(** The [%d] rendering of [idx+1]. *)
Definition itemNumber (idx : Z) : string := itoa (wrapInt (idx + 1)).

Definition validateStringType (idx : Z) (field : string) (value : condition)
  : option error :=
  match value with
  | CondNil => None
  | CondString _ => None
  | _ => Some ("string literal value is expected for " ++ field ++ " in the "
               ++ itemNumber idx ++ ". trigger item")
  end.

Definition validateStringOrRegexType (idx : Z) (field : string) (value : condition)
  : option error :=
  match value with
  | CondNil => None
  | CondString _ => None
  | CondRegex _ => None
  | CondOther => Some ("string literal or regex value is expected for " ++ field
                       ++ " in the " ++ itemNumber idx ++ ". trigger item")
  end.

(** [if err := e; err != nil { return err }] followed by the rest. *)
Definition orElse (e : option error) (rest : option error) : option error :=
  match e with
  | Some err => Some err
  | None => rest
  end.

Definition bothDefined (field other : string) (idx : Z) : error :=
  "both " ++ field ++ " and " ++ other ++ " defined in the "
  ++ itemNumber idx ++ ". trigger item".

Definition validateNoCodePushConditionsSet (item : TriggerMapItemModel)
    (idx : Z) (field : string) : option error :=
  if isStringLiteralOrRegexSet (PushBranch item) then
    Some (bothDefined field "push_branch" idx)
  else if isStringLiteralOrRegexSet (CommitMessage item) then
    Some (bothDefined field "commit_message" idx)
  else if isStringLiteralOrRegexSet (ChangedFiles item) then
    Some (bothDefined field "changed_files" idx)
  else None.

Definition validateNoTagPushConditionsSet (item : TriggerMapItemModel)
    (idx : Z) (field : string) : option error :=
  if isStringLiteralOrRegexSet (Tag item) then
    Some (bothDefined field "tag" idx)
  else None.

Definition validateNoPullRequestConditionsSet (item : TriggerMapItemModel)
    (idx : Z) (field : string) : option error :=
  if isStringLiteralOrRegexSet (PullRequestSourceBranch item) then
    Some (bothDefined field "pull_request_source_branch" idx)
  else if isStringLiteralOrRegexSet (PullRequestTargetBranch item) then
    Some (bothDefined field "pull_request_target_branch" idx)
  else if negb (Bool.eqb (IsDraftPullRequestEnabled item) defaultDraftPullRequestEnabled) then
    Some (bothDefined field "draft_pull_request_enabled" idx)
  else if isStringLiteralOrRegexSet (PullRequestLabel item) then
    Some (bothDefined field "pull_request_label" idx)
  else None.

Definition validateTarget (item : TriggerMapItemModel) (idx : Z)
    (workflows pipelines : list string) : list string * option error :=
  let warnings : list string := [] in
  if negb (PipelineID item =? "") && negb (WorkflowID item =? "") then
    (warnings,
     Some ("both pipeline and workflow are defined as trigger target for the "
           ++ itemNumber idx ++ ". trigger item"))
  else if (PipelineID item =? "") && (WorkflowID item =? "") then
    (warnings,
     Some ("no pipeline nor workflow is defined as a trigger target for the "
           ++ itemNumber idx ++ ". trigger item"))
  else
    let warnings :=
      if String.prefix "_" (WorkflowID item) then
        List.app warnings
          ["utility workflow (" ++ WorkflowID item
           ++ ") defined as trigger target for the " ++ itemNumber idx
           ++ ". trigger item, but utility workflows can't be triggered directly"]
      else warnings in
    if negb (PipelineID item =? "") then
      if negb (IsStringInSlice (PipelineID item) pipelines) then
        (warnings,
         Some ("pipeline (" ++ PipelineID item ++ ") defined in the "
               ++ itemNumber idx ++ ". trigger item, but does not exist"))
      else (warnings, None)
    else
      if negb (IsStringInSlice (WorkflowID item) workflows) then
        (warnings,
         Some ("workflow (" ++ WorkflowID item ++ ") defined in the "
               ++ itemNumber idx ++ ". trigger item, but does not exist"))
      else (warnings, None).

Definition validateTypeOfLegacyItem (item : TriggerMapItemModel) (idx : Z)
  : option error :=
  orElse (validateNoCodePushConditionsSet item idx "pattern")
  (orElse (validateNoTagPushConditionsSet item idx "pattern")
  (orElse (validateNoPullRequestConditionsSet item idx "pattern")
   None)).

Definition validateTypeOfItem (item : TriggerMapItemModel) (idx : Z)
  : option error :=
  if isStringLiteralOrRegexSet (PushBranch item) then
    orElse (validateNoTagPushConditionsSet item idx "push_branch")
    (orElse (validateNoPullRequestConditionsSet item idx "push_branch") None)
  else if isStringLiteralOrRegexSet (PullRequestSourceBranch item) then
    orElse (validateNoCodePushConditionsSet item idx "pull_request_source_branch")
    (orElse (validateNoTagPushConditionsSet item idx "pull_request_source_branch") None)
  else if isStringLiteralOrRegexSet (PullRequestTargetBranch item) then
    orElse (validateNoCodePushConditionsSet item idx "pull_request_target_branch")
    (orElse (validateNoTagPushConditionsSet item idx "pull_request_target_branch") None)
  else if isStringLiteralOrRegexSet (Tag item) then
    orElse (validateNoCodePushConditionsSet item idx "tag")
    (orElse (validateNoPullRequestConditionsSet item idx "tag") None)
  else if negb (isStringLiteralOrRegexSet (Tag item)) then
    Some ("no trigger condition defined defined in the "
          ++ itemNumber idx ++ ". trigger item")
  else None.

Definition validateTypeOfItemWithExplicitType (item : TriggerMapItemModel) (idx : Z)
  : option error :=
  if Type_ item =? CodePushType then
    orElse (validateNoTagPushConditionsSet item idx (CodePushType ++ " type"))
    (orElse (validateNoPullRequestConditionsSet item idx (CodePushType ++ " type")) None)
  else if Type_ item =? PullRequestType then
    orElse (validateNoCodePushConditionsSet item idx (PullRequestType ++ " type"))
    (orElse (validateNoTagPushConditionsSet item idx (PullRequestType ++ " type")) None)
  else if Type_ item =? TagPushType then
    orElse (validateNoCodePushConditionsSet item idx (TagPushType ++ " type"))
    (orElse (validateNoPullRequestConditionsSet item idx (TagPushType ++ " type")) None)
  else None.

Definition validateConditionValuesOfItem (item : TriggerMapItemModel) (idx : Z)
  : option error :=
  orElse (validateStringType idx "push_branch" (PushBranch item))
  (orElse (validateStringType idx "tag" (Tag item))
  (orElse (validateStringType idx "pull_request_source_branch"
             (PullRequestSourceBranch item))
  (orElse (validateStringType idx "pull_request_target_branch"
             (PullRequestTargetBranch item))
   None))).

Definition validateConditionValuesOfItemWithExplicitType
    (item : TriggerMapItemModel) (idx : Z) : option error :=
  orElse (validateStringOrRegexType idx "push_branch" (PushBranch item))
  (orElse (validateStringOrRegexType idx "commit_message" (CommitMessage item))
  (orElse (validateStringOrRegexType idx "changed_files" (ChangedFiles item))
  (orElse (validateStringOrRegexType idx "tag" (Tag item))
  (orElse (validateStringOrRegexType idx "pull_request_source_branch"
             (PullRequestSourceBranch item))
  (orElse (validateStringOrRegexType idx "pull_request_target_branch"
             (PullRequestTargetBranch item))
  (orElse (validateStringOrRegexType idx "pull_request_label"
             (PullRequestLabel item))
   None)))))).

Definition Validate (item : TriggerMapItemModel) (idx : Z)
    (workflows pipelines : list string) : list string * option error :=
  match validateTarget item idx workflows pipelines with
  | (warnings, Some err) => (warnings, Some err)
  | (warnings, None) =>
      if negb (Pattern item =? "") then
        (warnings, validateTypeOfLegacyItem item idx)
      else if Type_ item =? "" then
        (warnings,
         orElse (validateTypeOfItem item idx)
                (validateConditionValuesOfItem item idx))
      else
        (warnings,
         orElse (validateTypeOfItemWithExplicitType item idx)
                (validateConditionValuesOfItemWithExplicitType item idx))
  end.

(** ** cli/trigger_check.go *)

Fixpoint validateTriggerMap (triggerMap : list TriggerMapItemModel) : option error :=
  match triggerMap with
  | [] => None
  | item :: rest =>
      if Pattern item =? "" then
        Some ("invalid trigger item: (" ++ Pattern item ++ ") -> ("
              ++ WorkflowID item ++ "), error: empty pattern")
      else if WorkflowID item =? "" then
        Some ("invalid trigger item: (" ++ Pattern item ++ ") -> ("
              ++ WorkflowID item ++ "), error: empty workflow id")
      else validateTriggerMap rest
  end.

Definition errDisabledInPullRequestMode (pattern : string) : error :=
  "Run triggered by pattern: (" ++ pattern
  ++ ") in pull request mode, but matching workflow disabled in pull request mode".

Definition errNoMatchingWorkflow (pattern : string) : error :=
  "Run triggered by pattern: (" ++ pattern ++ "), but no matching workflow found".

Section PatternLookup.

Variable Glob : string -> string -> bool.

(** The loop of [getWorkflowIDByPattern]; the flag
    [matchFoundButPullRequestModeNotAllowed] is threaded through, and the two
    statements after the loop are its base case. *)
Fixpoint lookupLoop (triggerMap : list TriggerMapItemModel) (pattern : string)
    (isPullRequestMode : bool) (matchFoundButPullRequestModeNotAllowed : bool)
  : string * option error :=
  match triggerMap with
  | [] =>
      if matchFoundButPullRequestModeNotAllowed then
        ("", Some (errDisabledInPullRequestMode pattern))
      else ("", Some (errNoMatchingWorkflow pattern))
  | item :: rest =>
      if Glob (Pattern item) pattern then
        if isPullRequestMode && negb (IsPullRequestAllowed item) then
          lookupLoop rest pattern isPullRequestMode true
        else (WorkflowID item, None)
      else lookupLoop rest pattern isPullRequestMode
             matchFoundButPullRequestModeNotAllowed
  end.

Definition getWorkflowIDByPattern (triggerMap : list TriggerMapItemModel)
    (pattern : string) (isPullRequestMode : bool) : string * option error :=
  match validateTriggerMap triggerMap with
  | Some err => ("", Some err)
  | None => lookupLoop triggerMap pattern isPullRequestMode false
  end.

End PatternLookup.

(** A star-only wildcard matcher standing for [glob.Glob] when the
    definitions above are run on concrete data. *)
Fixpoint starGlob (pattern subj : string) : bool :=
  match pattern with
  | EmptyString => subj =? ""
  | String c rest =>
      if Ascii.eqb c "*"%char then
        (fix skip (s : string) : bool :=
           starGlob rest s ||
           match s with
           | EmptyString => false
           | String _ s' => skip s'
           end) subj
      else
        match subj with
        | EmptyString => false
        | String d s' => Ascii.eqb c d && starGlob rest s'
        end
  end.

(** ** Config composition engine

    The package [configmerge] is present in the repository only through its
    test file, which fixes the reference fields, the names of two limits, the
    error messages and five failing compositions.  The engine below follows
    the recursive descent of the specification and is run on those five
    compositions further down. *)

Module ConfigMerge.

Record ConfigReference : Type := mkReference {
  Repository : string;
  Branch : string;
  Commit : string;
  Tag : string;
  Path : string
}.

Definition isLocalReference (ref : ConfigReference) : bool :=
  Repository ref =? "".

(** Modelled from the spec: the four fixed limits.  The test file names
    [MaxFileSizeBytes] and [MaxIncludeCountPerFile] and prints the four
    values in the messages it expects. *)
Definition MaxFileSizeBytes : N := 1048576.
Definition MaxIncludeCountPerFile : nat := 10.
Definition MaxFilesCountTotal : nat := 20.
Definition MaxIncludeDepth : nat := 5.

(** Modelled from the spec: the failures of one composition run (cycle,
    depth, file count, fetch, size, parse, include count).  A reference is
    named by its key. *)
Inductive mergeError : Type :=
| ErrCircularReference (chain : list string)
| ErrMaxIncludeDepth
| ErrMaxFilesCount
| ErrRead (key : string)
| ErrMaxFileSize (key : string)
| ErrParse (key : string)
| ErrMaxIncludeCount.

Fixpoint joinArrow (keys : list string) : string :=
  match keys with
  | [] => ""
  | [k] => k
  | k :: rest => k ++ " -> " ++ joinArrow rest
  end.

Definition natText (n : nat) : string := itoa (Z.of_nat n).

(** The message of each failure, in the wording the test file expects.  The
    test file does not word the read and parse failures of the engine: their
    text here only names the offending reference. *)
Definition errorText (e : mergeError) : string :=
  match e with
  | ErrCircularReference chain =>
      "circular reference detected: " ++ joinArrow chain
  | ErrMaxIncludeDepth =>
      "max include depth (" ++ natText MaxIncludeDepth ++ ") exceeded"
  | ErrMaxFilesCount =>
      "max file count (" ++ natText MaxFilesCountTotal ++ ") exceeded"
  | ErrRead key => "file not found: " ++ key
  | ErrMaxFileSize key =>
      "max file size (" ++ itoa (Z.of_N MaxFileSizeBytes)
      ++ " bytes) exceeded in file " ++ key
  | ErrParse key => "failed to parse config: " ++ key
  | ErrMaxIncludeCount =>
      "max include count (" ++ natText MaxIncludeCountPerFile ++ ") exceeded"
  end.

Inductive result (A : Type) : Type :=
| Ok (a : A)
| Err (e : mergeError)
| OutOfFuel.
Arguments Ok {A} a.
Arguments Err {A} e.
Arguments OutOfFuel {A}.

(** Modelled from the spec: the Merge State, with the number of files read
    so far and the distinct references incorporated; the visited chain and
    the depth are arguments of the descent. *)
Record MergeState : Type := mkState {
  filesLoaded : nat;
  provenance : list string
}.

Definition initialState : MergeState :=
  {| filesLoaded := 0; provenance := [] |}.

Definition recordLoad (key : string) (st : MergeState) : MergeState :=
  {| filesLoaded := S (filesLoaded st);
     provenance := if IsStringInSlice key (provenance st) then provenance st
                   else List.app (provenance st) [key] |}.

Section Engine.

(** The merged document and its deep merge (the second argument wins). *)
Variable Doc : Type.
Variable emptyDoc : Doc.
Variable mergeDoc : Doc -> Doc -> Doc.

(** A fragment once parsed: its [include] list and its own keys. *)
Record Fragment : Type := mkFragment {
  fragIncludes : list ConfigReference;
  fragBody : Doc
}.

(** The bytes a read returned: their number, and their parse as a
    structured mapping ([None] when they are not one). *)
Record RawFile : Type := mkRawFile {
  rawSize : N;
  rawParse : option Fragment
}.

(** The canonical identity of a reference (path, repository, selector). *)
Variable Key : ConfigReference -> string.

(** The Content Reader: [read reference currentDir]. *)
Variable read : ConfigReference -> string -> option RawFile.

(** The directory against which the local includes of the file [ref], itself
    read from [dir], are resolved; the root of the repository for a
    reference that names one. *)
Variable includeDir : string -> ConfigReference -> string.

(** Modelled from the spec: the includes of one fragment, resolved in listed
    order and merged into the accumulator [acc], the first failure aborting
    the run. *)
Fixpoint mergeIncludes
    (resolve : ConfigReference -> MergeState -> result (Doc * MergeState))
    (includes : list ConfigReference) (acc : Doc) (st : MergeState)
  : result (Doc * MergeState) :=
  match includes with
  | [] => Ok (acc, st)
  | include :: rest =>
      match resolve include st with
      | Ok (sub, st') => mergeIncludes resolve rest (mergeDoc acc sub) st'
      | Err e => Err e
      | OutOfFuel => OutOfFuel
      end
  end.

(** Modelled from the spec: the recursive descent of the Config Composition
    Engine ([Merger.MergeConfig] is not among the sources).  The steps are
    those of the specification, in its order: cycle check against the
    visited chain, depth and file count checks, read and size check, parse,
    include count check, the includes in listed order at [depth+1] with the
    reference pushed on the chain, then the fragment's own keys on top.
    Where the wording leaves a boundary open the test file decides it: the
    chain reported for a cycle is the whole visited chain followed by the
    repeated reference, a file is counted each time it is read, and the file
    five includes below the root is refused. *)
Fixpoint mergeReference (fuel : nat) (ref : ConfigReference) (dir : string)
    (depth : nat) (visited : list string) (st : MergeState)
  : result (Doc * MergeState) :=
  match fuel with
  | O => OutOfFuel
  | S fuel' =>
      let key := Key ref in
      if IsStringInSlice key visited then
        Err (ErrCircularReference (List.app visited [key]))
      else if (MaxIncludeDepth <=? depth)%nat then Err ErrMaxIncludeDepth
      else if (MaxFilesCountTotal <? S (filesLoaded st))%nat then Err ErrMaxFilesCount
      else
        match read ref dir with
        | None => Err (ErrRead key)
        | Some raw =>
            if (MaxFileSizeBytes <? rawSize raw)%N then Err (ErrMaxFileSize key)
            else
              match rawParse raw with
              | None => Err (ErrParse key)
              | Some frag =>
                  if (MaxIncludeCountPerFile <? length (fragIncludes frag))%nat then
                    Err ErrMaxIncludeCount
                  else
                    match
                      mergeIncludes
                        (fun include s =>
                           mergeReference fuel' include (includeDir dir ref)
                             (S depth) (List.app visited [key]) s)
                        (fragIncludes frag) emptyDoc (recordLoad key st)
                    with
                    | Ok (acc, st') => Ok (mergeDoc acc (fragBody frag), st')
                    | Err e => Err e
                    | OutOfFuel => OutOfFuel
                    end
              end
        end
  end.

(** Modelled from the spec: [mergeConfig(rootReference)], the descent from
    the root at depth 0 with an empty visited chain and a fresh Merge State;
    it returns the merged document and the provenance list (the
    serialization of the document to text is left to the caller). *)
Definition mergeConfig (root : ConfigReference)
  : result (Doc * list string) :=
  match mergeReference (S MaxIncludeDepth) root "" 0 [] initialState with
  | Ok (doc, st) => Ok (doc, provenance st)
  | Err e => Err e
  | OutOfFuel => OutOfFuel
  end.

(** The include graph: an edge from a file read from [dir] to each entry of
    its include list, resolved against the directory of that file. *)
Definition includeEdge (x y : ConfigReference * string) : Prop :=
  exists raw frag,
    read (fst x) (snd x) = Some raw /\
    rawParse raw = Some frag /\
    In (fst y) (fragIncludes frag) /\
    snd y = includeDir (snd x) (fst x).

Inductive includePath : nat -> ConfigReference * string -> ConfigReference * string -> Prop :=
| includePath_refl : forall x, includePath 0 x x
| includePath_step : forall n x y z,
    includeEdge x y -> includePath n y z -> includePath (S n) x z.

(** A cycle of the include graph that the root reaches. *)
Definition cyclicFrom (root : ConfigReference) : Prop :=
  exists x a m, includePath a (root, "") x /\ includePath (S m) x x.

(** An include path with the keys of the files it leaves behind: the keys
    of the files from [x] down to [y], [y] excluded, in traversal order.
    They are what the descent has pushed on the visited chain when it
    reaches [y] from [x]. *)
Inductive includeChain
  : ConfigReference * string -> list string -> ConfigReference * string -> Prop :=
| includeChain_here : forall x, includeChain x [] x
| includeChain_step : forall x y z keys,
    includeEdge x y -> includeChain y keys z ->
    includeChain x (Key (fst x) :: keys) z.

(** What a failure tells of the reference [y] at which it arises, met
    [depth] includes below the root with [visited] on the chain. *)
Definition failsAt (e : mergeError) (y : ConfigReference * string)
    (depth : nat) (visited : list string) : Prop :=
  match e with
  | ErrCircularReference chain =>
      In (Key (fst y)) visited /\ chain = List.app visited [Key (fst y)]
  | ErrMaxIncludeDepth => MaxIncludeDepth <= depth
  | ErrMaxFilesCount => True
  | ErrRead key => key = Key (fst y) /\ read (fst y) (snd y) = None
  | ErrMaxFileSize key =>
      key = Key (fst y) /\
      exists raw,
        read (fst y) (snd y) = Some raw /\ (MaxFileSizeBytes < rawSize raw)%N
  | ErrParse key =>
      key = Key (fst y) /\
      exists raw, read (fst y) (snd y) = Some raw /\ rawParse raw = None
  | ErrMaxIncludeCount =>
      exists raw frag,
        read (fst y) (snd y) = Some raw /\ rawParse raw = Some frag /\
        MaxIncludeCountPerFile < length (fragIncludes frag)
  end.

(** The number of file reads that the include tree of [ref] asks for, a
    file counted each time it is included (the tree is unfolded [fuel]
    levels deep). *)
Fixpoint readCount (fuel : nat) (ref : ConfigReference) (dir : string) : nat :=
  match fuel with
  | O => 0
  | S fuel' =>
      match read ref dir with
      | None => 1
      | Some raw =>
          match rawParse raw with
          | None => 1
          | Some frag =>
              S (list_sum
                   (map (fun include => readCount fuel' include (includeDir dir ref))
                        (fragIncludes frag)))
          end
      end
  end.

(** The files [files], the first read from [dir], each of admissible size
    and include count and each having the next one as its first include
    entry; the first include entry of the last one is [back]. *)
Fixpoint followsFirst (files : list ConfigReference) (dir : string)
    (back : ConfigReference) : Prop :=
  match files with
  | [] => False
  | f :: rest =>
      exists raw frag others,
        read f dir = Some raw /\
        (rawSize raw <= MaxFileSizeBytes)%N /\
        rawParse raw = Some frag /\
        fragIncludes frag
        = match rest with [] => back | g :: _ => g end :: others /\
        length (fragIncludes frag) <= MaxIncludeCountPerFile /\
        match rest with
        | [] => True
        | _ :: _ => followsFirst rest (includeDir dir f) back
        end
  end.

End Engine.

Arguments fragIncludes {Doc} f.
Arguments fragBody {Doc} f.
Arguments mkFragment {Doc} fragIncludes fragBody.
Arguments rawSize {Doc} r.
Arguments rawParse {Doc} r.
Arguments mkRawFile {Doc} rawSize rawParse.

(** *** The compositions of the test file

    Documents are flat here: a list of top level keys with their text; a
    later binding of a key replaces the earlier one. *)

Definition FlatDoc : Type := list (string * string).

Fixpoint setKey (k v : string) (d : FlatDoc) : FlatDoc :=
  match d with
  | [] => [(k, v)]
  | (k', v') :: rest =>
      if k' =? k then (k, v) :: rest else (k', v') :: setKey k v rest
  end.

Definition mergeFlat (low high : FlatDoc) : FlatDoc :=
  fold_left (fun acc kv => setKey (fst kv) (snd kv) acc) high low.

Definition localRef (path : string) : ConfigReference :=
  {| Repository := ""; Branch := ""; Commit := ""; Tag := ""; Path := path |}.

Definition branchRef (repo branch path : string) : ConfigReference :=
  {| Repository := repo; Branch := branch; Commit := ""; Tag := ""; Path := path |}.

(** In the tests every file lies in one directory and is named by its path. *)
Definition pathKey (ref : ConfigReference) : string := Path ref.
Definition sameDir (dir : string) (ref : ConfigReference) : string := dir.

Definition file (size : N) (includes : list ConfigReference) (body : FlatDoc)
  : option (@RawFile FlatDoc) :=
  Some (mkRawFile size (Some (mkFragment includes body))).

Definition rootBody : FlatDoc :=
  [("format_version", "15");
   ("default_step_lib_source", "https://github.com/bitrise-io/bitrise-steplib.git")].

Definition runTest (read : ConfigReference -> string -> option (@RawFile FlatDoc))
  : result (FlatDoc * list string) :=
  mergeConfig FlatDoc [] mergeFlat pathKey read sameDir (localRef "bitrise.yml").

(** "Max file size is 1MB", parameterised by the size of the only file. *)
Definition readSized (size : N) (ref : ConfigReference) (dir : string)
  : option (@RawFile FlatDoc) :=
  if Path ref =? "bitrise.yml" then file size [] [] else None.

(** "Circular dependency is not allowed" *)
Definition readCircular (ref : ConfigReference) (dir : string)
  : option (@RawFile FlatDoc) :=
  if Path ref =? "bitrise.yml" then file 113 [localRef "module_1.yml"] rootBody
  else if Path ref =? "module_1.yml" then file 29 [localRef "module_2.yml"] []
  else if Path ref =? "module_2.yml" then file 29 [localRef "module_1.yml"] []
  else None.

(** "Max 10 include items are allowed": [n] include entries, none of which
    can be read. *)
Definition readManyIncludes (n : nat) (ref : ConfigReference) (dir : string)
  : option (@RawFile FlatDoc) :=
  if Path ref =? "bitrise.yml" then
    file 200 (repeat (localRef "path_1.yml") n) rootBody
  else None.

(** "Max 20 config files are allowed": the root includes [path_1.yml] [n]
    times and [path_2.yml] [m] times; [path_1.yml] includes [path_2.yml]. *)
Definition readManyFiles (n m : nat) (ref : ConfigReference) (dir : string)
  : option (@RawFile FlatDoc) :=
  if Path ref =? "bitrise.yml" then
    file 200 (List.app (repeat (localRef "path_1.yml") n)
                       (repeat (localRef "path_2.yml") m)) rootBody
  else if Path ref =? "path_1.yml" then file 29 [localRef "path_2.yml"] []
  else if Path ref =? "path_2.yml" then file 0 [] []
  else None.

(** "Max include depth is 5": [bitrise.yml] includes [module_1.yml] of a
    repository, and [module_i.yml] includes [module_(i+1).yml] up to
    [module_last.yml], which is empty. *)
Definition yamls : string := "http://github.com/bitrise-io/bitrise-yamls.git".

Definition moduleName (i : nat) : string := "module_" ++ natText i ++ ".yml".

Definition readDeep (last : nat) (ref : ConfigReference) (dir : string)
  : option (@RawFile FlatDoc) :=
  if isLocalReference ref then
    if Path ref =? "bitrise.yml" then
      file 200 [branchRef yamls "main" (moduleName 1)] rootBody
    else None
  else if (Repository ref =? yamls) && (Branch ref =? "main") then
    (fix find (i : nat) (todo : nat) : option (@RawFile FlatDoc) :=
       match todo with
       | O => None
       | S todo' =>
           if Path ref =? moduleName i then
             if (i =? last)%nat then file 0 [] []
             else file 100 [branchRef yamls "main" (moduleName (S i))] []
           else find (S i) todo'
       end) 1 last
  else None.

(** A three-file mutual inclusion: [a.yml -> b.yml -> c.yml -> a.yml]. *)
Definition readTriangle (ref : ConfigReference) (dir : string)
  : option (@RawFile FlatDoc) :=
  if Path ref =? "a.yml" then file 10 [localRef "b.yml"] [("name", "a")]
  else if Path ref =? "b.yml" then file 10 [localRef "c.yml"] []
  else if Path ref =? "c.yml" then file 10 [localRef "a.yml"] []
  else None.

(** A root that includes one module of [size] bytes with [count] include
    entries, each naming an empty file. *)
Definition readNested (size : N) (count : nat) (ref : ConfigReference)
    (dir : string) : option (@RawFile FlatDoc) :=
  if Path ref =? "bitrise.yml" then file 113 [localRef "module_1.yml"] rootBody
  else if Path ref =? "module_1.yml" then
    file size (repeat (localRef "leaf.yml") count) []
  else if Path ref =? "leaf.yml" then file 0 [] []
  else None.

(** A cycle through six files: [f0 -> f1 -> ... -> f5 -> f0]. *)
Definition readRing (ref : ConfigReference) (dir : string)
  : option (@RawFile FlatDoc) :=
  if Path ref =? "f0" then file 10 [localRef "f1"] []
  else if Path ref =? "f1" then file 10 [localRef "f2"] []
  else if Path ref =? "f2" then file 10 [localRef "f3"] []
  else if Path ref =? "f3" then file 10 [localRef "f4"] []
  else if Path ref =? "f4" then file 10 [localRef "f5"] []
  else if Path ref =? "f5" then file 10 [localRef "f0"] []
  else None.

End ConfigMerge.

(** ** Vocabulary of the properties *)

(** A classification result is an error when its second component is set. *)
Definition failed {A : Type} (r : A * option error) : Prop := snd r <> None.

(** The target of a rule: its pipeline id and its workflow id. *)
Definition target (item : TriggerMapItemModel) : string * string :=
  (PipelineID item, WorkflowID item).

(** The push-branch rule and the pull-request-source-branch rule that carry
    [pattern] and the workflow id [workflow], every other field zero. *)
Definition pushBranchRule (pattern workflow : string) : TriggerMapItemModel :=
  {| Type_ := ""; Enabled := false; PipelineID := ""; WorkflowID := workflow;
     PushBranch := CondString pattern;
     CommitMessage := CondNil; ChangedFiles := CondNil; Tag := CondNil;
     PullRequestSourceBranch := CondNil; PullRequestTargetBranch := CondNil;
     DraftPullRequestEnabled := None; PullRequestLabel := CondNil;
     Pattern := ""; IsPullRequestAllowed := false |}.

Definition pullRequestSourceRule (pattern workflow : string) : TriggerMapItemModel :=
  {| Type_ := ""; Enabled := false; PipelineID := ""; WorkflowID := workflow;
     PushBranch := CondNil;
     CommitMessage := CondNil; ChangedFiles := CondNil; Tag := CondNil;
     PullRequestSourceBranch := CondString pattern;
     PullRequestTargetBranch := CondNil;
     DraftPullRequestEnabled := None; PullRequestLabel := CondNil;
     Pattern := ""; IsPullRequestAllowed := false |}.

(** A condition that [stringFromTriggerCondition] can reduce. *)
Definition plainCondition (c : condition) : bool :=
  match c with
  | CondNil | CondString _ => true
  | CondRegex _ | CondOther => false
  end.

(** A rule all of whose classified conditions can be reduced. *)
Definition plainRule (item : TriggerMapItemModel) : bool :=
  plainCondition (PushBranch item)
  && plainCondition (PullRequestSourceBranch item)
  && plainCondition (PullRequestTargetBranch item)
  && plainCondition (Tag item).

(** The draft state mismatch of a pull-request rule. *)
Definition draftMismatch (draftEnabled : bool) (prReadyState : PullRequestReadyState)
  : bool :=
  (draftEnabled && (prReadyState =? PullRequestReadyStateConvertedToReadyForReview))
  || (negb draftEnabled && (prReadyState =? PullRequestReadyStateDraft)).

(** A legacy rule accepts the pattern of a run: its own pattern glob-matches
    and, in pull request mode, the rule allows pull requests. *)
Definition acceptsPattern (Glob : string -> string -> bool)
    (pattern : string) (isPullRequestMode : bool) (item : TriggerMapItemModel)
  : bool :=
  Glob (Pattern item) pattern
  && negb (isPullRequestMode && negb (IsPullRequestAllowed item)).

(** A rule that glob-matches in pull request mode but does not allow pull
    requests. *)
Definition disabledMatch (Glob : string -> string -> bool)
    (pattern : string) (item : TriggerMapItemModel) : bool :=
  Glob (Pattern item) pattern && negb (IsPullRequestAllowed item).

(** ** Sample rules *)

Definition regexPushRule : TriggerMapItemModel :=
  {| Type_ := CodePushType; Enabled := true; PipelineID := "";
     WorkflowID := "primary";
     PushBranch := CondRegex {| Regex := "main" |};
     CommitMessage := CondNil; ChangedFiles := CondNil; Tag := CondNil;
     PullRequestSourceBranch := CondNil; PullRequestTargetBranch := CondNil;
     DraftPullRequestEnabled := None; PullRequestLabel := CondNil;
     Pattern := ""; IsPullRequestAllowed := false |}.

Definition untypedRegexMessageRule : TriggerMapItemModel :=
  {| Type_ := ""; Enabled := true; PipelineID := "";
     WorkflowID := "primary";
     PushBranch := CondString "main";
     CommitMessage := CondRegex {| Regex := "fix.*" |};
     ChangedFiles := CondNil; Tag := CondNil;
     PullRequestSourceBranch := CondNil; PullRequestTargetBranch := CondNil;
     DraftPullRequestEnabled := None; PullRequestLabel := CondNil;
     Pattern := ""; IsPullRequestAllowed := false |}.

Definition legacyRule (pattern workflow : string) (allowed : bool)
  : TriggerMapItemModel :=
  {| Type_ := ""; Enabled := true; PipelineID := ""; WorkflowID := workflow;
     PushBranch := CondNil; CommitMessage := CondNil; ChangedFiles := CondNil;
     Tag := CondNil; PullRequestSourceBranch := CondNil;
     PullRequestTargetBranch := CondNil; DraftPullRequestEnabled := None;
     PullRequestLabel := CondNil; Pattern := pattern;
     IsPullRequestAllowed := allowed |}.

Definition sampleTriggerMap : list TriggerMapItemModel :=
  [legacyRule "release/*" "deploy" false;
   legacyRule "*" "primary" true;
   legacyRule "ma*" "other" true].

Definition legacyPipelineRule : TriggerMapItemModel :=
  {| Type_ := ""; Enabled := true; PipelineID := "deploy"; WorkflowID := "";
     PushBranch := CondNil; CommitMessage := CondNil; ChangedFiles := CondNil;
     Tag := CondNil; PullRequestSourceBranch := CondNil;
     PullRequestTargetBranch := CondNil; DraftPullRequestEnabled := None;
     PullRequestLabel := CondNil; Pattern := "release/*";
     IsPullRequestAllowed := true |}.

Definition pullRequestRule (source targetBranch : condition) (draft : option bool)
  : TriggerMapItemModel :=
  {| Type_ := PullRequestType; Enabled := true; PipelineID := "";
     WorkflowID := "check";
     PushBranch := CondNil; CommitMessage := CondNil; ChangedFiles := CondNil;
     Tag := CondNil; PullRequestSourceBranch := source;
     PullRequestTargetBranch := targetBranch; DraftPullRequestEnabled := draft;
     PullRequestLabel := CondNil; Pattern := ""; IsPullRequestAllowed := false |}.

(** A modern rule whose conditions mix the code-push and tag families. *)
Definition mixedRule : TriggerMapItemModel :=
  {| Type_ := ""; Enabled := true; PipelineID := ""; WorkflowID := "primary";
     PushBranch := CondString "main";
     CommitMessage := CondNil; ChangedFiles := CondNil;
     Tag := CondString "v1";
     PullRequestSourceBranch := CondNil; PullRequestTargetBranch := CondNil;
     DraftPullRequestEnabled := None; PullRequestLabel := CondNil;
     Pattern := ""; IsPullRequestAllowed := false |}.

(** The warning of [validateTarget] for a utility workflow. *)
Definition utilityWarning (item : TriggerMapItemModel) (idx : Z) : string :=
  "utility workflow (" ++ WorkflowID item
  ++ ") defined as trigger target for the " ++ itemNumber idx
  ++ ". trigger item, but utility workflows can't be triggered directly".

(** ** models/models.go: step run status *)

Definition StepRunStatusCodeSuccess : Z := 0.
Definition StepRunStatusCodeFailed : Z := 1.
Definition StepRunStatusCodeFailedSkippable : Z := 2.
Definition StepRunStatusCodeSkipped : Z := 3.
Definition StepRunStatusCodeSkippedWithRunIf : Z := 4.
Definition StepRunStatusCodePreparationFailed : Z := 5.
Definition StepRunStatusAbortedWithCustomTimeout : Z := 7.
Definition StepRunStatusAbortedWithNoOutputTimeout : Z := 8.

(** [StepRunStatus] is an [int]: any value can occur. *)
Definition StepRunStatus : Type := Z.

Definition HumanReadableStatus (s : StepRunStatus) : string :=
  if (s =? StepRunStatusCodeSuccess)%Z then "success"
  else if (s =? StepRunStatusCodeFailed)%Z then "failed"
  else if (s =? StepRunStatusCodeFailedSkippable)%Z then "failed_skippable"
  else if (s =? StepRunStatusCodeSkipped)%Z then "skipped"
  else if (s =? StepRunStatusCodeSkippedWithRunIf)%Z then "skipped_with_run_if"
  else if (s =? StepRunStatusCodePreparationFailed)%Z then "preparation_failed"
  else if (s =? StepRunStatusAbortedWithCustomTimeout)%Z
  then "aborted_with_custom_timeout"
  else if (s =? StepRunStatusAbortedWithNoOutputTimeout)%Z
  then "aborted_with_no_output"
  else "unknown".

Definition IsFailure (s : StepRunStatus) : bool :=
  if (s =? StepRunStatusCodeFailed)%Z
     || (s =? StepRunStatusCodePreparationFailed)%Z
     || (s =? StepRunStatusAbortedWithCustomTimeout)%Z
     || (s =? StepRunStatusAbortedWithNoOutputTimeout)%Z
     || (s =? StepRunStatusCodeFailedSkippable)%Z
  then true else false.

Definition InternalStatus (status : string) : Z :=
  if status =? "success" then StepRunStatusCodeSuccess
  else if status =? "failed" then StepRunStatusCodeFailed
  else if status =? "failed_skippable" then StepRunStatusCodeFailedSkippable
  else if status =? "skipped" then StepRunStatusCodeSkipped
  else if status =? "skipped_with_run_if" then StepRunStatusCodeSkippedWithRunIf
  else if status =? "preparation_failed" then StepRunStatusCodePreparationFailed
  else if status =? "aborted_with_custom_timeout"
  then StepRunStatusAbortedWithCustomTimeout
  else if status =? "aborted_with_no_output"
  then StepRunStatusAbortedWithNoOutputTimeout
  else (-1)%Z.

(** [strings.TrimSpace] on the white space bytes of ASCII (tab, line feed,
    vertical tab, form feed, carriage return, space). *)
Definition isSpace (c : ascii) : bool :=
  let n := nat_of_ascii c in
  ((9 <=? n)%nat && (n <=? 13)%nat) || (n =? 32)%nat.

Fixpoint trimLeft (s : string) : string :=
  match s with
  | EmptyString => EmptyString
  | String c rest => if isSpace c then trimLeft rest else s
  end.

Fixpoint trimRight (s : string) : string :=
  match s with
  | EmptyString => EmptyString
  | String c rest =>
      match trimRight rest with
      | EmptyString => if isSpace c then EmptyString else String c EmptyString
      | kept => String c kept
      end
  end.

Definition TrimSpace (s : string) : string := trimRight (trimLeft s).

(** The words of a duration, joined by single spaces. *)
Definition timeWords (h m s : Z) : string :=
  String.concat " "
    (List.app (if (0 <? h)%Z then [itoa h ++ "h"] else [])
       (List.app (if (0 <? m)%Z then [itoa m ++ "m"] else [])
                 (if (0 <? s)%Z then [itoa s ++ "s"] else []))).

(** A string without white space bytes. *)
Fixpoint noSpaces (s : string) : bool :=
  match s with
  | EmptyString => true
  | String c rest => negb (isSpace c) && noSpaces rest
  end.

(** Integer division of Go truncates toward zero; the products and
    differences are those of a 64 bit [int]. *)
Definition formatStatusReasonTimeInterval (timeInterval : Z) : string :=
  let remaining := timeInterval in
  let h := Z.quot remaining 3600 in
  let remaining := wrapInt (remaining - wrapInt (h * 3600)) in
  let m := Z.quot remaining 60 in
  let remaining := wrapInt (remaining - wrapInt (m * 60)) in
  let s := remaining in
  let formattedTimeInterval := "" in
  let formattedTimeInterval :=
    if (0 <? h)%Z then formattedTimeInterval ++ (itoa h ++ "h ")
    else formattedTimeInterval in
  let formattedTimeInterval :=
    if (0 <? m)%Z then formattedTimeInterval ++ (itoa m ++ "m ")
    else formattedTimeInterval in
  let formattedTimeInterval :=
    if (0 <? s)%Z then formattedTimeInterval ++ (itoa s ++ "s")
    else formattedTimeInterval in
  TrimSpace formattedTimeInterval.

(** The pointer fields of [stepmanModels.StepModel] that [StatusReason]
    dereferences; [None] is the nil pointer. *)
Record StepModel : Type := mkStepModel {
  RunIf : option string;
  Timeout : option Z;
  NoOutputTimeout : option Z
}.

(** The fields of [StepRunResultsModel] that [StatusReason] reads. *)
Record StepRunResultsModel : Type := mkStepRunResults {
  Step : StepModel;
  Status : StepRunStatus;
  ExitCode : Z
}.

Definition nilDereference : string :=
  "runtime error: invalid memory address or nil pointer dereference".

Definition StatusReason (s : StepRunResultsModel) : outcome string :=
  if (Status s =? StepRunStatusCodeSuccess)%Z then Returned ""
  else if (Status s =? StepRunStatusCodeFailed)%Z
          || (Status s =? StepRunStatusCodePreparationFailed)%Z
  then Returned ("exit code: " ++ itoa (ExitCode s))
  else if (Status s =? StepRunStatusCodeFailedSkippable)%Z
  then Returned "This Step failed, but it was marked as “is_skippable”, so the build continued."
  else if (Status s =? StepRunStatusCodeSkipped)%Z
  then Returned "This Step was skipped, because a previous Step failed, and this Step was not marked “is_always_run”."
  else if (Status s =? StepRunStatusCodeSkippedWithRunIf)%Z
  then
    match RunIf (Step s) with
    | None => Panicked nilDereference
    | Some runIf =>
        Returned ("
This Step was skipped, because its “run_if” expression evaluated to false.

The “run_if” expression was: " ++ runIf ++ "
")
    end
  else if (Status s =? StepRunStatusAbortedWithCustomTimeout)%Z
  then
    match Timeout (Step s) with
    | None => Panicked nilDereference
    | Some timeout =>
        Returned ("This Step timed out after "
                  ++ formatStatusReasonTimeInterval timeout ++ ".")
    end
  else if (Status s =? StepRunStatusAbortedWithNoOutputTimeout)%Z
  then
    match NoOutputTimeout (Step s) with
    | None => Panicked nilDereference
    | Some timeout =>
        Returned ("This Step failed, because it has not sent any output for "
                  ++ formatStatusReasonTimeInterval timeout ++ ".")
    end
  else Returned "unknown result code".

(** A step aborted by its custom timeout of ninety seconds. *)
Definition timedOutStep : StepRunResultsModel :=
  {| Step := {| RunIf := None; Timeout := Some 90%Z; NoOutputTimeout := None |};
     Status := StepRunStatusAbortedWithCustomTimeout;
     ExitCode := 1 |}.

(** ** cli/trigger_check.go: command parameters *)

Module TriggerParams.

Record RunAndTriggerParamsModel : Type := mkParams {
  WorkflowToRunID : string;
  TriggerPattern : string;
  PushBranch : string;
  PRSourceBranch : string;
  PRTargetBranch : string;
  Format : string;
  BitriseConfigPath : string;
  BitriseConfigBase64Data : string;
  InventoryPath : string;
  InventoryBase64Data : string
}.

Definition zeroParams : RunAndTriggerParamsModel :=
  {| WorkflowToRunID := ""; TriggerPattern := ""; PushBranch := "";
     PRSourceBranch := ""; PRTargetBranch := ""; Format := "";
     BitriseConfigPath := ""; BitriseConfigBase64Data := "";
     InventoryPath := ""; InventoryBase64Data := "" |}.

(** [if flag != "" { field = flag }] *)
Definition override (flag field : string) : string :=
  if negb (flag =? "") then flag else field.

Section Parsing.

(** [json.Unmarshal] into a fresh [RunAndTriggerParamsModel], and
    [base64.StdEncoding.DecodeString]: the decoded value or the error. *)
Variable jsonUnmarshal : string -> RunAndTriggerParamsModel + error.
Variable base64Decode : string -> string + error.

Definition parseRunAndTriggerJSONParams (jsonParams : string)
  : RunAndTriggerParamsModel * option error :=
  match jsonUnmarshal jsonParams with
  | inr err => (zeroParams, Some err)
  | inl params => (params, None)
  end.

(** The tail of [parseRunAndTriggerParams], from the parse of the JSON
    parameters on. *)
Definition parseAndOverride
    (workflowToRunID triggerPattern pushBranch prSourceBranch prTargetBranch
       format bitriseConfigPath bitriseConfigBase64Data
       inventoryPath inventoryBase64Data jsonParams : string)
  : RunAndTriggerParamsModel * option error :=
  let parsed :=
    if negb (jsonParams =? "") then parseRunAndTriggerJSONParams jsonParams
    else (zeroParams, None) in
  match parsed with
  | (_, Some err) => (zeroParams, Some err)
  | (params, None) =>
      ({| WorkflowToRunID := override workflowToRunID (WorkflowToRunID params);
          TriggerPattern := override triggerPattern (TriggerPattern params);
          PushBranch := override pushBranch (PushBranch params);
          PRSourceBranch := override prSourceBranch (PRSourceBranch params);
          PRTargetBranch := override prTargetBranch (PRTargetBranch params);
          Format := override format (Format params);
          BitriseConfigPath :=
            override bitriseConfigPath (BitriseConfigPath params);
          BitriseConfigBase64Data :=
            override bitriseConfigBase64Data (BitriseConfigBase64Data params);
          InventoryPath := override inventoryPath (InventoryPath params);
          InventoryBase64Data :=
            override inventoryBase64Data (InventoryBase64Data params) |},
       None)
  end.

Definition parseRunAndTriggerParams
    (workflowToRunID triggerPattern pushBranch prSourceBranch prTargetBranch
       format bitriseConfigPath bitriseConfigBase64Data
       inventoryPath inventoryBase64Data jsonParams base64JSONParams : string)
  : RunAndTriggerParamsModel * option error :=
  if (jsonParams =? "") && negb (base64JSONParams =? "") then
    match base64Decode base64JSONParams with
    | inr err => (zeroParams, Some err)
    | inl jsonParamsBytes =>
        parseAndOverride workflowToRunID triggerPattern pushBranch
          prSourceBranch prTargetBranch format bitriseConfigPath
          bitriseConfigBase64Data inventoryPath inventoryBase64Data
          jsonParamsBytes
    end
  else
    parseAndOverride workflowToRunID triggerPattern pushBranch
      prSourceBranch prTargetBranch format bitriseConfigPath
      bitriseConfigBase64Data inventoryPath inventoryBase64Data jsonParams.

Definition parseTriggerCheckParams
    (triggerPattern pushBranch prSourceBranch prTargetBranch
       format bitriseConfigPath bitriseConfigBase64Data
       inventoryPath inventoryBase64Data jsonParams base64JSONParams : string)
  : RunAndTriggerParamsModel * option error :=
  parseRunAndTriggerParams "" triggerPattern pushBranch prSourceBranch
    prTargetBranch format bitriseConfigPath bitriseConfigBase64Data
    inventoryPath inventoryBase64Data jsonParams base64JSONParams.

End Parsing.

(** A decoder and an unmarshaller that know two inputs, to run the parser. *)
Definition quoted (s : string) : string :=
  String (ascii_of_nat 34) s ++ String (ascii_of_nat 34) "".

Definition samplePatternJSON : string :=
  "{" ++ quoted "pattern" ++ ":" ++ quoted "master" ++ ","
  ++ quoted "format" ++ ":" ++ quoted "json" ++ "}".

Definition sampleDecode (s : string) : string + error :=
  if s =? "e30=" then inl "{}"
  else inr "illegal base64 data at input byte 0".

Definition sampleUnmarshal (s : string) : RunAndTriggerParamsModel + error :=
  if s =? "{}" then inl zeroParams
  else if s =? samplePatternJSON then
    inl {| WorkflowToRunID := ""; TriggerPattern := "master"; PushBranch := "";
           PRSourceBranch := ""; PRTargetBranch := ""; Format := "json";
           BitriseConfigPath := ""; BitriseConfigBase64Data := "";
           InventoryPath := ""; InventoryBase64Data := "" |}
  else inr "unexpected end of JSON input".

(** The parse of [--push-branch main --format raw] with the sample JSON. *)
Definition sampleParse : RunAndTriggerParamsModel * option error :=
  parseRunAndTriggerParams sampleUnmarshal sampleDecode
    "" "" "main" "" "" "raw" "" "" "" "" samplePatternJSON "".

End TriggerParams.

(** * Properties *)

(** ** The event classifier *)

Ltac case_empty s := destruct (String.eqb_spec s ""); [subst s | idtac].

Lemma failed_some {A : Type} (a : A) (e : error) : failed (a, Some e).
Proof. unfold failed; simpl; discriminate. Qed.

Create HintDb classifier.
#[local] Hint Resolve failed_some : classifier.

(** C2. The classifier follows the priority order push branch, pull request
    branches, tag: a push branch with any other signal is an error and alone
    is a code push; otherwise a pull request branch with a tag is an error
    and without one a pull request; otherwise a tag alone is a tag push; and
    no signal at all is an error. *)
Theorem triggerEventType_priority :
  forall pushBranch prSourceBranch prTargetBranch tag r,
    r = triggerEventType pushBranch prSourceBranch prTargetBranch tag ->
    (pushBranch <> "" ->
       (prSourceBranch <> "" \/ prTargetBranch <> "" \/ tag <> "" -> failed r) /\
       (prSourceBranch = "" -> prTargetBranch = "" -> tag = "" ->
          r = (TriggerEventTypeCodePush, None))) /\
    (pushBranch = "" -> prSourceBranch <> "" \/ prTargetBranch <> "" ->
       (tag <> "" -> failed r) /\
       (tag = "" -> r = (TriggerEventTypePullRequest, None))) /\
    (pushBranch = "" -> prSourceBranch = "" -> prTargetBranch = "" ->
       (tag <> "" -> r = (TriggerEventTypeTag, None)) /\
       (tag = "" -> failed r)).
Proof.
  intros pb ps pt tg r ->; unfold triggerEventType.
  case_empty pb; case_empty ps; case_empty pt; case_empty tg; simpl;
    repeat split; intros;
    try congruence; auto with classifier;
    repeat match goal with
           | H : _ \/ _ |- _ => destruct H
           end; congruence.
Qed.

Lemma triggerEventType_priority_witness :
  failed (triggerEventType "main" "feature" "" "") /\
  triggerEventType "main" "" "" "" = (TriggerEventTypeCodePush, None) /\
  failed (triggerEventType "" "feature" "main" "v1") /\
  triggerEventType "" "feature" "main" "" = (TriggerEventTypePullRequest, None) /\
  triggerEventType "" "" "" "v1" = (TriggerEventTypeTag, None) /\
  failed (triggerEventType "" "" "" "").
Proof.
  split; [| split; [| split; [| split; [| split]]]].
  - destruct (triggerEventType_priority "main" "feature" "" "" _ eq_refl)
      as [H _].
    apply H; [discriminate | left; discriminate].
  - destruct (triggerEventType_priority "main" "" "" "" _ eq_refl) as [H _].
    apply H; [discriminate | | | ]; reflexivity.
  - destruct (triggerEventType_priority "" "feature" "main" "v1" _ eq_refl)
      as [_ [H _]].
    apply H; [reflexivity | left; discriminate | discriminate].
  - destruct (triggerEventType_priority "" "feature" "main" "" _ eq_refl)
      as [_ [H _]].
    apply H; [reflexivity | left; discriminate | reflexivity].
  - destruct (triggerEventType_priority "" "" "" "v1" _ eq_refl) as [_ [_ H]].
    apply H; [reflexivity | reflexivity | reflexivity | discriminate].
  - destruct (triggerEventType_priority "" "" "" "" _ eq_refl) as [_ [_ H]].
    apply H; reflexivity.
Defined.

(** C9. The classifier returns an error exactly when it returns the unknown
    event type. *)
Theorem triggerEventType_error_iff_unknown :
  forall pushBranch prSourceBranch prTargetBranch tag : string,
    (snd (triggerEventType pushBranch prSourceBranch prTargetBranch tag) <> None
     <-> fst (triggerEventType pushBranch prSourceBranch prTargetBranch tag)
         = TriggerEventTypeUnknown) /\
    (snd (triggerEventType pushBranch prSourceBranch prTargetBranch tag) = None
     <-> fst (triggerEventType pushBranch prSourceBranch prTargetBranch tag)
         <> TriggerEventTypeUnknown).
Proof.
  intros pb ps pt tg; unfold triggerEventType.
  case_empty pb; case_empty ps; case_empty pt; case_empty tg; simpl;
    repeat split; intros; congruence.
Qed.

(** ** Trigger matching *)

Section MatchingFacts.

Variable Glob : string -> string -> bool.

Lemma stringFromTriggerCondition_plain :
  forall c, plainCondition c = true ->
    stringFromTriggerCondition c = Returned (stringLiteralOrRegex c).
Proof. destruct c; simpl; intros; congruence. Qed.

Lemma stringFromTriggerCondition_returned :
  forall c s, stringFromTriggerCondition c = Returned s ->
    plainCondition c = true /\ s = stringLiteralOrRegex c.
Proof. intros c s H; destruct c; simpl in H; inversion H; auto. Qed.

(** What a successful classification of a rule's own conditions tells. *)
Lemma itemEventType_returned :
  forall item r, itemEventType item = Returned r ->
    exists pb ps pt tg,
      stringFromTriggerCondition (PushBranch item) = Returned pb /\
      stringFromTriggerCondition (PullRequestSourceBranch item) = Returned ps /\
      stringFromTriggerCondition (PullRequestTargetBranch item) = Returned pt /\
      stringFromTriggerCondition (Tag item) = Returned tg /\
      r = triggerEventType pb ps pt tg.
Proof.
  intros item r; unfold itemEventType.
  destruct (stringFromTriggerCondition (PushBranch item)) as [pb |]; simpl;
    [| discriminate].
  destruct (stringFromTriggerCondition (PullRequestSourceBranch item)) as [ps |];
    simpl; [| discriminate].
  destruct (stringFromTriggerCondition (PullRequestTargetBranch item)) as [pt |];
    simpl; [| discriminate].
  destruct (stringFromTriggerCondition (Tag item)) as [tg |]; simpl;
    [| discriminate].
  intros H; inversion H; subst.
  exists pb, ps, pt, tg; auto.
Qed.

Lemma itemEventType_plain :
  forall item,
    plainCondition (PushBranch item) = true ->
    plainCondition (PullRequestSourceBranch item) = true ->
    plainCondition (PullRequestTargetBranch item) = true ->
    plainCondition (Tag item) = true ->
    returns (itemEventType item).
Proof.
  intros item H1 H2 H3 H4; unfold itemEventType, returns.
  rewrite (stringFromTriggerCondition_plain _ H1),
    (stringFromTriggerCondition_plain _ H2),
    (stringFromTriggerCondition_plain _ H3),
    (stringFromTriggerCondition_plain _ H4); simpl; eauto.
Qed.

Lemma plainRule_fields :
  forall item, plainRule item = true ->
    plainCondition (PushBranch item) = true /\
    plainCondition (PullRequestSourceBranch item) = true /\
    plainCondition (PullRequestTargetBranch item) = true /\
    plainCondition (Tag item) = true.
Proof.
  unfold plainRule; intros item H.
  repeat (apply andb_true_iff in H; destruct H as [H ?]); auto.
Qed.

Lemma matchPullRequest_returns :
  forall item prSourceBranch prTargetBranch prReadyState,
    plainRule item = true ->
    returns (matchPullRequest Glob item prSourceBranch prTargetBranch prReadyState).
Proof.
  intros item ps pt rs H.
  destruct (plainRule_fields _ H) as (_ & H2 & H3 & _).
  unfold matchPullRequest, returns.
  rewrite (stringFromTriggerCondition_plain _ H2),
    (stringFromTriggerCondition_plain _ H3); simpl.
  destruct (stringLiteralOrRegex (PullRequestSourceBranch item) =? "");
    destruct (stringLiteralOrRegex (PullRequestTargetBranch item) =? "");
    simpl; eauto.
Qed.

(** The loop over rules whose classified conditions are all plain returns. *)
Lemma matchMigratedItems_returns :
  forall items paramsEventType pushBranch prSourceBranch prTargetBranch
         prReadyState tag,
    Forall (fun item => plainRule item = true) items ->
    returns (matchMigratedItems Glob items paramsEventType
               pushBranch prSourceBranch prTargetBranch prReadyState tag).
Proof.
  intros items pe pb ps pt rs tg Hall.
  induction Hall as [| item rest Hitem _ IH]; simpl.
  - unfold returns; eauto.
  - destruct (plainRule_fields _ Hitem) as (H1 & H2 & H3 & H4).
    unfold itemEventType.
    rewrite (stringFromTriggerCondition_plain _ H1),
      (stringFromTriggerCondition_plain _ H2),
      (stringFromTriggerCondition_plain _ H3),
      (stringFromTriggerCondition_plain _ H4); simpl.
    destruct (triggerEventType _ _ _ _) as [ie [err |]];
      [unfold returns; eauto |].
    destruct (TriggerEventType_eqb pe ie); simpl; [| exact IH].
    destruct ie; simpl; try exact IH; try (unfold returns; eauto; fail).
    apply matchPullRequest_returns; assumption.
Qed.

(** A rule whose four classified conditions are plain never makes the match
    panic, whatever the event; neither does a legacy rule, which is migrated
    before it is classified; neither does an event that fails to classify. *)
Lemma MatchWithParams_returns :
  forall item pushBranch prSourceBranch prTargetBranch prReadyState tag,
    plainRule item = true \/ Pattern item <> "" \/
    snd (triggerEventType pushBranch prSourceBranch prTargetBranch tag) <> None ->
    returns (MatchWithParams Glob item pushBranch prSourceBranch prTargetBranch
               prReadyState tag).
Proof.
  intros item pb ps pt rs tg H.
  unfold MatchWithParams.
  destruct (triggerEventType pb ps pt tg) as [pe [err |]];
    [unfold returns; eauto |].
  apply matchMigratedItems_returns.
  destruct (String.eqb_spec (Pattern item) "") as [HP | HP]; simpl.
  - destruct H as [H | [H | H]]; [| congruence | simpl in H; congruence].
    constructor; auto.
  - unfold migrateDeprecatedTriggerItem.
    destruct (IsPullRequestAllowed item); simpl; repeat constructor.
Qed.

(** C1. On a modern rule one of whose classified conditions holds a regex
    wrapper, and for an event that classifies, the match does not return a
    pair: the reduction of the condition panics. *)
Theorem MatchWithParams_regex_condition_panics :
  forall item pushBranch prSourceBranch prTargetBranch prReadyState tag r,
    Pattern item = "" ->
    snd (triggerEventType pushBranch prSourceBranch prTargetBranch tag) = None ->
    PushBranch item = CondRegex r \/
    PullRequestSourceBranch item = CondRegex r \/
    PullRequestTargetBranch item = CondRegex r \/
    Tag item = CondRegex r ->
    exists reason,
      MatchWithParams Glob item pushBranch prSourceBranch prTargetBranch
        prReadyState tag = Panicked reason.
Proof.
  intros item pb ps pt rs tg r HP Hev Hre.
  unfold MatchWithParams.
  destruct (triggerEventType pb ps pt tg) as [pe [err |]]; [discriminate |].
  rewrite HP; simpl. unfold itemEventType.
  destruct Hre as [H | [H | [H | H]]]; rewrite H;
    destruct (PushBranch item); simpl; eauto;
    destruct (PullRequestSourceBranch item); simpl; eauto;
    destruct (PullRequestTargetBranch item); simpl; eauto;
    discriminate.
Qed.

(** C3. For a modern rule whose own conditions classify as pull-request and
    an event that classifies as pull-request, the match returns without
    error: (source condition empty or glob-matching the source branch) and
    (target condition empty or glob-matching the target branch) and no draft
    state mismatch, draft-enabled being true when unset. *)
Theorem MatchWithParams_pull_request :
  forall item pushBranch prSourceBranch prTargetBranch prReadyState tag,
    Pattern item = "" ->
    itemEventType item = Returned (TriggerEventTypePullRequest, None) ->
    triggerEventType pushBranch prSourceBranch prTargetBranch tag
      = (TriggerEventTypePullRequest, None) ->
    exists source targetBranch,
      stringFromTriggerCondition (PullRequestSourceBranch item) = Returned source /\
      stringFromTriggerCondition (PullRequestTargetBranch item)
        = Returned targetBranch /\
      MatchWithParams Glob item pushBranch prSourceBranch prTargetBranch
        prReadyState tag
      = Returned
          (((source =? "") || Glob source prSourceBranch)
           && ((targetBranch =? "") || Glob targetBranch prTargetBranch)
           && negb (draftMismatch
                      match DraftPullRequestEnabled item with
                      | Some enabled => enabled
                      | None => true
                      end prReadyState),
           None).
Proof.
  intros item pb ps pt rs tg HP Hitem Hev.
  destruct (itemEventType_returned _ _ Hitem)
    as (ipb & ips & ipt & itg & _ & Hs & Ht & _ & _).
  exists ips, ipt; repeat split; auto.
  unfold MatchWithParams; rewrite Hev, HP; simpl.
  rewrite Hitem; simpl.
  unfold matchPullRequest; rewrite Hs, Ht; simpl.
  unfold draftMismatch, IsDraftPullRequestEnabled, defaultDraftPullRequestEnabled.
  destruct (ips =? ""); destruct (ipt =? ""); simpl;
    destruct (DraftPullRequestEnabled item) as [[|] |]; simpl;
    destruct (rs =? PullRequestReadyStateConvertedToReadyForReview);
    destruct (rs =? PullRequestReadyStateDraft); simpl;
    rewrite ?andb_true_r, ?andb_false_r; reflexivity.
Qed.

End MatchingFacts.

Lemma MatchWithParams_regex_condition_panics_witness :
  Validate regexPushRule 0 ["primary"] [] = ([], None) /\
  stringLiteralOrRegex (PushBranch regexPushRule) = "main" /\
  exists reason,
    MatchWithParams starGlob regexPushRule "main" "" "" "" "" = Panicked reason.
Proof.
  split; [reflexivity | split; [reflexivity |]].
  apply (MatchWithParams_regex_condition_panics starGlob regexPushRule
           "main" "" "" "" "" {| Regex := "main" |});
    [reflexivity | reflexivity | left; reflexivity].
Defined.

Lemma MatchWithParams_pull_request_witness :
  exists source targetBranch,
    stringFromTriggerCondition (CondString "feature/*") = Returned source /\
    stringFromTriggerCondition CondNil = Returned targetBranch /\
    MatchWithParams starGlob
      (pullRequestRule (CondString "feature/*") CondNil (Some false))
      "" "feature/login" "main" PullRequestReadyStateDraft ""
    = Returned
        (((source =? "") || starGlob source "feature/login")
         && ((targetBranch =? "") || starGlob targetBranch "main")
         && negb (draftMismatch false PullRequestReadyStateDraft),
         None).
Proof.
  apply (MatchWithParams_pull_request starGlob
           (pullRequestRule (CondString "feature/*") CondNil (Some false))
           "" "feature/login" "main" PullRequestReadyStateDraft "");
    reflexivity.
Defined.

(** ** Legacy rule migration *)

(** C5, as the code has it: a legacy rule migrates to the push-branch rule
    carrying its pattern and workflow id, followed, only when pull requests
    are allowed, by the pull-request-source-branch rule carrying the same
    pattern and workflow id; the first classifies as a code push, the second
    as a pull request, and neither carries a pipeline id. *)
Theorem migrateDeprecatedTriggerItem_rules :
  forall item,
    Pattern item <> "" ->
    (IsPullRequestAllowed item = false ->
       migrateDeprecatedTriggerItem item
       = [pushBranchRule (Pattern item) (WorkflowID item)]) /\
    (IsPullRequestAllowed item = true ->
       migrateDeprecatedTriggerItem item
       = [pushBranchRule (Pattern item) (WorkflowID item);
          pullRequestSourceRule (Pattern item) (WorkflowID item)]) /\
    itemEventType (pushBranchRule (Pattern item) (WorkflowID item))
      = Returned (TriggerEventTypeCodePush, None) /\
    itemEventType (pullRequestSourceRule (Pattern item) (WorkflowID item))
      = Returned (TriggerEventTypePullRequest, None) /\
    (forall rule, In rule (migrateDeprecatedTriggerItem item) ->
       WorkflowID rule = WorkflowID item /\ PipelineID rule = "").
Proof.
  intros item HP.
  apply String.eqb_neq in HP.
  unfold migrateDeprecatedTriggerItem, itemEventType, triggerEventType; simpl.
  rewrite HP; simpl.
  repeat split; try (intros ->; reflexivity);
    destruct (IsPullRequestAllowed item); simpl in *;
    intuition (subst; reflexivity).
Qed.

Lemma migrateDeprecatedTriggerItem_rules_witness :
  migrateDeprecatedTriggerItem (legacyRule "release/*" "deploy" true)
  = [pushBranchRule "release/*" "deploy"; pullRequestSourceRule "release/*" "deploy"].
Proof.
  destruct (migrateDeprecatedTriggerItem_rules
              (legacyRule "release/*" "deploy" true)) as (_ & H & _);
    [discriminate |].
  apply H; reflexivity.
Defined.

(** C5, as stated, fails on a legacy rule whose target is a pipeline: the
    migrated rules do not carry the target of the original rule. *)
Lemma migrateDeprecatedTriggerItem_drops_pipeline :
  Pattern legacyPipelineRule <> "" /\
  Validate legacyPipelineRule 0 [] ["deploy"] = ([], None) /\
  exists rule,
    In rule (migrateDeprecatedTriggerItem legacyPipelineRule) /\
    target rule <> target legacyPipelineRule.
Proof.
  split; [discriminate | split; [reflexivity |]].
  exists (pushBranchRule "release/*" ""); split; [left; reflexivity | discriminate].
Qed.

(** ** Validation of untyped rules *)

(** An untyped modern rule with a regex wrapper in one of the four fields
    that [validateConditionValuesOfItem] inspects is refused. *)
Lemma Validate_untyped_regex_refused :
  forall item idx workflows pipelines r,
    Pattern item = "" -> Type_ item = "" ->
    PushBranch item = CondRegex r \/ Tag item = CondRegex r \/
    PullRequestSourceBranch item = CondRegex r \/
    PullRequestTargetBranch item = CondRegex r ->
    snd (Validate item idx workflows pipelines) <> None.
Proof.
  intros item idx wf pl r HP HT H.
  unfold Validate.
  destruct (validateTarget item idx wf pl) as [w [e |]]; simpl; [discriminate |].
  rewrite HP, HT; simpl.
  destruct (validateTypeOfItem item idx); simpl; [discriminate |].
  unfold validateConditionValuesOfItem.
  destruct H as [H | [H | [H | H]]]; rewrite H;
    destruct (PushBranch item); simpl; try discriminate;
    destruct (Tag item); simpl; try discriminate;
    destruct (PullRequestSourceBranch item); simpl; discriminate.
Qed.

(** The validator of explicitly typed rules inspects all seven condition
    fields; the validator of untyped rules inspects four of them. *)
Lemma validateConditionValues_fields :
  forall item idx,
    CommitMessage item = CondOther ->
    PushBranch item = CondNil -> Tag item = CondNil ->
    PullRequestSourceBranch item = CondNil ->
    PullRequestTargetBranch item = CondNil ->
    validateConditionValuesOfItemWithExplicitType item idx <> None /\
    validateConditionValuesOfItem item idx = None.
Proof.
  intros item idx Hc Hp Ht Hs Hg.
  unfold validateConditionValuesOfItemWithExplicitType,
    validateConditionValuesOfItem.
  rewrite Hc, Hp, Ht, Hs, Hg; simpl; split; [discriminate | reflexivity].
Qed.

(** C6. An untyped modern rule whose commit message condition is a regex
    wrapper passes validation: no error is returned. *)
Theorem Validate_accepts_untyped_regex_commit_message :
  Type_ untypedRegexMessageRule = "" /\
  Pattern untypedRegexMessageRule = "" /\
  CommitMessage untypedRegexMessageRule = CondRegex {| Regex := "fix.*" |} /\
  Validate untypedRegexMessageRule 0 ["primary"] [] = ([], None).
Proof. repeat split. Qed.

(** ** Workflow lookup by pattern *)

Section LookupFacts.

Variable Glob : string -> string -> bool.

Lemma find_first :
  forall (A : Type) (f : A -> bool) (l : list A) (x : A),
    find f l = Some x <->
    exists before after,
      l = (before ++ x :: after)%list /\ f x = true /\
      Forall (fun y => f y = false) before.
Proof.
  intros A f l x; split.
  - induction l as [| y l IH]; simpl; [discriminate |].
    destruct (f y) eqn:Hy.
    + intros H; inversion H; subst.
      exists [], l; repeat split; auto.
    + intros H; destruct (IH H) as (before & after & -> & Hx & Hall).
      exists (y :: before), after; repeat split; auto.
  - intros (before & after & -> & Hx & Hall).
    induction Hall as [| y before Hy _ IH]; simpl.
    + rewrite Hx; reflexivity.
    + rewrite Hy; exact IH.
Qed.

(** The loop returns the workflow of the first accepted rule; when there is
    none the flag, or a disabled match met in pull request mode, selects the
    error. *)
Lemma lookupLoop_find :
  forall triggerMap pattern isPullRequestMode flag,
    lookupLoop Glob triggerMap pattern isPullRequestMode flag
    = match find (acceptsPattern Glob pattern isPullRequestMode) triggerMap with
      | Some item => (WorkflowID item, None)
      | None =>
          if flag || (isPullRequestMode
                      && existsb (disabledMatch Glob pattern) triggerMap)
          then ("", Some (errDisabledInPullRequestMode pattern))
          else ("", Some (errNoMatchingWorkflow pattern))
      end.
Proof.
  intros tm pattern pr; induction tm as [| item rest IH]; intros flag; simpl.
  - rewrite andb_false_r, orb_false_r; reflexivity.
  - unfold acceptsPattern at 1, disabledMatch at 1.
    destruct (Glob (Pattern item) pattern); simpl.
    + destruct pr; simpl; [| reflexivity].
      destruct (IsPullRequestAllowed item); simpl; [reflexivity |].
      rewrite IH; simpl; rewrite orb_true_r; reflexivity.
    + apply IH.
Qed.

Lemma find_none_Forall :
  forall (A : Type) (f : A -> bool) (l : list A),
    find f l = None <-> Forall (fun y => f y = false) l.
Proof.
  intros A f l; induction l as [| y l IH]; simpl.
  - split; auto.
  - destruct (f y) eqn:Hy; split; intros H.
    + discriminate.
    + inversion H; congruence.
    + constructor; [assumption | apply IH; assumption].
    + inversion H; subst; apply IH; assumption.
Qed.

Lemma append_left_injective :
  forall p a b : string, (p ++ a)%string = (p ++ b)%string -> a = b.
Proof.
  induction p as [| c p IH]; simpl; intros a b H; [assumption |].
  inversion H; auto.
Qed.

Lemma lookup_errors_distinct :
  forall pattern,
    errDisabledInPullRequestMode pattern <> errNoMatchingWorkflow pattern.
Proof.
  intros pattern H; unfold errDisabledInPullRequestMode, errNoMatchingWorkflow in H.
  apply append_left_injective in H.
  apply append_left_injective in H.
  discriminate.
Qed.

(** C4, as the code has it: on a rule list that passes [validateTriggerMap],
    the lookup returns the workflow of the first rule in list order that
    accepts the pattern, whatever follows it, and a workflow it returns is
    that of a rule before which no rule accepts the pattern; on a rule list
    that fails [validateTriggerMap] it returns the validation error and no
    workflow, whatever accepts the pattern. *)
Theorem getWorkflowIDByPattern_first_match :
  forall triggerMap pattern isPullRequestMode,
    (validateTriggerMap triggerMap = None ->
     (forall before item after,
        triggerMap = (before ++ item :: after)%list ->
        acceptsPattern Glob pattern isPullRequestMode item = true ->
        Forall (fun rule => acceptsPattern Glob pattern isPullRequestMode rule = false)
          before ->
        getWorkflowIDByPattern Glob triggerMap pattern isPullRequestMode
        = (WorkflowID item, None)) /\
     (forall workflow,
        getWorkflowIDByPattern Glob triggerMap pattern isPullRequestMode
        = (workflow, None) ->
        exists before item after,
          triggerMap = (before ++ item :: after)%list /\
          workflow = WorkflowID item /\
          acceptsPattern Glob pattern isPullRequestMode item = true /\
          Forall (fun rule => acceptsPattern Glob pattern isPullRequestMode rule = false)
            before)) /\
    (forall err,
       validateTriggerMap triggerMap = Some err ->
       getWorkflowIDByPattern Glob triggerMap pattern isPullRequestMode
       = ("", Some err)).
Proof.
  intros tm pattern pr; split.
  - intros Hvalid.
    unfold getWorkflowIDByPattern; rewrite Hvalid, lookupLoop_find.
    split.
    + intros before item after Htm Hacc Hbefore.
      assert (Hfind : find (acceptsPattern Glob pattern pr) tm = Some item)
        by (apply find_first; eauto).
      rewrite Hfind; reflexivity.
    + intros workflow.
      destruct (find (acceptsPattern Glob pattern pr) tm) as [item |] eqn:Hfind.
      * intros H; inversion H; subst.
        apply find_first in Hfind.
        destruct Hfind as (before & after & Htm & Hacc & Hbefore).
        exists before, item, after; auto.
      * simpl; destruct (pr && _); discriminate.
  - intros err Hinvalid.
    unfold getWorkflowIDByPattern; rewrite Hinvalid; reflexivity.
Qed.

(** C10, as the code has it: on a trigger map that passes
    [validateTriggerMap] and in pull request mode, a rule that glob-matches
    but does not allow pull requests is not accepted, the first accepted rule
    after any number of such rules is returned, and when no rule is accepted
    the error is the pull-request-mode one if some rule was such a disabled
    match and the no-matching-workflow one otherwise; the two differ.  On a
    trigger map that fails [validateTriggerMap] the result is the validation
    error, whatever the rules match. *)
Theorem getWorkflowIDByPattern_pull_request_mode :
  forall triggerMap pattern,
    (validateTriggerMap triggerMap = None ->
     (forall item,
        disabledMatch Glob pattern item = true ->
        acceptsPattern Glob pattern true item = false) /\
     (forall before item after,
        triggerMap = (before ++ item :: after)%list ->
        Forall (fun rule => acceptsPattern Glob pattern true rule = false) before ->
        acceptsPattern Glob pattern true item = true ->
        getWorkflowIDByPattern Glob triggerMap pattern true
        = (WorkflowID item, None)) /\
     (Forall (fun rule => acceptsPattern Glob pattern true rule = false) triggerMap ->
        (existsb (disabledMatch Glob pattern) triggerMap = true ->
         getWorkflowIDByPattern Glob triggerMap pattern true
         = ("", Some (errDisabledInPullRequestMode pattern))) /\
        (existsb (disabledMatch Glob pattern) triggerMap = false ->
         getWorkflowIDByPattern Glob triggerMap pattern true
         = ("", Some (errNoMatchingWorkflow pattern)))) /\
     errDisabledInPullRequestMode pattern <> errNoMatchingWorkflow pattern) /\
    (forall err,
       validateTriggerMap triggerMap = Some err ->
       getWorkflowIDByPattern Glob triggerMap pattern true = ("", Some err)).
Proof.
  intros tm pattern; split.
  - intros Hvalid.
    unfold getWorkflowIDByPattern; rewrite Hvalid, lookupLoop_find.
    split; [| split; [| split; [intros Hnone; split |]]].
    + intros item; unfold disabledMatch, acceptsPattern.
      destruct (Glob (Pattern item) pattern), (IsPullRequestAllowed item);
        simpl; congruence.
    + intros before item after Htm Hbefore Hacc.
      assert (Hfind : find (acceptsPattern Glob pattern true) tm = Some item)
        by (apply find_first; eauto).
      rewrite Hfind; reflexivity.
    + intros Hex; apply find_none_Forall in Hnone; rewrite Hnone, Hex;
        reflexivity.
    + intros Hex; apply find_none_Forall in Hnone; rewrite Hnone, Hex;
        reflexivity.
    + apply lookup_errors_distinct.
  - intros err Hinvalid.
    unfold getWorkflowIDByPattern; rewrite Hinvalid; reflexivity.
Qed.

(** X5. The acceptance of a pattern by a legacy rule is the match of that rule
    with the event the pattern stands for: a code push of the branch, or, in
    pull request mode, a pull request from the branch (in a ready state
    other than converted to ready for review). *)
Lemma acceptsPattern_MatchWithParams :
  forall item (pattern : string) (isPullRequestMode : bool) prReadyState,
    Pattern item <> "" -> pattern <> "" ->
    prReadyState <> PullRequestReadyStateConvertedToReadyForReview ->
    MatchWithParams Glob item
      (if isPullRequestMode then "" else pattern)
      (if isPullRequestMode then pattern else "") "" prReadyState ""
    = Returned (acceptsPattern Glob pattern isPullRequestMode item, None).
Proof.
  intros item pattern pr rs HP Hpat Hrs.
  apply String.eqb_neq in HP, Hpat, Hrs.
  unfold MatchWithParams, acceptsPattern, migrateDeprecatedTriggerItem.
  destruct pr; destruct (IsPullRequestAllowed item); simpl;
    repeat (unfold itemEventType, triggerEventType, matchPullRequest,
              IsDraftPullRequestEnabled; simpl;
            rewrite ?Hpat, ?HP, ?Hrs; simpl);
    rewrite ?andb_true_r, ?andb_false_r; reflexivity.
Qed.

End LookupFacts.

Lemma getWorkflowIDByPattern_first_match_witness :
  getWorkflowIDByPattern starGlob sampleTriggerMap "main" false
  = ("primary", None).
Proof.
  destruct (getWorkflowIDByPattern_first_match starGlob sampleTriggerMap
              "main" false) as [Hvalid _].
  destruct (Hvalid eq_refl) as [H _].
  apply (H [legacyRule "release/*" "deploy" false]
           (legacyRule "*" "primary" true)
           [legacyRule "ma*" "other" true]);
    [reflexivity | reflexivity | repeat constructor].
Defined.

(** C4, as stated, fails on a rule list that does not pass
    [validateTriggerMap]: the first rule accepts the pattern and no workflow
    is returned. *)
Lemma getWorkflowIDByPattern_invalid_map :
  acceptsPattern starGlob "main" false (legacyRule "*" "primary" true) = true /\
  getWorkflowIDByPattern starGlob
    [legacyRule "*" "primary" true; pushBranchRule "main" "deploy"] "main" false
  = ("", Some "invalid trigger item: () -> (deploy), error: empty pattern").
Proof. split; reflexivity. Qed.

Lemma getWorkflowIDByPattern_pull_request_mode_witness :
  getWorkflowIDByPattern starGlob
    [legacyRule "release/*" "deploy" true; legacyRule "*" "primary" false]
    "main" true
  = ("", Some (errDisabledInPullRequestMode "main")).
Proof.
  destruct (getWorkflowIDByPattern_pull_request_mode starGlob
              [legacyRule "release/*" "deploy" true; legacyRule "*" "primary" false]
              "main") as [Hvalid _].
  destruct (Hvalid eq_refl) as (_ & _ & H & _).
  apply H; [repeat constructor | reflexivity].
Defined.

(** C10, as stated, fails on a trigger map that does not pass
    [validateTriggerMap]: a rule glob-matches and does not allow pull
    requests, no rule is returned, and the error is not the
    pull-request-mode one. *)
Lemma getWorkflowIDByPattern_disabled_match_invalid_map :
  existsb (disabledMatch starGlob "main") [legacyRule "*" "" false] = true /\
  getWorkflowIDByPattern starGlob [legacyRule "*" "" false] "main" true
  = ("", Some "invalid trigger item: (*) -> (), error: empty workflow id") /\
  getWorkflowIDByPattern starGlob [legacyRule "*" "" false] "main" true
  <> ("", Some (errDisabledInPullRequestMode "main")).
Proof. repeat split; discriminate. Qed.

(** ** Config composition *)

Module ConfigMergeFacts.
Import ConfigMerge.

(** One edge of a concrete include graph. *)
Ltac include_step next :=
  apply includePath_step with (y := next);
  [ eexists; eexists;
    split; [reflexivity | split; [reflexivity | split; [left; reflexivity | reflexivity]]]
  | ].

Section EngineFacts.

Variable Doc : Type.
Variable emptyDoc : Doc.
Variable mergeDoc : Doc -> Doc -> Doc.
Variable Key : ConfigReference -> string.
Variable read : ConfigReference -> string -> option (@RawFile Doc).
Variable includeDir : string -> ConfigReference -> string.

Local Abbreviation resolveAt :=
  (mergeReference Doc emptyDoc mergeDoc Key read includeDir).
Local Abbreviation compose :=
  (mergeConfig Doc emptyDoc mergeDoc Key read includeDir).
Local Abbreviation includesOf := (mergeIncludes Doc mergeDoc).
Local Abbreviation edge := (includeEdge Doc read includeDir).
Local Abbreviation path := (includePath Doc read includeDir).
Local Abbreviation chain := (includeChain Doc Key read includeDir).
Local Abbreviation reads := (readCount Doc read includeDir).

(** *** One step of the descent *)

Lemma mergeReference_unfold :
  forall fuel ref dir depth visited st,
    resolveAt (S fuel) ref dir depth visited st
    = if IsStringInSlice (Key ref) visited then
        Err (ErrCircularReference (visited ++ [Key ref])%list)
      else if (MaxIncludeDepth <=? depth)%nat then Err ErrMaxIncludeDepth
      else if (MaxFilesCountTotal <=? filesLoaded st)%nat then Err ErrMaxFilesCount
      else
        match read ref dir with
        | None => Err (ErrRead (Key ref))
        | Some raw =>
            if (MaxFileSizeBytes <? rawSize raw)%N then
              Err (ErrMaxFileSize (Key ref))
            else
              match rawParse raw with
              | None => Err (ErrParse (Key ref))
              | Some frag =>
                  if (MaxIncludeCountPerFile <? length (fragIncludes frag))%nat
                  then Err ErrMaxIncludeCount
                  else
                    match
                      includesOf
                        (fun include s =>
                           resolveAt fuel include (includeDir dir ref)
                             (S depth) (visited ++ [Key ref])%list s)
                        (fragIncludes frag) emptyDoc (recordLoad (Key ref) st)
                    with
                    | Ok (acc, st') => Ok (mergeDoc acc (fragBody frag), st')
                    | Err e => Err e
                    | OutOfFuel => OutOfFuel
                    end
              end
        end.
Proof. reflexivity. Qed.

(** *** Termination *)

Lemma mergeIncludes_fuel :
  forall resolve includes acc st,
    (forall include s, resolve include s <> OutOfFuel) ->
    includesOf resolve includes acc st <> OutOfFuel.
Proof.
  intros resolve includes; induction includes as [| include rest IH];
    intros acc st Hres; simpl; [discriminate |].
  specialize (Hres include st) as Hinc.
  destruct (resolve include st) as [[sub st'] | e |];
    [apply IH; assumption | discriminate | congruence].
Qed.

Lemma mergeReference_fuel :
  forall fuel ref dir depth visited st,
    0 < fuel -> MaxIncludeDepth < fuel + depth ->
    resolveAt fuel ref dir depth visited st <> OutOfFuel.
Proof.
  induction fuel as [| fuel IH]; intros ref dir depth visited st Hpos Hfuel;
    [lia |].
  rewrite mergeReference_unfold.
  destruct (IsStringInSlice (Key ref) visited); [discriminate |].
  destruct (Nat.leb_spec MaxIncludeDepth depth) as [Hdeep | Hshallow];
    [discriminate |].
  destruct (MaxFilesCountTotal <=? filesLoaded st)%nat; [discriminate |].
  destruct (read ref dir) as [raw |]; [| discriminate].
  destruct (MaxFileSizeBytes <? rawSize raw)%N; [discriminate |].
  destruct (rawParse raw) as [frag |]; [| discriminate].
  destruct (MaxIncludeCountPerFile <? length (fragIncludes frag))%nat;
    [discriminate |].
  match goal with
  | |- match ?m with _ => _ end <> _ =>
      assert (Hinc : m <> OutOfFuel);
      [| destruct m as [[acc st'] | e |]; [discriminate | discriminate | congruence]]
  end.
  apply mergeIncludes_fuel; intros include s.
  apply IH; lia.
Qed.

Lemma mergeConfig_terminates :
  forall root, compose root <> OutOfFuel.
Proof.
  intros root; unfold mergeConfig.
  pose proof (mergeReference_fuel (S MaxIncludeDepth) root "" 0 [] initialState)
    as H.
  destruct (resolveAt (S MaxIncludeDepth) root "" 0 [] initialState)
    as [[doc st] | e |]; [discriminate | discriminate |].
  exfalso; apply H; [lia | lia | reflexivity].
Qed.

(** *** A success visits every include path *)

Lemma mergeIncludes_ok_each :
  forall resolve includes acc st r,
    includesOf resolve includes acc st = Ok r ->
    forall include, In include includes ->
      exists s r', resolve include s = Ok r'.
Proof.
  intros resolve includes; induction includes as [| first rest IH];
    intros acc st r Hok include Hin; [destruct Hin |].
  simpl in Hok.
  destruct (resolve first st) as [[sub st'] | e |] eqn:Hfirst;
    try discriminate.
  destruct Hin as [<- | Hin]; [eauto |].
  eapply IH; eauto.
Qed.

Lemma mergeReference_ok_step :
  forall fuel ref dir depth visited st r,
    resolveAt fuel ref dir depth visited st = Ok r ->
    depth < MaxIncludeDepth /\
    forall y, edge (ref, dir) y ->
      exists fuel' s r',
        resolveAt fuel' (fst y) (snd y) (S depth)
          (visited ++ [Key ref])%list s = Ok r'.
Proof.
  intros [| fuel] ref dir depth visited st r; [discriminate |].
  rewrite mergeReference_unfold.
  destruct (IsStringInSlice (Key ref) visited); [discriminate |].
  destruct (Nat.leb_spec MaxIncludeDepth depth) as [Hdeep | Hshallow];
    [discriminate |].
  destruct (MaxFilesCountTotal <=? filesLoaded st)%nat; [discriminate |].
  destruct (read ref dir) as [raw |] eqn:Hread; [| discriminate].
  destruct (MaxFileSizeBytes <? rawSize raw)%N; [discriminate |].
  destruct (rawParse raw) as [frag |] eqn:Hparse; [| discriminate].
  destruct (MaxIncludeCountPerFile <? length (fragIncludes frag))%nat;
    [discriminate |].
  match goal with
  | |- match ?m with _ => _ end = _ -> _ =>
      destruct m as [[acc st'] | e |] eqn:Hincludes; try discriminate
  end.
  intros _; split; [assumption |].
  intros [inc dir'] (raw' & frag' & Hread' & Hparse' & Hin & Hdir);
    simpl in *.
  rewrite Hread in Hread'; inversion Hread'; subst raw'.
  rewrite Hparse in Hparse'; inversion Hparse'; subst frag'.
  destruct (mergeIncludes_ok_each _ _ _ _ _ Hincludes inc Hin) as (s & r' & Hr).
  subst dir'; exists fuel, s, r'; exact Hr.
Qed.

Lemma ok_path_bound :
  forall n x y, path n x y ->
    forall fuel depth visited st r,
      resolveAt fuel (fst x) (snd x) depth visited st = Ok r ->
      depth + n < MaxIncludeDepth.
Proof.
  induction 1 as [x | n x y z Hedge _ IH]; intros fuel depth visited st r Hok.
  - destruct (mergeReference_ok_step _ _ _ _ _ _ _ Hok) as [Hd _]; lia.
  - destruct x as [ref dir]; simpl in Hok.
    destruct (mergeReference_ok_step _ _ _ _ _ _ _ Hok) as [_ Hnext].
    destruct (Hnext y Hedge) as (fuel' & s & r' & Hy).
    specialize (IH _ _ _ _ _ Hy); lia.
Qed.

Lemma includePath_app :
  forall a x y, path a x y -> forall b z, path b y z -> path (a + b) x z.
Proof.
  induction 1 as [x | n x y w Hedge _ IH]; intros b z Hyz; simpl;
    [assumption |].
  econstructor; eauto.
Qed.

Lemma includePath_loop :
  forall m x, path (S m) x x -> forall k, path (k * S m) x x.
Proof.
  intros m x Hloop; induction k as [| k IH]; simpl; [constructor |].
  change (S (m + k * S m)) with (S m + k * S m).
  eapply includePath_app; eauto.
Qed.

Lemma mergeConfig_cyclic_fails :
  forall root, cyclicFrom Doc read includeDir root ->
    forall r, compose root <> Ok r.
Proof.
  intros root (x & a & m & Hreach & Hloop) r; unfold mergeConfig.
  destruct (resolveAt (S MaxIncludeDepth) root "" 0 [] initialState)
    as [[doc st] | e |] eqn:Hok; try discriminate.
  pose proof (includePath_app _ _ _ Hreach _ _
                (includePath_loop _ _ Hloop MaxIncludeDepth)) as Hlong.
  pose proof (ok_path_bound _ _ _ Hlong _ _ _ _ _ Hok) as Hbound.
  exfalso; unfold MaxIncludeDepth in Hbound; lia.
Qed.

(** *** A success reads at most twenty files *)

Lemma mergeIncludes_files_bound :
  forall resolve includes acc st acc' st',
    (forall include s sub s',
       resolve include s = Ok (sub, s') ->
       filesLoaded s <= filesLoaded s' <= MaxFilesCountTotal) ->
    filesLoaded st <= MaxFilesCountTotal ->
    includesOf resolve includes acc st = Ok (acc', st') ->
    filesLoaded st <= filesLoaded st' <= MaxFilesCountTotal.
Proof.
  intros resolve includes; induction includes as [| include rest IH];
    intros acc st acc' st' Hres Hst Hok; simpl in Hok.
  - inversion Hok; subst; lia.
  - destruct (resolve include st) as [[sub s'] | e |] eqn:Hinc;
      try discriminate.
    specialize (Hres _ _ _ _ Hinc) as Hstep.
    specialize (IH _ _ _ _ Hres (proj2 Hstep) Hok); lia.
Qed.

Lemma mergeReference_files_bound :
  forall fuel ref dir depth visited st doc st',
    resolveAt fuel ref dir depth visited st = Ok (doc, st') ->
    filesLoaded st < filesLoaded st' <= MaxFilesCountTotal.
Proof.
  induction fuel as [| fuel IH]; intros ref dir depth visited st doc st';
    [discriminate |].
  rewrite mergeReference_unfold.
  destruct (IsStringInSlice (Key ref) visited); [discriminate |].
  destruct (MaxIncludeDepth <=? depth)%nat; [discriminate |].
  destruct (Nat.leb_spec MaxFilesCountTotal (filesLoaded st)) as [Hfull | Hroom];
    [discriminate |].
  destruct (read ref dir) as [raw |]; [| discriminate].
  destruct (MaxFileSizeBytes <? rawSize raw)%N; [discriminate |].
  destruct (rawParse raw) as [frag |]; [| discriminate].
  destruct (MaxIncludeCountPerFile <? length (fragIncludes frag))%nat;
    [discriminate |].
  match goal with
  | |- match ?m with _ => _ end = _ -> _ =>
      destruct m as [[acc s'] | e |] eqn:Hincludes; try discriminate
  end.
  intros Hok; inversion Hok; subst.
  apply mergeIncludes_files_bound in Hincludes.
  - simpl in Hincludes; lia.
  - intros include s sub s'' Hinc; specialize (IH _ _ _ _ _ _ _ Hinc); lia.
  - simpl; lia.
Qed.

(** *** One file *)

(** A readable file of admissible size without includes, not on the visited
    chain: it is merged unless the depth or the file count forbids. *)
Lemma mergeReference_leaf :
  forall fuel ref dir depth visited st raw body,
    IsStringInSlice (Key ref) visited = false ->
    read ref dir = Some raw ->
    (rawSize raw <= MaxFileSizeBytes)%N ->
    rawParse raw = Some (mkFragment [] body) ->
    resolveAt (S fuel) ref dir depth visited st
    = if (MaxIncludeDepth <=? depth)%nat then Err ErrMaxIncludeDepth
      else if (MaxFilesCountTotal <=? filesLoaded st)%nat then Err ErrMaxFilesCount
      else Ok (mergeDoc emptyDoc body, recordLoad (Key ref) st).
Proof.
  intros fuel ref dir depth visited st raw body Hfresh Hread Hsize Hparse.
  rewrite mergeReference_unfold, Hfresh, Hread.
  apply N.ltb_ge in Hsize; rewrite Hsize, Hparse; reflexivity.
Qed.

(** A file with a single include entry: the descent continues in it. *)
Lemma mergeReference_one_include :
  forall fuel ref dir depth visited st raw include body,
    IsStringInSlice (Key ref) visited = false ->
    depth < MaxIncludeDepth ->
    filesLoaded st < MaxFilesCountTotal ->
    read ref dir = Some raw ->
    (rawSize raw <= MaxFileSizeBytes)%N ->
    rawParse raw = Some (mkFragment [include] body) ->
    resolveAt (S fuel) ref dir depth visited st
    = match resolveAt fuel include (includeDir dir ref) (S depth)
              (visited ++ [Key ref])%list (recordLoad (Key ref) st) with
      | Ok (sub, st') => Ok (mergeDoc (mergeDoc emptyDoc sub) body, st')
      | Err e => Err e
      | OutOfFuel => OutOfFuel
      end.
Proof.
  intros fuel ref dir depth visited st raw include body
    Hfresh Hdepth Hfiles Hread Hsize Hparse.
  rewrite mergeReference_unfold, Hfresh, Hread.
  apply Nat.leb_gt in Hdepth; rewrite Hdepth.
  apply Nat.leb_gt in Hfiles; rewrite Hfiles.
  apply N.ltb_ge in Hsize; rewrite Hsize, Hparse; simpl.
  destruct (resolveAt fuel include (includeDir dir ref) (S depth)
              (visited ++ [Key ref])%list (recordLoad (Key ref) st))
    as [[sub st'] | e |]; reflexivity.
Qed.

(** Includes that are all such files are merged one after the other, each
    counting as one file. *)
Lemma mergeIncludes_leaves :
  forall fuel dir depth visited includes acc st,
    depth < MaxIncludeDepth ->
    filesLoaded st + length includes <= MaxFilesCountTotal ->
    (forall include, In include includes ->
       IsStringInSlice (Key include) visited = false /\
       exists raw body,
         read include dir = Some raw /\
         (rawSize raw <= MaxFileSizeBytes)%N /\
         rawParse raw = Some (mkFragment [] body)) ->
    exists acc' st',
      includesOf
        (fun include s => resolveAt (S fuel) include dir depth visited s)
        includes acc st = Ok (acc', st') /\
      filesLoaded st' = filesLoaded st + length includes.
Proof.
  intros fuel dir depth visited includes;
    induction includes as [| include rest IH]; intros acc st Hdepth Hfiles Hleaf.
  - exists acc, st; simpl; split; [reflexivity | lia].
  - destruct (Hleaf include (or_introl eq_refl))
      as (Hfresh & raw & body & Hread & Hsize & Hparse).
    simpl in Hfiles; cbn [mergeIncludes].
    rewrite (mergeReference_leaf _ _ _ _ _ _ _ _ Hfresh Hread Hsize Hparse).
    apply Nat.leb_gt in Hdepth as Hd; rewrite Hd.
    assert (Hf : (MaxFilesCountTotal <=? filesLoaded st)%nat = false)
      by (apply Nat.leb_gt; lia).
    rewrite Hf.
    destruct (IH (mergeDoc acc (mergeDoc emptyDoc body))
                 (recordLoad (Key include) st) Hdepth)
      as (acc' & st' & Hrest & Hcount).
    + simpl; lia.
    + intros other Hin; apply Hleaf; right; assumption.
    + exists acc', st'; split; [exact Hrest | simpl in Hcount |- *; lia].
Qed.

(** *** Every file of a success is within the limits *)

Lemma visited_In :
  forall key visited, IsStringInSlice key visited = true <-> In key visited.
Proof.
  intros key visited; unfold IsStringInSlice; rewrite existsb_exists; split.
  - intros (x & Hin & Heq); apply String.eqb_eq in Heq; subst; assumption.
  - intros Hin; exists key; split; [assumption | apply String.eqb_refl].
Qed.

Lemma visited_fresh :
  forall key visited, ~ In key visited -> IsStringInSlice key visited = false.
Proof.
  intros key visited Hnot.
  destruct (IsStringInSlice key visited) eqn:H; [| reflexivity].
  apply visited_In in H; contradiction.
Qed.

Lemma mergeReference_ok_node :
  forall fuel ref dir depth visited st r,
    resolveAt fuel ref dir depth visited st = Ok r ->
    IsStringInSlice (Key ref) visited = false /\
    depth < MaxIncludeDepth /\
    filesLoaded st < MaxFilesCountTotal /\
    exists raw frag,
      read ref dir = Some raw /\
      (rawSize raw <= MaxFileSizeBytes)%N /\
      rawParse raw = Some frag /\
      length (fragIncludes frag) <= MaxIncludeCountPerFile.
Proof.
  intros [| fuel] ref dir depth visited st r; [discriminate |].
  rewrite mergeReference_unfold.
  destruct (IsStringInSlice (Key ref) visited); [discriminate |].
  destruct (Nat.leb_spec MaxIncludeDepth depth) as [Hdeep | Hshallow];
    [discriminate |].
  destruct (Nat.leb_spec MaxFilesCountTotal (filesLoaded st)) as [Hfull | Hroom];
    [discriminate |].
  destruct (read ref dir) as [raw |] eqn:Hread; [| discriminate].
  destruct (N.ltb_spec MaxFileSizeBytes (rawSize raw)) as [Hbig | Hsmall];
    [discriminate |].
  destruct (rawParse raw) as [frag |] eqn:Hparse; [| discriminate].
  destruct (Nat.ltb_spec MaxIncludeCountPerFile (length (fragIncludes frag)))
    as [Hmany | Hfew]; [discriminate |].
  intros _.
  split; [reflexivity | split; [assumption | split; [assumption |]]].
  exists raw, frag.
  split; [reflexivity | split; [assumption | split; assumption]].
Qed.

Lemma ok_reaches :
  forall n x y, path n x y ->
    forall fuel depth visited st r,
      resolveAt fuel (fst x) (snd x) depth visited st = Ok r ->
      exists fuel' visited' st' r',
        resolveAt fuel' (fst y) (snd y) (depth + n) visited' st' = Ok r'.
Proof.
  induction 1 as [x | n x y z Hedge _ IH]; intros fuel depth visited st r Hok.
  - rewrite Nat.add_0_r; eauto.
  - destruct x as [ref dir]; simpl in Hok.
    destruct (mergeReference_ok_step _ _ _ _ _ _ _ Hok) as [_ Hnext].
    destruct (Hnext y Hedge) as (fuel' & s & r' & Hy).
    destruct (IH _ _ _ _ _ Hy) as (fuel2 & visited2 & st2 & r2 & Hz).
    rewrite Nat.add_succ_r; simpl in Hz; eauto.
Qed.

(** *** The file at which a failure arises *)

Lemma mergeIncludes_err_origin :
  forall resolve includes acc st e,
    includesOf resolve includes acc st = Err e ->
    exists include s, In include includes /\ resolve include s = Err e.
Proof.
  intros resolve includes; induction includes as [| first rest IH];
    intros acc st e; simpl; [discriminate |].
  destruct (resolve first st) as [[sub st'] | e' |] eqn:Hfirst.
  - intros H; destruct (IH _ _ _ H) as (include & s & Hin & Hr).
    exists include, s; auto.
  - intros H; inversion H; subst; exists first, st; auto.
  - discriminate.
Qed.

Lemma mergeReference_err_origin :
  forall fuel ref dir depth visited st e,
    resolveAt fuel ref dir depth visited st = Err e ->
    exists keys y,
      chain (ref, dir) keys y /\
      failsAt Doc Key read e y (depth + length keys) (visited ++ keys)%list.
Proof.
  induction fuel as [| fuel IH]; intros ref dir depth visited st e;
    [discriminate |].
  rewrite mergeReference_unfold.
  assert (Hhere : failsAt Doc Key read e (ref, dir) depth visited ->
                  exists keys y,
                    chain (ref, dir) keys y /\
                    failsAt Doc Key read e y (depth + length keys)
                      (visited ++ keys)%list).
  { intros H; exists [], (ref, dir); split; [constructor |].
    simpl; rewrite Nat.add_0_r, app_nil_r; exact H. }
  destruct (IsStringInSlice (Key ref) visited) eqn:Hseen.
  { intros H; inversion H; subst; apply Hhere; simpl.
    split; [apply visited_In; assumption | reflexivity]. }
  destruct (Nat.leb_spec MaxIncludeDepth depth) as [Hdeep | Hshallow].
  { intros H; inversion H; subst; apply Hhere; exact Hdeep. }
  destruct (MaxFilesCountTotal <=? filesLoaded st)%nat.
  { intros H; inversion H; subst; apply Hhere; exact I. }
  destruct (read ref dir) as [raw |] eqn:Hread.
  2: { intros H; inversion H; subst; apply Hhere; simpl; auto. }
  destruct (N.ltb_spec MaxFileSizeBytes (rawSize raw)) as [Hbig | Hsmall].
  { intros H; inversion H; subst; apply Hhere; simpl; eauto. }
  destruct (rawParse raw) as [frag |] eqn:Hparse.
  2: { intros H; inversion H; subst; apply Hhere; simpl; eauto. }
  destruct (Nat.ltb_spec MaxIncludeCountPerFile (length (fragIncludes frag)))
    as [Hmany | Hfew].
  { intros H; inversion H; subst; apply Hhere; simpl; eauto. }
  match goal with
  | |- match ?m with _ => _ end = _ -> _ =>
      destruct m as [[acc st'] | e' |] eqn:Hincludes; try discriminate
  end.
  intros H; inversion H; subst e'.
  apply mergeIncludes_err_origin in Hincludes.
  destruct Hincludes as (include & s & Hin & Hinc).
  destruct (IH _ _ _ _ _ _ Hinc) as (keys & y & Hchain & Hfails).
  exists (Key ref :: keys), y; split.
  - apply includeChain_step with (y := (include, includeDir dir ref));
      [| exact Hchain].
    exists raw, frag; simpl; auto.
  - simpl length; rewrite Nat.add_succ_r.
    rewrite <- app_assoc in Hfails; exact Hfails.
Qed.

(** *** The number of files read *)

Lemma mergeIncludes_count :
  forall resolve count includes acc st acc' st',
    (forall include s sub s',
       resolve include s = Ok (sub, s') ->
       filesLoaded s' = filesLoaded s + count include) ->
    includesOf resolve includes acc st = Ok (acc', st') ->
    filesLoaded st' = filesLoaded st + list_sum (map count includes).
Proof.
  intros resolve count includes; induction includes as [| first rest IH];
    intros acc st acc' st' Hres; simpl.
  - intros H; inversion H; subst; lia.
  - destruct (resolve first st) as [[sub s'] | e |] eqn:Hfirst;
      try discriminate.
    intros H; rewrite (IH _ _ _ _ Hres H), (Hres _ _ _ _ Hfirst); lia.
Qed.

Lemma mergeReference_count :
  forall fuel ref dir depth visited st doc st',
    resolveAt fuel ref dir depth visited st = Ok (doc, st') ->
    filesLoaded st' = filesLoaded st + reads fuel ref dir.
Proof.
  induction fuel as [| fuel IH]; intros ref dir depth visited st doc st';
    [discriminate |].
  rewrite mergeReference_unfold; simpl readCount.
  destruct (IsStringInSlice (Key ref) visited); [discriminate |].
  destruct (MaxIncludeDepth <=? depth)%nat; [discriminate |].
  destruct (MaxFilesCountTotal <=? filesLoaded st)%nat; [discriminate |].
  destruct (read ref dir) as [raw |]; [| discriminate].
  destruct (MaxFileSizeBytes <? rawSize raw)%N; [discriminate |].
  destruct (rawParse raw) as [frag |]; [| discriminate].
  destruct (MaxIncludeCountPerFile <? length (fragIncludes frag))%nat;
    [discriminate |].
  match goal with
  | |- match ?m with _ => _ end = _ -> _ =>
      destruct m as [[acc s'] | e |] eqn:Hincludes; try discriminate
  end.
  intros H; inversion H; subst.
  apply (mergeIncludes_count _
           (fun include => reads fuel include (includeDir dir ref)))
    in Hincludes.
  - rewrite Hincludes; simpl; lia.
  - intros include s sub s'' Hinc; eapply IH; exact Hinc.
Qed.

Lemma mergeIncludes_count_exceeded :
  forall resolve count includes acc st,
    (forall include s sub s',
       resolve include s = Ok (sub, s') ->
       filesLoaded s' = filesLoaded s + count include) ->
    (forall include s,
       resolve include s = Err ErrMaxFilesCount ->
       MaxFilesCountTotal < filesLoaded s + count include) ->
    includesOf resolve includes acc st = Err ErrMaxFilesCount ->
    MaxFilesCountTotal < filesLoaded st + list_sum (map count includes).
Proof.
  intros resolve count includes; induction includes as [| first rest IH];
    intros acc st Hok Herr; simpl; [discriminate |].
  destruct (resolve first st) as [[sub s'] | e |] eqn:Hfirst.
  - intros H; specialize (IH _ _ Hok Herr H).
    rewrite (Hok _ _ _ _ Hfirst) in IH; lia.
  - intros H; inversion H; subst.
    specialize (Herr _ _ Hfirst); lia.
  - discriminate.
Qed.

Lemma mergeReference_count_exceeded :
  forall fuel ref dir depth visited st,
    resolveAt fuel ref dir depth visited st = Err ErrMaxFilesCount ->
    MaxFilesCountTotal < filesLoaded st + reads fuel ref dir.
Proof.
  induction fuel as [| fuel IH]; intros ref dir depth visited st;
    [discriminate |].
  rewrite mergeReference_unfold; simpl readCount.
  destruct (IsStringInSlice (Key ref) visited); [discriminate |].
  destruct (MaxIncludeDepth <=? depth)%nat; [discriminate |].
  destruct (Nat.leb_spec MaxFilesCountTotal (filesLoaded st)) as [Hfull | Hroom].
  { intros _.
    destruct (read ref dir) as [raw |]; [| lia].
    destruct (rawParse raw); lia. }
  destruct (read ref dir) as [raw |]; [| discriminate].
  destruct (MaxFileSizeBytes <? rawSize raw)%N; [discriminate |].
  destruct (rawParse raw) as [frag |]; [| discriminate].
  destruct (MaxIncludeCountPerFile <? length (fragIncludes frag))%nat;
    [discriminate |].
  match goal with
  | |- match ?m with _ => _ end = _ -> _ =>
      destruct m as [[acc s'] | e |] eqn:Hincludes; try discriminate
  end.
  intros H; inversion H; subst e.
  apply (mergeIncludes_count_exceeded _
           (fun include => reads fuel include (includeDir dir ref)))
    in Hincludes.
  - simpl in Hincludes; lia.
  - intros include s sub s'' Hinc; eapply mergeReference_count; exact Hinc.
  - intros include s Hinc; apply IH in Hinc; exact Hinc.
Qed.

(** *** Following first include entries *)

Lemma mergeReference_first_include :
  forall fuel ref dir depth visited st raw frag include others e,
    IsStringInSlice (Key ref) visited = false ->
    depth < MaxIncludeDepth ->
    filesLoaded st < MaxFilesCountTotal ->
    read ref dir = Some raw ->
    (rawSize raw <= MaxFileSizeBytes)%N ->
    rawParse raw = Some frag ->
    fragIncludes frag = include :: others ->
    length (fragIncludes frag) <= MaxIncludeCountPerFile ->
    resolveAt fuel include (includeDir dir ref) (S depth)
      (visited ++ [Key ref])%list (recordLoad (Key ref) st) = Err e ->
    resolveAt (S fuel) ref dir depth visited st = Err e.
Proof.
  intros fuel ref dir depth visited st raw frag include others e
    Hfresh Hdepth Hfiles Hread Hsize Hparse Hfirst Hcount Herr.
  rewrite mergeReference_unfold, Hfresh, Hread.
  apply Nat.leb_gt in Hdepth; rewrite Hdepth.
  apply Nat.leb_gt in Hfiles; rewrite Hfiles.
  apply N.ltb_ge in Hsize; rewrite Hsize, Hparse.
  apply Nat.ltb_ge in Hcount; rewrite Hcount.
  rewrite Hfirst; cbn [mergeIncludes]; rewrite Herr; reflexivity.
Qed.

(** A descent along first include entries that ends in a reference already
    on the chain: the cycle error with the whole chain when the repeat is met
    within the depth limit, the depth error otherwise. *)
Lemma followsFirst_fails :
  forall back rest f dir depth visited st fuel,
    followsFirst Doc read includeDir (f :: rest) dir back ->
    NoDup (visited ++ map Key (f :: rest))%list ->
    In (Key back) (visited ++ map Key (f :: rest))%list ->
    0 < fuel -> MaxIncludeDepth < fuel + depth ->
    filesLoaded st + MaxIncludeDepth <= MaxFilesCountTotal + depth ->
    resolveAt fuel f dir depth visited st
    = if (depth + length (f :: rest) <=? MaxIncludeDepth)%nat
      then Err (ErrCircularReference
                  (visited ++ map Key (f :: rest) ++ [Key back])%list)
      else Err ErrMaxIncludeDepth.
Proof.
  intros back rest; induction rest as [| g rest IH];
    intros f dir depth visited st fuel Hfollows Hnodup Hback Hpos Hfuel Hfiles;
    (destruct fuel as [| fuel]; [lia |]);
    assert (Hfresh : IsStringInSlice (Key f) visited = false)
      by (apply visited_fresh; intros Hin;
          simpl in Hnodup; apply NoDup_remove_2 in Hnodup;
          apply Hnodup; apply in_or_app; left; exact Hin);
    (destruct (Nat.leb_spec MaxIncludeDepth depth) as [Hdeep | Hshallow];
     [ rewrite mergeReference_unfold, Hfresh;
       rewrite (proj2 (Nat.leb_le _ _) Hdeep);
       match goal with
       | |- context [(?a <=? MaxIncludeDepth)%nat] =>
           assert (Hno : (a <=? MaxIncludeDepth)%nat = false)
             by (apply Nat.leb_gt; simpl; lia);
           rewrite Hno; reflexivity
       end
     | ]);
    simpl in Hfollows;
    destruct Hfollows
      as (raw & frag & others & Hread & Hsize & Hparse & Hfirst & Hcount & Hnext).
  - assert (Hyes : (depth + length [f] <=? MaxIncludeDepth)%nat = true)
      by (apply Nat.leb_le; simpl; lia).
    rewrite Hyes.
    apply (mergeReference_first_include fuel f dir depth visited st
             raw frag back others); try assumption.
    + unfold MaxFilesCountTotal, MaxIncludeDepth in *; lia.
    + destruct fuel as [| fuel];
        [unfold MaxIncludeDepth in *; lia |].
      rewrite mergeReference_unfold.
      assert (Hseen : IsStringInSlice (Key back) (visited ++ [Key f])%list = true)
        by (apply visited_In; exact Hback).
      rewrite Hseen; simpl map.
      rewrite <- app_assoc; reflexivity.
  - assert (Hrec :
      resolveAt fuel g (includeDir dir f) (S depth) (visited ++ [Key f])%list
        (recordLoad (Key f) st)
      = if (depth + length (f :: g :: rest) <=? MaxIncludeDepth)%nat
        then Err (ErrCircularReference
                    (visited ++ map Key (f :: g :: rest) ++ [Key back])%list)
        else Err ErrMaxIncludeDepth).
    { rewrite (IH g (includeDir dir f) (S depth) (visited ++ [Key f])%list
                 (recordLoad (Key f) st) fuel Hnext).
      - replace (S depth + length (g :: rest))
          with (depth + length (f :: g :: rest)) by (simpl; lia).
        replace ((visited ++ [Key f]) ++ map Key (g :: rest) ++ [Key back])%list
          with (visited ++ map Key (f :: g :: rest) ++ [Key back])%list
          by (simpl; rewrite <- app_assoc; reflexivity).
        reflexivity.
      - rewrite <- app_assoc; exact Hnodup.
      - rewrite <- app_assoc; exact Hback.
      - unfold MaxIncludeDepth in *; lia.
      - lia.
      - unfold MaxFilesCountTotal, MaxIncludeDepth in *; simpl; lia. }
    destruct (depth + length (f :: g :: rest) <=? MaxIncludeDepth)%nat;
      apply (mergeReference_first_include fuel f dir depth visited st
               raw frag g others);
      try assumption;
      unfold MaxFilesCountTotal, MaxIncludeDepth in *; lia.
Qed.

(** *** The composition from the root *)

Lemma includeChain_path :
  forall x keys y, chain x keys y -> path (length keys) x y.
Proof.
  induction 1 as [x | x y z keys Hedge _ IH]; [constructor |].
  simpl; apply includePath_step with (y := y); assumption.
Qed.

Lemma mergeConfig_ok_root :
  forall root r,
    compose root = Ok r ->
    exists doc st,
      resolveAt (S MaxIncludeDepth) root "" 0 [] initialState = Ok (doc, st).
Proof.
  intros root r; unfold mergeConfig.
  destruct (resolveAt (S MaxIncludeDepth) root "" 0 [] initialState)
    as [[doc st] | e |]; [eauto | discriminate | discriminate].
Qed.

Lemma mergeConfig_err_root :
  forall root e,
    compose root = Err e ->
    resolveAt (S MaxIncludeDepth) root "" 0 [] initialState = Err e.
Proof.
  intros root e; unfold mergeConfig.
  destruct (resolveAt (S MaxIncludeDepth) root "" 0 [] initialState)
    as [[doc st] | e' |]; [discriminate | congruence | discriminate].
Qed.

Lemma mergeConfig_err_origin :
  forall root e,
    compose root = Err e ->
    exists keys y,
      chain (root, "") keys y /\ failsAt Doc Key read e y (length keys) keys.
Proof.
  intros root e Herr; apply mergeConfig_err_root in Herr.
  destruct (mergeReference_err_origin _ _ _ _ _ _ _ Herr)
    as (keys & y & Hchain & Hfail).
  exists keys, y; split; assumption.
Qed.

Lemma mergeConfig_ok_reads :
  forall root r, compose root = Ok r -> reads (S MaxIncludeDepth) root "" <= MaxFilesCountTotal.
Proof.
  intros root r Hok.
  destruct (mergeConfig_ok_root _ _ Hok) as (doc & st & Hroot).
  pose proof (mergeReference_count _ _ _ _ _ _ _ _ Hroot) as Hcount.
  destruct (mergeReference_files_bound _ _ _ _ _ _ _ _ Hroot) as [_ Hbound].
  rewrite Hcount in Hbound; exact Hbound.
Qed.

Lemma mergeConfig_err_reads :
  forall root,
    compose root = Err ErrMaxFilesCount ->
    MaxFilesCountTotal < reads (S MaxIncludeDepth) root "".
Proof.
  intros root Herr; apply mergeConfig_err_root in Herr.
  exact (mergeReference_count_exceeded _ _ _ _ _ _ Herr).
Qed.

Lemma mergeConfig_ok_file :
  forall root r keys y,
    compose root = Ok r -> chain (root, "") keys y ->
    length keys < MaxIncludeDepth /\
    exists raw frag,
      read (fst y) (snd y) = Some raw /\
      (rawSize raw <= MaxFileSizeBytes)%N /\
      rawParse raw = Some frag /\
      length (fragIncludes frag) <= MaxIncludeCountPerFile.
Proof.
  intros root r keys y Hok Hchain.
  destruct (mergeConfig_ok_root _ _ Hok) as (doc & st & Hroot).
  apply includeChain_path in Hchain.
  destruct (ok_reaches _ _ _ Hchain _ _ _ _ _ Hroot)
    as (fuel' & visited' & st' & r' & Hy).
  destruct (mergeReference_ok_node _ _ _ _ _ _ _ Hy)
    as (_ & Hdepth & _ & Hfile).
  split; [simpl in Hdepth; exact Hdepth | exact Hfile].
Qed.

(** C8, as the engine has it.  A composition always terminates; when the
    root reaches a cycle of the include graph it does not succeed; and a
    three-file mutual inclusion (the root includes b, b includes c, c
    includes the root) fails with the cycle error naming the visited chain
    followed by the repeated reference: root -> b -> c -> root.  Wherever in
    a descent a reference is met whose key is on the visited chain, it is
    refused before any other check with the cycle error naming that chain
    followed by the reference.  Every cycle error of a composition names the
    keys of the files along an include path from the root, in traversal
    order, followed by the key of the included reference, which is one of
    them.  Along first include entries from the root, a reference back to
    any file of the chain gives that cycle error when the chain has at most
    5 files, and the depth error when it has more. *)
Theorem mergeConfig_cycle :
  forall root,
    compose root <> OutOfFuel /\
    (cyclicFrom Doc read includeDir root -> forall r, compose root <> Ok r) /\
    (forall b c rawRoot rawB rawC bodyRoot bodyB bodyC,
       Key b <> Key root -> Key c <> Key root -> Key c <> Key b ->
       read root "" = Some rawRoot ->
       (rawSize rawRoot <= MaxFileSizeBytes)%N ->
       rawParse rawRoot = Some (mkFragment [b] bodyRoot) ->
       read b (includeDir "" root) = Some rawB ->
       (rawSize rawB <= MaxFileSizeBytes)%N ->
       rawParse rawB = Some (mkFragment [c] bodyB) ->
       read c (includeDir (includeDir "" root) b) = Some rawC ->
       (rawSize rawC <= MaxFileSizeBytes)%N ->
       rawParse rawC = Some (mkFragment [root] bodyC) ->
       compose root
       = Err (ErrCircularReference [Key root; Key b; Key c; Key root]) /\
       errorText (ErrCircularReference [Key root; Key b; Key c; Key root])
       = "circular reference detected: " ++ Key root ++ " -> " ++ Key b
         ++ " -> " ++ Key c ++ " -> " ++ Key root) /\
    (forall fuel ref dir depth visited st,
       In (Key ref) visited ->
       resolveAt (S fuel) ref dir depth visited st
       = Err (ErrCircularReference (visited ++ [Key ref])%list)) /\
    (forall reported,
       compose root = Err (ErrCircularReference reported) ->
       exists keys y,
         chain (root, "") keys y /\
         In (Key (fst y)) keys /\
         reported = (keys ++ [Key (fst y)])%list) /\
    (forall rest back,
       followsFirst Doc read includeDir (root :: rest) "" back ->
       NoDup (map Key (root :: rest)) ->
       In (Key back) (map Key (root :: rest)) ->
       (length (root :: rest) <= 5 ->
        compose root
        = Err (ErrCircularReference (map Key (root :: rest) ++ [Key back])%list)) /\
       (5 < length (root :: rest) ->
        compose root = Err ErrMaxIncludeDepth)).
Proof.
  intros root; split; [apply mergeConfig_terminates |].
  split; [apply mergeConfig_cyclic_fails |].
  split; [| split; [| split]].
  - intros b c rawRoot rawB rawC bodyRoot bodyB bodyC Hb Hc Hcb
      HreadRoot HsizeRoot HparseRoot HreadB HsizeB HparseB HreadC HsizeC HparseC.
    split; [| reflexivity].
    apply String.eqb_neq in Hb, Hc, Hcb.
    unfold mergeConfig, MaxIncludeDepth.
    rewrite (mergeReference_one_include 5 root "" 0 [] initialState
               rawRoot b bodyRoot);
      [| reflexivity | unfold MaxIncludeDepth; lia
       | unfold MaxFilesCountTotal; simpl; lia | assumption ..].
    rewrite (mergeReference_one_include 4 b _ 1 _ _ rawB c bodyB);
      [| simpl; rewrite Hb; reflexivity | unfold MaxIncludeDepth; lia
       | unfold MaxFilesCountTotal; simpl; lia | assumption ..].
    rewrite (mergeReference_one_include 3 c _ 2 _ _ rawC root bodyC);
      [| simpl; rewrite Hc, Hcb; reflexivity | unfold MaxIncludeDepth; lia
       | unfold MaxFilesCountTotal; simpl; lia | assumption ..].
    rewrite mergeReference_unfold; simpl.
    rewrite String.eqb_refl; reflexivity.
  - intros fuel ref dir depth visited st Hin.
    rewrite mergeReference_unfold.
    apply visited_In in Hin; rewrite Hin; reflexivity.
  - intros reported Herr; unfold mergeConfig in Herr.
    destruct (resolveAt (S MaxIncludeDepth) root "" 0 [] initialState)
      as [[doc st] | e |] eqn:Hroot; try discriminate.
    inversion Herr; subst e.
    destruct (mergeReference_err_origin _ _ _ _ _ _ _ Hroot)
      as (keys & y & Hchain & Hin & Hrep).
    exists keys, y; auto.
  - intros rest back Hfollows Hnodup Hback.
    assert (Hrun :
      resolveAt (S MaxIncludeDepth) root "" 0 [] initialState
      = if (0 + length (root :: rest) <=? MaxIncludeDepth)%nat
        then Err (ErrCircularReference
                    ([] ++ map Key (root :: rest) ++ [Key back])%list)
        else Err ErrMaxIncludeDepth).
    { apply followsFirst_fails; try assumption;
        unfold MaxFilesCountTotal, MaxIncludeDepth; simpl; lia. }
    unfold mergeConfig; rewrite Hrun.
    split; intros Hlen.
    + assert (Hyes : (0 + length (root :: rest) <=? MaxIncludeDepth)%nat = true)
        by (apply Nat.leb_le; unfold MaxIncludeDepth; simpl in *; lia).
      rewrite Hyes; reflexivity.
    + assert (Hno : (0 + length (root :: rest) <=? MaxIncludeDepth)%nat = false)
        by (apply Nat.leb_gt; unfold MaxIncludeDepth; simpl in *; lia).
      rewrite Hno; reflexivity.
Qed.

(** C7, as the engine has it.  A single file of at most 1,048,576 bytes is
    merged and a larger one is refused.  A file with more than 10 include
    entries is refused, one with at most 10 entries that are plain files is
    merged.  At any point of a descent a readable plain file is merged when
    fewer than 20 files were read and it lies fewer than 5 includes below
    the root; it is refused for the file count when 20 files were read, and
    for the depth when it lies 5 or more includes below the root.  A
    successful descent has read at most 20 files, and every include path
    from the root of a successful composition has fewer than 5 includes.
    The test compositions agree: 20 reads succeed and the 21st fails, a
    chain of 4 includes below the root succeeds and the 5th fails.  Each
    message names its limit.

    The limits hold for every file of every composition.  Wherever a
    descent meets a reference that is not on the visited chain, it refuses
    it for the depth when it lies 5 or more includes below the root, for the
    file count when 20 files were read, for the size when the file read has
    more than 1,048,576 bytes and for the include count when it lists more
    than 10 entries.  When a composition succeeds, every file on an include
    path from the root lies fewer than 5 includes below it, has at most
    1,048,576 bytes and at most 10 include entries, and the include tree
    asks for at most 20 reads.  A size, include count, depth or file count
    failure of a composition comes from a file on an include path from the
    root that exceeds that limit (from more than 20 reads for the file
    count).  And when every file on an include path from the root is
    readable, parses, repeats no file above it and is within the size,
    include count and depth limits, the composition succeeds when its
    include tree asks for at most 20 reads and fails for the file count when
    it asks for 21 or more. *)
Theorem limits_are_exact_boundaries :
  (forall root raw body,
     read root "" = Some raw ->
     rawParse raw = Some (mkFragment [] body) ->
     ((rawSize raw <= 1048576)%N ->
      compose root = Ok (mergeDoc emptyDoc body, [Key root])) /\
     ((1048576 < rawSize raw)%N ->
      compose root = Err (ErrMaxFileSize (Key root)))) /\
  (forall root raw frag,
     read root "" = Some raw ->
     (rawSize raw <= 1048576)%N ->
     rawParse raw = Some frag ->
     (10 < length (fragIncludes frag) ->
      compose root = Err ErrMaxIncludeCount) /\
     (length (fragIncludes frag) <= 10 ->
      (forall include, In include (fragIncludes frag) ->
         Key include <> Key root /\
         exists rawI bodyI,
           read include (includeDir "" root) = Some rawI /\
           (rawSize rawI <= 1048576)%N /\
           rawParse rawI = Some (mkFragment [] bodyI)) ->
      exists r, compose root = Ok r)) /\
  (forall fuel ref dir depth visited st raw body,
     IsStringInSlice (Key ref) visited = false ->
     read ref dir = Some raw ->
     (rawSize raw <= 1048576)%N ->
     rawParse raw = Some (mkFragment [] body) ->
     (depth < 5 -> filesLoaded st < 20 ->
      resolveAt (S fuel) ref dir depth visited st
      = Ok (mergeDoc emptyDoc body, recordLoad (Key ref) st)) /\
     (depth < 5 -> 20 <= filesLoaded st ->
      resolveAt (S fuel) ref dir depth visited st = Err ErrMaxFilesCount) /\
     (5 <= depth ->
      resolveAt (S fuel) ref dir depth visited st = Err ErrMaxIncludeDepth)) /\
  (forall fuel ref dir depth visited st doc st',
     resolveAt fuel ref dir depth visited st = Ok (doc, st') ->
     filesLoaded st' <= 20) /\
  (forall root r n y,
     compose root = Ok r -> path n (root, "") y -> n < 5) /\
  ((exists doc st,
      mergeReference FlatDoc [] mergeFlat pathKey (readManyFiles 9 1) sameDir
        6 (localRef "bitrise.yml") "" 0 [] initialState = Ok (doc, st) /\
      filesLoaded st = 20) /\
   runTest (readManyFiles 10 0) = Err ErrMaxFilesCount) /\
  ((exists r, runTest (readDeep 4) = Ok r) /\
   includePath FlatDoc (readDeep 4) sameDir 4 (localRef "bitrise.yml", "")
     (branchRef yamls "main" (moduleName 4), "") /\
   runTest (readDeep 5) = Err ErrMaxIncludeDepth) /\
  ((forall key,
      errorText (ErrMaxFileSize key)
      = "max file size (1048576 bytes) exceeded in file " ++ key) /\
   errorText ErrMaxIncludeCount = "max include count (10) exceeded" /\
   errorText ErrMaxFilesCount = "max file count (20) exceeded" /\
   errorText ErrMaxIncludeDepth = "max include depth (5) exceeded") /\
  (forall fuel ref dir depth visited st,
     IsStringInSlice (Key ref) visited = false ->
     (5 <= depth ->
      resolveAt (S fuel) ref dir depth visited st = Err ErrMaxIncludeDepth) /\
     (depth < 5 -> 20 <= filesLoaded st ->
      resolveAt (S fuel) ref dir depth visited st = Err ErrMaxFilesCount)) /\
  (forall fuel ref dir depth visited st raw,
     IsStringInSlice (Key ref) visited = false ->
     depth < 5 -> filesLoaded st < 20 ->
     read ref dir = Some raw ->
     ((1048576 < rawSize raw)%N ->
      resolveAt (S fuel) ref dir depth visited st
      = Err (ErrMaxFileSize (Key ref))) /\
     (forall frag,
        (rawSize raw <= 1048576)%N ->
        rawParse raw = Some frag ->
        10 < length (fragIncludes frag) ->
        resolveAt (S fuel) ref dir depth visited st = Err ErrMaxIncludeCount)) /\
  (forall root r,
     compose root = Ok r ->
     reads 6 root "" <= 20 /\
     forall keys y,
       chain (root, "") keys y ->
       length keys < 5 /\
       exists raw frag,
         read (fst y) (snd y) = Some raw /\
         (rawSize raw <= 1048576)%N /\
         rawParse raw = Some frag /\
         length (fragIncludes frag) <= 10) /\
  (forall root,
     (forall key,
        compose root = Err (ErrMaxFileSize key) ->
        exists keys y raw,
          chain (root, "") keys y /\ key = Key (fst y) /\
          read (fst y) (snd y) = Some raw /\ (1048576 < rawSize raw)%N) /\
     (compose root = Err ErrMaxIncludeCount ->
      exists keys y raw frag,
        chain (root, "") keys y /\
        read (fst y) (snd y) = Some raw /\ rawParse raw = Some frag /\
        10 < length (fragIncludes frag)) /\
     (compose root = Err ErrMaxIncludeDepth ->
      exists keys y, chain (root, "") keys y /\ 5 <= length keys) /\
     (compose root = Err ErrMaxFilesCount -> 20 < reads 6 root "")) /\
  (forall root,
     (forall keys y,
        chain (root, "") keys y ->
        ~ In (Key (fst y)) keys /\
        length keys < 5 /\
        exists raw frag,
          read (fst y) (snd y) = Some raw /\
          (rawSize raw <= 1048576)%N /\
          rawParse raw = Some frag /\
          length (fragIncludes frag) <= 10) ->
     (reads 6 root "" <= 20 -> exists r, compose root = Ok r) /\
     (20 < reads 6 root "" -> compose root = Err ErrMaxFilesCount)).
Proof.
  split; [| split; [| split; [| split; [| split; [| split; [| split;
    [| split; [| split; [| split; [| split; [| split]]]]]]]]]]].
  - intros root raw body Hread Hparse; split; intros Hsize.
    + unfold mergeConfig, MaxIncludeDepth.
      rewrite (mergeReference_leaf 5 root "" 0 [] initialState raw body
                 eq_refl Hread Hsize Hparse).
      reflexivity.
    + unfold mergeConfig; rewrite mergeReference_unfold, Hread; simpl.
      apply N.ltb_lt in Hsize; unfold MaxFileSizeBytes; rewrite Hsize.
      reflexivity.
  - intros root raw frag Hread Hsize Hparse; split.
    + intros Hmany.
      unfold mergeConfig; rewrite mergeReference_unfold, Hread; simpl.
      apply N.ltb_ge in Hsize; unfold MaxFileSizeBytes; rewrite Hsize, Hparse.
      apply Nat.ltb_lt in Hmany; unfold MaxIncludeCountPerFile; rewrite Hmany.
      reflexivity.
    + intros Hfew Hleaves.
      unfold mergeConfig, MaxIncludeDepth; rewrite mergeReference_unfold, Hread.
      simpl IsStringInSlice; cbv iota.
      change (MaxIncludeDepth <=? 0)%nat with false.
      change (MaxFilesCountTotal <=? filesLoaded initialState)%nat with false.
      cbv iota.
      apply N.ltb_ge in Hsize as Hs; unfold MaxFileSizeBytes; rewrite Hs, Hparse.
      assert (Hc : (MaxIncludeCountPerFile <? length (fragIncludes frag))%nat = false)
        by (apply Nat.ltb_ge; exact Hfew).
      rewrite Hc.
      destruct (mergeIncludes_leaves 4 (includeDir "" root) 1
                  ([] ++ [Key root])%list (fragIncludes frag) emptyDoc
                  (recordLoad (Key root) initialState))
        as (acc' & st' & Hinc & _).
      * unfold MaxIncludeDepth; lia.
      * unfold MaxFilesCountTotal; simpl; lia.
      * intros include Hin.
        destruct (Hleaves include Hin) as (Hkey & rawI & bodyI & HrI & HsI & HpI).
        split; [| eauto].
        simpl; apply String.eqb_neq in Hkey; rewrite Hkey; reflexivity.
      * rewrite Hinc; eauto.
  - intros fuel ref dir depth visited st raw body Hfresh Hread Hsize Hparse.
    rewrite (mergeReference_leaf _ _ _ _ _ _ _ _ Hfresh Hread Hsize Hparse).
    unfold MaxIncludeDepth, MaxFilesCountTotal.
    repeat split.
    + intros Hd Hf.
      apply Nat.leb_gt in Hd, Hf; rewrite Hd, Hf; reflexivity.
    + intros Hd Hf.
      apply Nat.leb_gt in Hd; apply Nat.leb_le in Hf; rewrite Hd, Hf; reflexivity.
    + intros Hd; apply Nat.leb_le in Hd; rewrite Hd; reflexivity.
  - intros fuel ref dir depth visited st doc st' Hok.
    apply mergeReference_files_bound in Hok.
    unfold MaxFilesCountTotal in Hok; lia.
  - intros root r n y Hok Hpath.
    unfold mergeConfig in Hok.
    destruct (resolveAt (S MaxIncludeDepth) root "" 0 [] initialState)
      as [[doc st] | e |] eqn:Hroot; try discriminate.
    pose proof (ok_path_bound _ _ _ Hpath _ _ _ _ _ Hroot) as Hbound.
    unfold MaxIncludeDepth in Hbound; lia.
  - split; [| vm_compute; reflexivity].
    eexists; eexists; split; vm_compute; reflexivity.
  - split; [eexists; vm_compute; reflexivity |].
    split; [| vm_compute; reflexivity].
    include_step (branchRef yamls "main" (moduleName 1), "").
    include_step (branchRef yamls "main" (moduleName 2), "").
    include_step (branchRef yamls "main" (moduleName 3), "").
    include_step (branchRef yamls "main" (moduleName 4), "").
    constructor.
  - repeat split.
  - intros fuel ref dir depth visited st Hfresh; split.
    + intros Hdeep.
      rewrite mergeReference_unfold, Hfresh.
      apply Nat.leb_le in Hdeep; unfold MaxIncludeDepth; rewrite Hdeep.
      reflexivity.
    + intros Hdepth Hfull.
      rewrite mergeReference_unfold, Hfresh.
      apply Nat.leb_gt in Hdepth; apply Nat.leb_le in Hfull.
      unfold MaxIncludeDepth, MaxFilesCountTotal; rewrite Hdepth, Hfull.
      reflexivity.
  - intros fuel ref dir depth visited st raw Hfresh Hdepth Hroom Hread.
    apply Nat.leb_gt in Hdepth, Hroom.
    split.
    + intros Hbig.
      rewrite mergeReference_unfold, Hfresh, Hread.
      unfold MaxIncludeDepth, MaxFilesCountTotal; rewrite Hdepth, Hroom.
      apply N.ltb_lt in Hbig; unfold MaxFileSizeBytes; rewrite Hbig.
      reflexivity.
    + intros frag Hsize Hparse Hmany.
      rewrite mergeReference_unfold, Hfresh, Hread.
      unfold MaxIncludeDepth, MaxFilesCountTotal; rewrite Hdepth, Hroom.
      apply N.ltb_ge in Hsize; unfold MaxFileSizeBytes; rewrite Hsize, Hparse.
      apply Nat.ltb_lt in Hmany; unfold MaxIncludeCountPerFile; rewrite Hmany.
      reflexivity.
  - intros root r Hok; split.
    + exact (mergeConfig_ok_reads _ _ Hok).
    + intros keys y Hchain.
      exact (mergeConfig_ok_file _ _ _ _ Hok Hchain).
  - intros root; split; [| split; [| split]].
    + intros key Herr.
      destruct (mergeConfig_err_origin _ _ Herr)
        as (keys & y & Hchain & Hkey & raw & Hread & Hbig).
      exists keys, y, raw; auto.
    + intros Herr.
      destruct (mergeConfig_err_origin _ _ Herr)
        as (keys & y & Hchain & raw & frag & Hread & Hparse & Hmany).
      exists keys, y, raw, frag; auto.
    + intros Herr.
      destruct (mergeConfig_err_origin _ _ Herr) as (keys & y & Hchain & Hdeep).
      exists keys, y; split; [assumption | exact Hdeep].
    + intros Herr; exact (mergeConfig_err_reads _ Herr).
  - intros root Hall.
    assert (Hcases : (exists r, compose root = Ok r) \/
                     compose root = Err ErrMaxFilesCount).
    { destruct (compose root) as [r | e |] eqn:Hrun;
        [left; eauto | | exfalso; exact (mergeConfig_terminates root Hrun)].
      destruct (mergeConfig_err_origin _ _ Hrun) as (keys & y & Hchain & Hfail).
      destruct (Hall keys y Hchain)
        as (Hnew & Hdepth & raw & frag & Hread & Hsize & Hparse & Hcount).
      destruct e as [reported | | | key | key | key |]; simpl in Hfail.
      - destruct Hfail as [Hin _]; contradiction.
      - unfold MaxIncludeDepth in Hfail; lia.
      - right; reflexivity.
      - destruct Hfail as [_ Hnone]; congruence.
      - destruct Hfail as (_ & raw' & Hread' & Hbig).
        assert (raw' = raw) by congruence; subst raw'.
        unfold MaxFileSizeBytes in Hbig; lia.
      - destruct Hfail as (_ & raw' & Hread' & Hnone); congruence.
      - destruct Hfail as (raw' & frag' & Hread' & Hparse' & Hmany).
        assert (raw' = raw) by congruence; subst raw'.
        assert (frag' = frag) by congruence; subst frag'.
        unfold MaxIncludeCountPerFile in Hmany; lia. }
    split.
    + intros Hfew.
      destruct Hcases as [Hok | Herr]; [exact Hok |].
      apply mergeConfig_err_reads in Herr.
      unfold MaxFilesCountTotal, MaxIncludeDepth in Herr; lia.
    + intros Hmany.
      destruct Hcases as [[r Hok] | Herr]; [| exact Herr].
      apply mergeConfig_ok_reads in Hok.
      unfold MaxFilesCountTotal, MaxIncludeDepth in Hok; lia.
Qed.

End EngineFacts.

(** *** The compositions of the test file *)

Lemma test_max_file_size :
  runTest (readSized (MaxFileSizeBytes + 1)) = Err (ErrMaxFileSize "bitrise.yml") /\
  errorText (ErrMaxFileSize "bitrise.yml")
  = "max file size (1048576 bytes) exceeded in file bitrise.yml".
Proof. split; vm_compute; reflexivity. Qed.

Lemma test_circular_dependency :
  runTest readCircular
  = Err (ErrCircularReference
           ["bitrise.yml"; "module_1.yml"; "module_2.yml"; "module_1.yml"]) /\
  errorText (ErrCircularReference
               ["bitrise.yml"; "module_1.yml"; "module_2.yml"; "module_1.yml"])
  = "circular reference detected: bitrise.yml -> module_1.yml -> module_2.yml -> module_1.yml".
Proof. split; vm_compute; reflexivity. Qed.

Lemma test_max_include_count :
  runTest (readManyIncludes (MaxIncludeCountPerFile + 1)) = Err ErrMaxIncludeCount /\
  errorText ErrMaxIncludeCount = "max include count (10) exceeded".
Proof. split; vm_compute; reflexivity. Qed.

Lemma test_max_file_count :
  runTest (readManyFiles 10 0) = Err ErrMaxFilesCount /\
  errorText ErrMaxFilesCount = "max file count (20) exceeded".
Proof. split; vm_compute; reflexivity. Qed.

Lemma test_max_include_depth :
  runTest (readDeep 5) = Err ErrMaxIncludeDepth /\
  errorText ErrMaxIncludeDepth = "max include depth (5) exceeded".
Proof. split; vm_compute; reflexivity. Qed.

(** The limits on size and include count hold for an included file as they
    do for the root. *)
Lemma test_nested_limits :
  (exists r, runTest (readNested 1048576 10) = Ok r) /\
  runTest (readNested 1048577 10) = Err (ErrMaxFileSize "module_1.yml") /\
  runTest (readNested 1048576 11) = Err ErrMaxIncludeCount.
Proof.
  split; [eexists; vm_compute; reflexivity | split; vm_compute; reflexivity].
Qed.

(** *** Instances *)

Lemma mergeConfig_cycle_witness :
  mergeConfig FlatDoc [] mergeFlat pathKey readTriangle sameDir (localRef "a.yml")
  = Err (ErrCircularReference ["a.yml"; "b.yml"; "c.yml"; "a.yml"]) /\
  runTest readCircular
  = Err (ErrCircularReference
           ["bitrise.yml"; "module_1.yml"; "module_2.yml"; "module_1.yml"]).
Proof.
  split.
  - destruct (mergeConfig_cycle FlatDoc [] mergeFlat pathKey readTriangle sameDir
                (localRef "a.yml")) as (_ & _ & H & _).
    apply (H (localRef "b.yml") (localRef "c.yml")
             (mkRawFile 10 (Some (mkFragment [localRef "b.yml"] [("name", "a")])))
             (mkRawFile 10 (Some (mkFragment [localRef "c.yml"] [])))
             (mkRawFile 10 (Some (mkFragment [localRef "a.yml"] [])))
             [("name", "a")] [] []);
      try discriminate; reflexivity.
  - destruct (mergeConfig_cycle FlatDoc [] mergeFlat pathKey readCircular sameDir
                (localRef "bitrise.yml")) as (_ & _ & _ & _ & _ & H).
    assert (Hfollows :
      followsFirst FlatDoc readCircular sameDir
        [localRef "bitrise.yml"; localRef "module_1.yml"; localRef "module_2.yml"]
        "" (localRef "module_1.yml")).
    { cbn [followsFirst].
      exists (mkRawFile 113 (Some (mkFragment [localRef "module_1.yml"] rootBody))),
        (mkFragment [localRef "module_1.yml"] rootBody), [].
      repeat split; try reflexivity; try discriminate;
        try (unfold MaxIncludeCountPerFile; simpl; lia).
      exists (mkRawFile 29 (Some (mkFragment [localRef "module_2.yml"] []))),
        (mkFragment [localRef "module_2.yml"] []), [].
      repeat split; try reflexivity; try discriminate;
        try (unfold MaxIncludeCountPerFile; simpl; lia).
      exists (mkRawFile 29 (Some (mkFragment [localRef "module_1.yml"] []))),
        (mkFragment [localRef "module_1.yml"] []), [].
      repeat split; try reflexivity; try discriminate;
        unfold MaxIncludeCountPerFile; simpl; lia. }
    assert (Hnodup :
      NoDup (map pathKey
        [localRef "bitrise.yml"; localRef "module_1.yml"; localRef "module_2.yml"]))
      by (repeat constructor; simpl; intuition discriminate).
    assert (Hback :
      In (pathKey (localRef "module_1.yml"))
         (map pathKey
            [localRef "bitrise.yml"; localRef "module_1.yml"; localRef "module_2.yml"]))
      by (simpl; auto).
    destruct (H _ _ Hfollows Hnodup Hback) as [Hcycle _].
    apply Hcycle; simpl; lia.
Defined.

(** C8, as stated, fails on a cycle through six files: the root reaches the
    cycle, and the composition fails with the depth error, not with a cycle
    error. *)
Lemma six_file_cycle_meets_depth_limit :
  cyclicFrom FlatDoc readRing sameDir (localRef "f0") /\
  mergeConfig FlatDoc [] mergeFlat pathKey readRing sameDir (localRef "f0")
  = Err ErrMaxIncludeDepth /\
  forall chain,
    mergeConfig FlatDoc [] mergeFlat pathKey readRing sameDir (localRef "f0")
    <> Err (ErrCircularReference chain).
Proof.
  split; [| split; [vm_compute; reflexivity | intros chain; vm_compute; discriminate]].
  exists (localRef "f0", ""), 0, 5; split; [constructor |].
  include_step (localRef "f1", "").
  include_step (localRef "f2", "").
  include_step (localRef "f3", "").
  include_step (localRef "f4", "").
  include_step (localRef "f5", "").
  include_step (localRef "f0", "").
  constructor.
Qed.

Lemma limits_are_exact_boundaries_witness :
  runTest (readSized 1048576) = Ok ([], ["bitrise.yml"]) /\
  runTest (readSized 1048577) = Err (ErrMaxFileSize "bitrise.yml") /\
  runTest (readManyIncludes 11) = Err ErrMaxIncludeCount /\
  mergeReference FlatDoc [] mergeFlat pathKey (readNested 1048577 0) sameDir
    5 (localRef "module_1.yml") "" 1 ["bitrise.yml"]
    (recordLoad "bitrise.yml" initialState)
  = Err (ErrMaxFileSize "module_1.yml") /\
  mergeReference FlatDoc [] mergeFlat pathKey (readNested 1048576 11) sameDir
    5 (localRef "module_1.yml") "" 1 ["bitrise.yml"]
    (recordLoad "bitrise.yml" initialState)
  = Err ErrMaxIncludeCount /\
  (exists r, runTest (readSized 1048576) = Ok r).
Proof.
  split; [| split; [| split; [| split; [| split]]]].
  - destruct (limits_are_exact_boundaries FlatDoc [] mergeFlat pathKey
                (readSized 1048576) sameDir) as [H _].
    apply (H (localRef "bitrise.yml")
             (mkRawFile 1048576 (Some (mkFragment [] []))) []);
      [reflexivity | reflexivity | discriminate].
  - destruct (limits_are_exact_boundaries FlatDoc [] mergeFlat pathKey
                (readSized 1048577) sameDir) as [H _].
    apply (H (localRef "bitrise.yml")
             (mkRawFile 1048577 (Some (mkFragment [] []))) []);
      reflexivity.
  - destruct (limits_are_exact_boundaries FlatDoc [] mergeFlat pathKey
                (readManyIncludes 11) sameDir) as (_ & H & _).
    apply (H (localRef "bitrise.yml")
             (mkRawFile 200
                (Some (mkFragment (repeat (localRef "path_1.yml") 11) rootBody)))
             (mkFragment (repeat (localRef "path_1.yml") 11) rootBody));
      [reflexivity | discriminate | reflexivity | simpl; lia].
  - destruct (limits_are_exact_boundaries FlatDoc [] mergeFlat pathKey
                (readNested 1048577 0) sameDir)
      as (_ & _ & _ & _ & _ & _ & _ & _ & _ & H & _).
    destruct (H 4 (localRef "module_1.yml") "" 1 ["bitrise.yml"]
                (recordLoad "bitrise.yml" initialState)
                (mkRawFile 1048577 (Some (mkFragment [] []))))
      as [Hsize _]; [reflexivity | lia | simpl; lia | reflexivity |].
    apply Hsize; reflexivity.
  - destruct (limits_are_exact_boundaries FlatDoc [] mergeFlat pathKey
                (readNested 1048576 11) sameDir)
      as (_ & _ & _ & _ & _ & _ & _ & _ & _ & H & _).
    destruct (H 4 (localRef "module_1.yml") "" 1 ["bitrise.yml"]
                (recordLoad "bitrise.yml" initialState)
                (mkRawFile 1048576
                   (Some (mkFragment (repeat (localRef "leaf.yml") 11) []))))
      as [_ Hcount]; [reflexivity | lia | simpl; lia | reflexivity |].
    apply (Hcount (mkFragment (repeat (localRef "leaf.yml") 11) []));
      [discriminate | reflexivity | simpl; lia].
  - destruct (limits_are_exact_boundaries FlatDoc [] mergeFlat pathKey
                (readSized 1048576) sameDir)
      as (_ & _ & _ & _ & _ & _ & _ & _ & _ & _ & _ & _ & H).
    destruct (H (localRef "bitrise.yml")) as [Hok _].
    + intros keys y Hchain.
      inversion Hchain as [x | x z y' keys' Hedge Hrest]; subst.
      * split; [simpl; tauto |].
        split; [simpl; lia |].
        exists (mkRawFile 1048576 (Some (mkFragment [] []))), (mkFragment [] []).
        repeat split; try reflexivity; try discriminate; simpl; lia.
      * destruct Hedge as (raw & frag & Hread & Hparse & Hin & _).
        vm_compute in Hread; inversion Hread; subst raw.
        simpl in Hparse; inversion Hparse; subst frag.
        contradiction.
    + apply Hok; vm_compute; lia.
Defined.

(** C7, as stated, fails on the depth: the file five includes below the
    root is refused (and with it the composition), as the test file
    requires; and twenty-one reads of three distinct files exceed the file
    count. *)
Lemma five_includes_below_root_refused :
  includePath FlatDoc (readDeep 5) sameDir 5 (localRef "bitrise.yml", "")
    (branchRef yamls "main" (moduleName 5), "") /\
  runTest (readDeep 5) = Err ErrMaxIncludeDepth /\
  runTest (readManyFiles 10 0) = Err ErrMaxFilesCount.
Proof.
  split; [| split; vm_compute; reflexivity].
  include_step (branchRef yamls "main" (moduleName 1), "").
  include_step (branchRef yamls "main" (moduleName 2), "").
  include_step (branchRef yamls "main" (moduleName 3), "").
  include_step (branchRef yamls "main" (moduleName 4), "").
  include_step (branchRef yamls "main" (moduleName 5), "").
  constructor.
Qed.

End ConfigMergeFacts.

(** * Further properties of trigger matching *)

Section MatchingExtras.

Variable Glob : string -> string -> bool.

Lemma TriggerEventType_eqb_eq :
  forall a b, TriggerEventType_eqb a b = true <-> a = b.
Proof. intros [] []; simpl; split; congruence. Qed.

Lemma triggerEventType_known :
  forall pushBranch prSourceBranch prTargetBranch tag kind,
    triggerEventType pushBranch prSourceBranch prTargetBranch tag = (kind, None) ->
    kind <> TriggerEventTypeUnknown.
Proof.
  intros pb ps pt tg kind; unfold triggerEventType.
  destruct (pb =? ""), (ps =? ""), (pt =? ""), (tg =? ""); simpl;
    intros H; inversion H; discriminate.
Qed.

Lemma matchPullRequest_no_error :
  forall item prSourceBranch prTargetBranch prReadyState b e,
    matchPullRequest Glob item prSourceBranch prTargetBranch prReadyState
    = Returned (b, e) -> e = None.
Proof.
  intros item ps pt rs b e; unfold matchPullRequest.
  destruct (stringFromTriggerCondition (PullRequestSourceBranch item)) as [s |];
    simpl; [| discriminate].
  destruct (stringFromTriggerCondition (PullRequestTargetBranch item)) as [t |];
    simpl; [| destruct (s =? ""); simpl; discriminate].
  destruct (s =? ""), (t =? ""); simpl; intros H; inversion H; reflexivity.
Qed.

Lemma matchMigratedItems_error :
  forall items paramsEventType pushBranch prSourceBranch prTargetBranch
         prReadyState tag b err,
    matchMigratedItems Glob items paramsEventType
      pushBranch prSourceBranch prTargetBranch prReadyState tag
    = Returned (b, Some err) ->
    b = false /\
    exists rule kind,
      In rule items /\ itemEventType rule = Returned (kind, Some err).
Proof.
  intros items pe pb ps pt rs tg b err;
    induction items as [| item rest IH]; simpl; [discriminate |].
  destruct (itemEventType item) as [[kind [e |]] |] eqn:Hitem; simpl;
    [| | discriminate].
  - intros H; inversion H; subst; split; [reflexivity |].
    exists item, kind; auto.
  - assert (Hrest :
      matchMigratedItems Glob rest pe pb ps pt rs tg = Returned (b, Some err) ->
      b = false /\
      exists rule kind0,
        (item = rule \/ In rule rest) /\
        itemEventType rule = Returned (kind0, Some err)).
    { intros H; destruct (IH H) as (Hb & rule & k & Hin & Hr).
      split; [assumption |]; exists rule, k; auto. }
    destruct (TriggerEventType_eqb pe kind); simpl; [| exact Hrest].
    destruct kind; simpl; try exact Hrest.
    + destruct (stringFromTriggerCondition (PushBranch item)); simpl;
        discriminate.
    + intros H; apply matchPullRequest_no_error in H; discriminate.
    + destruct (stringFromTriggerCondition (Tag item)); simpl; discriminate.
Qed.

(** X1. A match never returns true together with an error, and the error
    it returns is a classification error: that of the event, or else that
    of one of the rules it evaluates (the rule itself, or the rules a legacy
    rule migrates to). *)
Theorem MatchWithParams_error_is_classification :
  forall item pushBranch prSourceBranch prTargetBranch prReadyState tag b err,
    MatchWithParams Glob item pushBranch prSourceBranch prTargetBranch
      prReadyState tag = Returned (b, Some err) ->
    b = false /\
    (snd (triggerEventType pushBranch prSourceBranch prTargetBranch tag)
     = Some err \/
     (snd (triggerEventType pushBranch prSourceBranch prTargetBranch tag) = None /\
      exists rule kind,
        In rule (if negb (Pattern item =? "")
                 then migrateDeprecatedTriggerItem item else [item]) /\
        itemEventType rule = Returned (kind, Some err))).
Proof.
  intros item pb ps pt rs tg b err; unfold MatchWithParams.
  destruct (triggerEventType pb ps pt tg) as [pe [e |]]; simpl.
  - intros H; inversion H; subst; auto.
  - intros H; apply matchMigratedItems_error in H.
    destruct H as (Hb & rule & kind & Hin & Hr).
    split; [assumption | right; split; [reflexivity |]]; eauto.
Qed.

(** X2. A modern rule whose own conditions classify without error does not
    match an event of another kind: the match returns false and no error. *)
Theorem MatchWithParams_other_kind :
  forall item pushBranch prSourceBranch prTargetBranch prReadyState tag
         ruleKind eventKind,
    Pattern item = "" ->
    itemEventType item = Returned (ruleKind, None) ->
    triggerEventType pushBranch prSourceBranch prTargetBranch tag
      = (eventKind, None) ->
    eventKind <> ruleKind ->
    MatchWithParams Glob item pushBranch prSourceBranch prTargetBranch
      prReadyState tag = Returned (false, None).
Proof.
  intros item pb ps pt rs tg rk ek HP Hitem Hev Hneq.
  unfold MatchWithParams; rewrite Hev, HP; simpl; rewrite Hitem; simpl.
  destruct (TriggerEventType_eqb ek rk) eqn:Heq; [| reflexivity].
  apply TriggerEventType_eqb_eq in Heq; contradiction.
Qed.

(** X3. A modern rule that classifies as code-push matches a code-push
    event exactly when its push-branch condition globs the pushed branch;
    one that classifies as tag matches a tag event exactly when its tag
    condition globs the tag.  In both cases the condition is not empty. *)
Theorem MatchWithParams_code_push_and_tag :
  forall item pushBranch prSourceBranch prTargetBranch prReadyState tag,
    Pattern item = "" ->
    (itemEventType item = Returned (TriggerEventTypeCodePush, None) ->
     triggerEventType pushBranch prSourceBranch prTargetBranch tag
       = (TriggerEventTypeCodePush, None) ->
     exists condition,
       PushBranch item = CondString condition /\ condition <> "" /\
       MatchWithParams Glob item pushBranch prSourceBranch prTargetBranch
         prReadyState tag = Returned (Glob condition pushBranch, None)) /\
    (itemEventType item = Returned (TriggerEventTypeTag, None) ->
     triggerEventType pushBranch prSourceBranch prTargetBranch tag
       = (TriggerEventTypeTag, None) ->
     exists condition,
       Tag item = CondString condition /\ condition <> "" /\
       MatchWithParams Glob item pushBranch prSourceBranch prTargetBranch
         prReadyState tag = Returned (Glob condition tag, None)).
Proof.
  intros item pb ps pt rs tg HP; split; intros Hitem Hev;
    unfold MatchWithParams; rewrite Hev, HP; simpl; rewrite Hitem; simpl;
    unfold itemEventType, triggerEventType in Hitem.
  - destruct (PushBranch item) as [| c | |]; simpl in *; try discriminate.
    + destruct (PullRequestSourceBranch item) as [| s | |]; simpl in Hitem;
        try discriminate;
        destruct (PullRequestTargetBranch item) as [| t | |]; simpl in Hitem;
        try discriminate;
        destruct (Tag item) as [| g | |]; simpl in Hitem; try discriminate;
        repeat match type of Hitem with
               | context [?x =? ""] => destruct (x =? ""); simpl in Hitem
               end; discriminate.
    + exists c; split; [reflexivity | split; [| reflexivity]].
      intros ->; simpl in Hitem.
      destruct (PullRequestSourceBranch item) as [| s | |]; simpl in Hitem;
        try discriminate;
        destruct (PullRequestTargetBranch item) as [| t | |]; simpl in Hitem;
        try discriminate;
        destruct (Tag item) as [| g | |]; simpl in Hitem; try discriminate;
        repeat match type of Hitem with
               | context [?x =? ""] => destruct (x =? ""); simpl in Hitem
               end; discriminate.
  - destruct (PushBranch item) as [| c | |]; simpl in Hitem; try discriminate;
      destruct (PullRequestSourceBranch item) as [| s | |]; simpl in Hitem;
      try discriminate;
      destruct (PullRequestTargetBranch item) as [| t | |]; simpl in Hitem;
      try discriminate;
      destruct (Tag item) as [| g | |]; simpl in Hitem |- *; try discriminate;
      repeat match type of Hitem with
             | context [?x =? ""] =>
                 destruct (String.eqb_spec x ""); simpl in Hitem
             end; try discriminate;
      exists g; auto.
Qed.

(** X4. A modern rule whose own conditions fail to classify (they mix
    event kinds, or name none) makes the match of every event that
    classifies return that error, whatever the kind of the event. *)
Theorem MatchWithParams_rule_error :
  forall item pushBranch prSourceBranch prTargetBranch prReadyState tag
         kind err,
    Pattern item = "" ->
    itemEventType item = Returned (kind, Some err) ->
    snd (triggerEventType pushBranch prSourceBranch prTargetBranch tag) = None ->
    MatchWithParams Glob item pushBranch prSourceBranch prTargetBranch
      prReadyState tag = Returned (false, Some err).
Proof.
  intros item pb ps pt rs tg kind err HP Hitem Hev.
  unfold MatchWithParams.
  destruct (triggerEventType pb ps pt tg) as [pe [e |]]; [discriminate |].
  rewrite HP; simpl; rewrite Hitem; reflexivity.
Qed.

(** X6. A legacy rule never makes a match fail or panic on an event that
    classifies; it never matches a tag event, and it matches a pull request
    event only when it allows pull requests. *)
Theorem MatchWithParams_legacy :
  forall item pushBranch prSourceBranch prTargetBranch prReadyState tag kind,
    Pattern item <> "" ->
    triggerEventType pushBranch prSourceBranch prTargetBranch tag
      = (kind, None) ->
    exists b,
      MatchWithParams Glob item pushBranch prSourceBranch prTargetBranch
        prReadyState tag = Returned (b, None) /\
      (kind = TriggerEventTypeTag -> b = false) /\
      (kind = TriggerEventTypePullRequest ->
       IsPullRequestAllowed item = false -> b = false).
Proof.
  intros item pb ps pt rs tg kind HP Hev.
  apply String.eqb_neq in HP.
  unfold MatchWithParams, migrateDeprecatedTriggerItem; rewrite Hev, HP; simpl.
  pose proof (triggerEventType_known _ _ _ _ _ Hev) as Hkind.
  destruct kind; try congruence;
    destruct (IsPullRequestAllowed item); simpl;
    repeat (unfold itemEventType, triggerEventType, matchPullRequest; simpl;
            rewrite ?HP; simpl);
    eexists; (split; [reflexivity | split; intros; congruence]).
Qed.

End MatchingExtras.

Lemma MatchWithParams_error_is_classification_witness :
  false = false /\
  (snd (triggerEventType "main" "" "" "") = Some
     "push_branch (main) selects code-push trigger event, but tag (v1) also provided" \/
   (snd (triggerEventType "main" "" "" "") = None /\
    exists rule kind,
      In rule [mixedRule] /\
      itemEventType rule = Returned
        (kind, Some "push_branch (main) selects code-push trigger event, but tag (v1) also provided"))).
Proof.
  apply (MatchWithParams_error_is_classification starGlob mixedRule
           "main" "" "" "" "" false
           "push_branch (main) selects code-push trigger event, but tag (v1) also provided").
  reflexivity.
Defined.

Lemma MatchWithParams_other_kind_witness :
  MatchWithParams starGlob
    (pullRequestRule (CondString "feature/*") CondNil None)
    "" "" "" "" "v1.0" = Returned (false, None).
Proof.
  apply (MatchWithParams_other_kind starGlob
           (pullRequestRule (CondString "feature/*") CondNil None)
           "" "" "" "" "v1.0" TriggerEventTypePullRequest TriggerEventTypeTag);
    [reflexivity | reflexivity | reflexivity | discriminate].
Defined.

Lemma MatchWithParams_code_push_and_tag_witness :
  exists condition,
    PushBranch (pushBranchRule "release/*" "deploy") = CondString condition /\
    condition <> "" /\
    MatchWithParams starGlob (pushBranchRule "release/*" "deploy")
      "release/1.2" "" "" "" "" = Returned (starGlob condition "release/1.2", None).
Proof.
  destruct (MatchWithParams_code_push_and_tag starGlob
              (pushBranchRule "release/*" "deploy") "release/1.2" "" "" "" ""
              eq_refl) as [H _].
  apply H; reflexivity.
Defined.

Lemma MatchWithParams_rule_error_witness :
  MatchWithParams starGlob mixedRule "" "" "" "" "v1"
  = Returned
      (false,
       Some "push_branch (main) selects code-push trigger event, but tag (v1) also provided").
Proof.
  apply (MatchWithParams_rule_error starGlob mixedRule "" "" "" "" "v1"
           TriggerEventTypeUnknown);
    reflexivity.
Defined.

Lemma acceptsPattern_MatchWithParams_witness :
  MatchWithParams starGlob (legacyRule "feature/*" "check" true)
    "" "feature/login" "" PullRequestReadyStateDraft ""
  = Returned
      (acceptsPattern starGlob "feature/login" true
         (legacyRule "feature/*" "check" true), None).
Proof.
  apply (acceptsPattern_MatchWithParams starGlob
           (legacyRule "feature/*" "check" true) "feature/login" true
           PullRequestReadyStateDraft);
    discriminate.
Defined.

Lemma MatchWithParams_legacy_witness :
  exists b,
    MatchWithParams starGlob (legacyRule "*" "primary" false)
      "" "feature" "main" "" "" = Returned (b, None) /\
    (TriggerEventTypePullRequest = TriggerEventTypeTag -> b = false) /\
    (TriggerEventTypePullRequest = TriggerEventTypePullRequest ->
     IsPullRequestAllowed (legacyRule "*" "primary" false) = false -> b = false).
Proof.
  apply (MatchWithParams_legacy starGlob (legacyRule "*" "primary" false)
           "" "feature" "main" "" "" TriggerEventTypePullRequest);
    [discriminate | reflexivity].
Defined.

(** * Further properties of trigger item validation *)

Lemma IsStringInSlice_In :
  forall s l, IsStringInSlice s l = true <-> In s l.
Proof.
  intros s l; unfold IsStringInSlice; rewrite existsb_exists; split.
  - intros (x & Hin & Heq); apply String.eqb_eq in Heq; subst; assumption.
  - intros Hin; exists s; split; [assumption | apply String.eqb_refl].
Qed.

Lemma orElse_None :
  forall a b, orElse a b = None <-> a = None /\ b = None.
Proof. intros [e |] b; simpl; split; intuition congruence. Qed.

(** X7. A rule that passes validation names exactly one target, and that
    target is declared: a pipeline of the given pipelines, or else a
    workflow of the given workflows. *)
Theorem Validate_target_declared :
  forall item idx workflows pipelines,
    snd (Validate item idx workflows pipelines) = None ->
    (PipelineID item <> "" /\ WorkflowID item = "" /\
     In (PipelineID item) pipelines) \/
    (PipelineID item = "" /\ WorkflowID item <> "" /\
     In (WorkflowID item) workflows).
Proof.
  intros item idx wf pl; unfold Validate, validateTarget.
  destruct (String.eqb_spec (PipelineID item) "") as [Hp | Hp];
    destruct (String.eqb_spec (WorkflowID item) "") as [Hw | Hw]; simpl;
    try discriminate.
  - destruct (IsStringInSlice (WorkflowID item) wf) eqn:Hin; simpl;
      [| discriminate].
    intros _; right; repeat split; try assumption.
    apply IsStringInSlice_In; assumption.
  - destruct (IsStringInSlice (PipelineID item) pl) eqn:Hin; simpl;
      [| discriminate].
    intros _; left; repeat split; try assumption.
    apply IsStringInSlice_In; assumption.
Qed.

(** X8. Validation returns at most one warning, the utility workflow one;
    a rule that passes validation carries it exactly when its workflow id
    starts with an underscore, so that such a target is a warning and not an
    error. *)
Theorem Validate_warnings :
  forall item idx workflows pipelines,
    (fst (Validate item idx workflows pipelines) = [] \/
     fst (Validate item idx workflows pipelines) = [utilityWarning item idx]) /\
    (snd (Validate item idx workflows pipelines) = None ->
     (fst (Validate item idx workflows pipelines) = [utilityWarning item idx]
      <-> String.prefix "_" (WorkflowID item) = true)).
Proof.
  intros item idx wf pl; unfold Validate, validateTarget, utilityWarning.
  destruct (negb (PipelineID item =? "") && negb (WorkflowID item =? ""));
    [simpl; split; [auto | discriminate] |].
  destruct ((PipelineID item =? "") && (WorkflowID item =? ""));
    [simpl; split; [auto | discriminate] |].
  destruct (String.prefix "_" (WorkflowID item)); simpl;
    destruct (negb (PipelineID item =? ""));
    [ destruct (negb (IsStringInSlice (PipelineID item) pl))
    | destruct (negb (IsStringInSlice (WorkflowID item) wf))
    | destruct (negb (IsStringInSlice (PipelineID item) pl))
    | destruct (negb (IsStringInSlice (WorkflowID item) wf)) ];
    simpl;
    try (split; [auto | discriminate]);
    destruct (negb (Pattern item =? "")); simpl;
    try destruct (Type_ item =? ""); simpl;
    (split; [auto | intros _; split; intros; congruence]).
Qed.

Ltac plain_field c :=
  destruct c as [| ? | |]; simpl in *; try discriminate.

Ltac case_empty_in H :=
  repeat match type of H with
         | context [?x =? ""] =>
             destruct (String.eqb_spec x ""); [subst |]; simpl in H
         end.

(** X9. An untyped modern rule that passes validation has conditions of one
    event kind only: its own classification returns a known kind without
    error, so that a match with it never panics. *)
Theorem Validate_untyped_classifies :
  forall (Glob : string -> string -> bool) item idx workflows pipelines,
    Pattern item = "" -> Type_ item = "" ->
    snd (Validate item idx workflows pipelines) = None ->
    (exists kind,
       itemEventType item = Returned (kind, None) /\
       kind <> TriggerEventTypeUnknown) /\
    forall pushBranch prSourceBranch prTargetBranch prReadyState tag,
      returns (MatchWithParams Glob item pushBranch prSourceBranch
                 prTargetBranch prReadyState tag).
Proof.
  intros Glob item idx wf pl HP HT; unfold Validate.
  destruct (validateTarget item idx wf pl) as [w [e |]]; simpl;
    [discriminate |].
  rewrite HP, HT; simpl.
  intros H; apply orElse_None in H; destruct H as [Htype Hvalues].
  assert (Hplain : plainRule item = true).
  { unfold validateConditionValuesOfItem, validateStringType in Hvalues.
    unfold plainRule.
    destruct (PushBranch item); simpl in *; try discriminate;
      destruct (Tag item); simpl in *; try discriminate;
      destruct (PullRequestSourceBranch item); simpl in *; try discriminate;
      destruct (PullRequestTargetBranch item); simpl in *; try discriminate;
      reflexivity. }
  split; [| intros; apply MatchWithParams_returns; auto].
  clear Hvalues.
  unfold plainRule in Hplain.
  unfold validateTypeOfItem, validateNoCodePushConditionsSet,
    validateNoTagPushConditionsSet, validateNoPullRequestConditionsSet,
    isStringLiteralOrRegexSet in Htype.
  unfold itemEventType, triggerEventType.
  plain_field (PushBranch item); plain_field (PullRequestSourceBranch item);
    plain_field (PullRequestTargetBranch item); plain_field (Tag item);
    case_empty_in Htype; try discriminate;
    repeat match goal with
           | H : ?x <> "" |- context [?x =? ""] =>
               rewrite (proj2 (String.eqb_neq x "") H)
           end; simpl;
    try (eexists; split; [reflexivity | discriminate]);
    repeat match type of Htype with
           | context [if ?c then _ else _] => destruct c; simpl in Htype
           end; discriminate.
Qed.

(** X10. A legacy rule that passes validation sets no modern condition:
    none of the seven condition fields holds a non-empty literal or regex,
    and the draft flag has its default. *)
Theorem Validate_legacy_no_conditions :
  forall item idx workflows pipelines,
    Pattern item <> "" ->
    snd (Validate item idx workflows pipelines) = None ->
    isStringLiteralOrRegexSet (PushBranch item) = false /\
    isStringLiteralOrRegexSet (CommitMessage item) = false /\
    isStringLiteralOrRegexSet (ChangedFiles item) = false /\
    isStringLiteralOrRegexSet (Tag item) = false /\
    isStringLiteralOrRegexSet (PullRequestSourceBranch item) = false /\
    isStringLiteralOrRegexSet (PullRequestTargetBranch item) = false /\
    isStringLiteralOrRegexSet (PullRequestLabel item) = false /\
    IsDraftPullRequestEnabled item = true.
Proof.
  intros item idx wf pl HP; unfold Validate.
  destruct (validateTarget item idx wf pl) as [w [e |]]; simpl;
    [discriminate |].
  apply String.eqb_neq in HP; rewrite HP; simpl.
  unfold validateTypeOfLegacyItem, validateNoCodePushConditionsSet,
    validateNoTagPushConditionsSet, validateNoPullRequestConditionsSet,
    defaultDraftPullRequestEnabled.
  destruct (isStringLiteralOrRegexSet (PushBranch item)); simpl;
    [discriminate |].
  destruct (isStringLiteralOrRegexSet (CommitMessage item)); simpl;
    [discriminate |].
  destruct (isStringLiteralOrRegexSet (ChangedFiles item)); simpl;
    [discriminate |].
  destruct (isStringLiteralOrRegexSet (Tag item)); simpl; [discriminate |].
  destruct (isStringLiteralOrRegexSet (PullRequestSourceBranch item)); simpl;
    [discriminate |].
  destruct (isStringLiteralOrRegexSet (PullRequestTargetBranch item)); simpl;
    [discriminate |].
  destruct (IsDraftPullRequestEnabled item); simpl; [| discriminate].
  destruct (isStringLiteralOrRegexSet (PullRequestLabel item)); simpl;
    [discriminate |].
  intros _; repeat split.
Qed.

(** X11. For a rule of an explicit, known type that passes validation, the
    classification of its conditions never contradicts the type: when it
    succeeds, a code-push rule classifies as code-push, a pull-request rule
    as pull-request and a tag-push rule as tag. *)
Theorem Validate_typed_kind :
  forall item idx workflows pipelines kind,
    Pattern item = "" ->
    snd (Validate item idx workflows pipelines) = None ->
    itemEventType item = Returned (kind, None) ->
    (Type_ item = CodePushType -> kind = TriggerEventTypeCodePush) /\
    (Type_ item = PullRequestType -> kind = TriggerEventTypePullRequest) /\
    (Type_ item = TagPushType -> kind = TriggerEventTypeTag).
Proof.
  intros item idx wf pl kind HP; unfold Validate.
  destruct (validateTarget item idx wf pl) as [w [e |]]; simpl;
    [discriminate |].
  rewrite HP; simpl.
  intros Hvalid Hitem.
  unfold itemEventType, triggerEventType in Hitem.
  repeat split; intros HT; rewrite HT in Hvalid; simpl in Hvalid;
    apply orElse_None in Hvalid; destruct Hvalid as [Htype _];
    unfold validateTypeOfItemWithExplicitType in Htype; rewrite HT in Htype;
    simpl in Htype;
    unfold validateNoCodePushConditionsSet, validateNoTagPushConditionsSet,
      validateNoPullRequestConditionsSet, isStringLiteralOrRegexSet in Htype;
    plain_field (PushBranch item); plain_field (PullRequestSourceBranch item);
    plain_field (PullRequestTargetBranch item); plain_field (Tag item);
    case_empty_in Htype; try discriminate;
    repeat match type of Hitem with
           | context [?x =? ""] =>
               destruct (String.eqb_spec x ""); [subst |]; simpl in Hitem
           end;
    try congruence;
    repeat match type of Htype with
           | context [if ?c then _ else _] => destruct c; simpl in Htype
           end; congruence.
Qed.

Lemma Validate_target_declared_witness :
  (PipelineID (legacyRule "*" "primary" true) <> "" /\
   WorkflowID (legacyRule "*" "primary" true) = "" /\
   In (PipelineID (legacyRule "*" "primary" true)) ["deploy"]) \/
  (PipelineID (legacyRule "*" "primary" true) = "" /\
   WorkflowID (legacyRule "*" "primary" true) <> "" /\
   In (WorkflowID (legacyRule "*" "primary" true)) ["primary"; "_setup"]).
Proof.
  apply (Validate_target_declared (legacyRule "*" "primary" true) 0
           ["primary"; "_setup"] ["deploy"]).
  reflexivity.
Defined.

Lemma Validate_untyped_classifies_witness :
  exists kind,
    itemEventType (pushBranchRule "main" "primary") = Returned (kind, None) /\
    kind <> TriggerEventTypeUnknown.
Proof.
  apply (Validate_untyped_classifies starGlob (pushBranchRule "main" "primary") 0
           ["primary"] []);
    reflexivity.
Defined.

Lemma Validate_legacy_no_conditions_witness :
  isStringLiteralOrRegexSet (CommitMessage (legacyRule "*" "primary" true))
  = false.
Proof.
  apply (Validate_legacy_no_conditions (legacyRule "*" "primary" true) 0
           ["primary"] []);
    [discriminate | reflexivity].
Defined.

Lemma Validate_typed_kind_witness :
  (Type_ (pullRequestRule (CondString "feature/*") CondNil (Some false))
   = CodePushType -> TriggerEventTypePullRequest = TriggerEventTypeCodePush) /\
  (Type_ (pullRequestRule (CondString "feature/*") CondNil (Some false))
   = PullRequestType ->
   TriggerEventTypePullRequest = TriggerEventTypePullRequest) /\
  (Type_ (pullRequestRule (CondString "feature/*") CondNil (Some false))
   = TagPushType -> TriggerEventTypePullRequest = TriggerEventTypeTag).
Proof.
  apply (Validate_typed_kind
           (pullRequestRule (CondString "feature/*") CondNil (Some false)) 0
           ["check"] [] TriggerEventTypePullRequest);
    reflexivity.
Defined.

Lemma Validate_warnings_witness :
  fst (Validate (legacyRule "*" "_setup" true) 0 ["primary"; "_setup"] [])
  = [utilityWarning (legacyRule "*" "_setup" true) 0].
Proof.
  destruct (Validate_warnings (legacyRule "*" "_setup" true) 0
              ["primary"; "_setup"] []) as [_ H].
  apply H; reflexivity.
Defined.

(** * Further properties of the workflow lookup *)

(** X12. A trigger map passes [validateTriggerMap] exactly when every item
    has a non-empty pattern and a non-empty workflow id. *)
Theorem validateTriggerMap_valid_iff :
  forall triggerMap,
    validateTriggerMap triggerMap = None <->
    Forall (fun item => Pattern item <> "" /\ WorkflowID item <> "") triggerMap.
Proof.
  induction triggerMap as [| item rest IH]; simpl.
  - split; auto.
  - destruct (String.eqb_spec (Pattern item) "") as [Hp | Hp].
    + split; [discriminate | intros H; inversion H; tauto].
    + destruct (String.eqb_spec (WorkflowID item) "") as [Hw | Hw].
      * split; [discriminate | intros H; inversion H; tauto].
      * rewrite IH; split; intros H.
        -- constructor; auto.
        -- inversion H; assumption.
Qed.

Section LookupExtras.

Variable Glob : string -> string -> bool.

(** X13. The lookup returns either a non-empty workflow id and no error, or
    the empty workflow id and an error. *)
Theorem getWorkflowIDByPattern_result :
  forall triggerMap pattern isPullRequestMode,
    (exists workflow,
       workflow <> "" /\
       getWorkflowIDByPattern Glob triggerMap pattern isPullRequestMode
       = (workflow, None)) \/
    (exists err,
       getWorkflowIDByPattern Glob triggerMap pattern isPullRequestMode
       = ("", Some err)).
Proof.
  intros tm pattern pr; unfold getWorkflowIDByPattern.
  destruct (validateTriggerMap tm) as [err |] eqn:Hvalid; [right; eauto |].
  rewrite lookupLoop_find.
  destruct (find (acceptsPattern Glob pattern pr) tm) as [item |] eqn:Hfind.
  - left; exists (WorkflowID item); split; [| reflexivity].
    apply find_some in Hfind; destruct Hfind as [Hin _].
    apply validateTriggerMap_valid_iff in Hvalid.
    rewrite Forall_forall in Hvalid; apply (Hvalid item Hin).
  - right; destruct (false || pr && _); eauto.
Qed.

(** X14. Outside pull request mode the flag [is_pull_request_allowed] is
    not read: on a valid trigger map the workflow of the first rule whose
    pattern globs is returned, and the only lookup error is the
    no-matching-workflow one. *)
Theorem getWorkflowIDByPattern_push_mode :
  forall triggerMap pattern,
    validateTriggerMap triggerMap = None ->
    getWorkflowIDByPattern Glob triggerMap pattern false
    = match find (fun item => Glob (Pattern item) pattern) triggerMap with
      | Some item => (WorkflowID item, None)
      | None => ("", Some (errNoMatchingWorkflow pattern))
      end.
Proof.
  intros tm pattern Hvalid.
  unfold getWorkflowIDByPattern; rewrite Hvalid, lookupLoop_find.
  assert (Hsame : forall l,
            find (acceptsPattern Glob pattern false) l
            = find (fun item => Glob (Pattern item) pattern) l).
  { induction l as [| item rest IH]; simpl; [reflexivity |].
    unfold acceptsPattern at 1; simpl; rewrite andb_true_r.
    destruct (Glob (Pattern item) pattern); [reflexivity | exact IH]. }
  rewrite Hsame; reflexivity.
Qed.

(** X15. A pattern that resolves in pull request mode also resolves outside
    it (possibly to an earlier rule); and when every rule allows pull
    requests both modes give the same result. *)
Theorem getWorkflowIDByPattern_modes :
  forall triggerMap pattern,
    (forall workflow,
       getWorkflowIDByPattern Glob triggerMap pattern true = (workflow, None) ->
       exists workflow',
         getWorkflowIDByPattern Glob triggerMap pattern false
         = (workflow', None)) /\
    (Forall (fun item => IsPullRequestAllowed item = true) triggerMap ->
     getWorkflowIDByPattern Glob triggerMap pattern true
     = getWorkflowIDByPattern Glob triggerMap pattern false).
Proof.
  intros tm pattern; unfold getWorkflowIDByPattern.
  destruct (validateTriggerMap tm) as [err |]; [split; [discriminate | auto] |].
  rewrite !lookupLoop_find; split.
  - intros workflow.
    destruct (find (acceptsPattern Glob pattern true) tm) as [item |] eqn:Hfind;
      [| simpl; destruct (existsb _ _); discriminate].
    intros _; apply find_some in Hfind; destruct Hfind as [Hin Hacc].
    destruct (find (acceptsPattern Glob pattern false) tm) as [first |] eqn:Hf;
      [eauto |].
    exfalso.
    apply (find_none _ _ Hf) in Hin.
    unfold acceptsPattern in Hin, Hacc; simpl in Hin, Hacc.
    destruct (Glob (Pattern item) pattern); simpl in *; congruence.
  - intros Hall; induction Hall as [| item rest Hitem _ IH]; simpl;
      [reflexivity |].
    unfold acceptsPattern at 1 3, disabledMatch at 1; rewrite Hitem; simpl.
    rewrite !andb_true_r, andb_false_r; simpl.
    destruct (Glob (Pattern item) pattern); [reflexivity | exact IH].
Qed.

End LookupExtras.

Lemma getWorkflowIDByPattern_push_mode_witness :
  getWorkflowIDByPattern starGlob sampleTriggerMap "release/1.0" false
  = ("deploy", None).
Proof.
  apply (getWorkflowIDByPattern_push_mode starGlob sampleTriggerMap
           "release/1.0" eq_refl).
Defined.

Lemma getWorkflowIDByPattern_modes_witness :
  exists workflow,
    getWorkflowIDByPattern starGlob sampleTriggerMap "main" false
    = (workflow, None).
Proof.
  destruct (getWorkflowIDByPattern_modes starGlob sampleTriggerMap "main")
    as [H _].
  apply (H "primary"); reflexivity.
Defined.

(** * Step run status *)

(** X16. The names of the step run statuses round-trip: a name that
    [InternalStatus] knows is given back by [HumanReadableStatus], a status
    that [HumanReadableStatus] names is given back by [InternalStatus], and
    the name of an unknown status maps to -1. *)
Theorem status_names_round_trip :
  (forall status,
     InternalStatus status <> (-1)%Z ->
     HumanReadableStatus (InternalStatus status) = status) /\
  (forall s,
     HumanReadableStatus s <> "unknown" ->
     InternalStatus (HumanReadableStatus s) = s) /\
  (forall s,
     HumanReadableStatus s = "unknown" ->
     InternalStatus (HumanReadableStatus s) = (-1)%Z).
Proof.
  split; [| split].
  - intros status; unfold InternalStatus.
    repeat match goal with
           | |- context [status =? ?name] =>
               destruct (String.eqb_spec status name);
               [subst; intros _; reflexivity |]
           end.
    congruence.
  - intros s; unfold HumanReadableStatus.
    repeat match goal with
           | |- context [(s =? ?code)%Z] =>
               destruct (Z.eqb_spec s code); [subst; intros _; reflexivity |]
           end.
    congruence.
  - intros s ->; reflexivity.
Qed.

Lemma status_names_round_trip_witness :
  HumanReadableStatus (InternalStatus "aborted_with_no_output")
  = "aborted_with_no_output" /\
  InternalStatus (HumanReadableStatus 5%Z) = 5%Z.
Proof.
  destruct status_names_round_trip as (H1 & H2 & _); split;
    [apply H1 | apply H2]; discriminate.
Defined.

Ltac reason_branch :=
  split;
  [ split;
    [ intros [r H];
      first [ discriminate
            | left; split; reflexivity
            | right; left; split; reflexivity
            | right; right; split; reflexivity ]
    | intros [[Hs Hp] | [[Hs Hp] | [Hs Hp]]];
      first [ discriminate | congruence | eexists; reflexivity ] ]
  | split;
    [ intros reason H; inversion H; subst;
      split; intros; first [ reflexivity | discriminate | congruence ]
    | intros Hf reason H;
      first [ discriminate | inversion H; subst; discriminate ] ] ].

(** X17. [StatusReason] panics exactly when the status needs a value of the
    step that is nil: the run-if expression of a step skipped by it, or the
    timeout of a step aborted by it.  When it returns, the reason is empty
    for a successful step only, so every failure has a reason. *)
Theorem StatusReason_cases :
  forall s,
    ((exists reason, StatusReason s = Panicked reason) <->
     (Status s = StepRunStatusCodeSkippedWithRunIf /\ RunIf (Step s) = None) \/
     (Status s = StepRunStatusAbortedWithCustomTimeout /\
      Timeout (Step s) = None) \/
     (Status s = StepRunStatusAbortedWithNoOutputTimeout /\
      NoOutputTimeout (Step s) = None)) /\
    (forall reason,
       StatusReason s = Returned reason ->
       (reason = "" <-> Status s = StepRunStatusCodeSuccess)) /\
    (IsFailure (Status s) = true ->
     forall reason, StatusReason s = Returned reason -> reason <> "").
Proof.
  intros [step status code]; unfold StatusReason, IsFailure; simpl.
  destruct (Z.eqb_spec status StepRunStatusCodeSuccess) as [-> | H0]; simpl;
    [reason_branch |].
  destruct (Z.eqb_spec status StepRunStatusCodeFailed) as [-> | H1]; simpl;
    [reason_branch |].
  destruct (Z.eqb_spec status StepRunStatusCodePreparationFailed)
    as [-> | H5]; simpl; [reason_branch |].
  destruct (Z.eqb_spec status StepRunStatusCodeFailedSkippable)
    as [-> | H2]; simpl; [reason_branch |].
  destruct (Z.eqb_spec status StepRunStatusCodeSkipped) as [-> | H3]; simpl;
    [reason_branch |].
  destruct (Z.eqb_spec status StepRunStatusCodeSkippedWithRunIf)
    as [-> | H4]; simpl;
    [destruct (RunIf step) as [runIf |]; reason_branch |].
  destruct (Z.eqb_spec status StepRunStatusAbortedWithCustomTimeout)
    as [-> | H7]; simpl;
    [destruct (Timeout step) as [timeout |]; reason_branch |].
  destruct (Z.eqb_spec status StepRunStatusAbortedWithNoOutputTimeout)
    as [-> | H8]; simpl;
    [destruct (NoOutputTimeout step) as [timeout |]; reason_branch |].
  reason_branch.
Qed.

Lemma StatusReason_cases_witness :
  StatusReason timedOutStep = Returned "This Step timed out after 1m 30s." /\
  "This Step timed out after 1m 30s." <> "".
Proof.
  destruct (StatusReason_cases timedOutStep) as (_ & _ & H).
  split; [reflexivity | apply (H eq_refl _ eq_refl)].
Defined.

(** * Durations in status reasons *)

Lemma append_assoc :
  forall a b c : string, ((a ++ b) ++ c)%string = (a ++ (b ++ c))%string.
Proof. induction a as [| x a IH]; simpl; intros; [| rewrite IH]; reflexivity. Qed.

Lemma wrapInt_id :
  forall z, (- 2 ^ 63 <= z < 2 ^ 63)%Z -> wrapInt z = z.
Proof.
  intros z Hz; unfold wrapInt.
  rewrite Z.mod_small; lia.
Qed.

Lemma string_of_uint_noSpaces :
  forall d, noSpaces (NilEmpty.string_of_uint d) = true.
Proof. induction d; simpl; auto. Qed.

Lemma itoa_noSpaces : forall z, noSpaces (itoa z) = true.
Proof.
  intros z; unfold itoa, NilZero.string_of_int, NilZero.string_of_uint.
  destruct (Z.to_int z) as [d | d]; destruct d; simpl;
    auto using string_of_uint_noSpaces.
Qed.

Lemma itoa_nonempty : forall z, itoa z <> "".
Proof.
  intros z; unfold itoa, NilZero.string_of_int, NilZero.string_of_uint.
  destruct (Z.to_int z) as [d | d]; destruct d; simpl; discriminate.
Qed.

Lemma trimRight_noSpaces_app :
  forall a b, noSpaces a = true ->
    trimRight (a ++ b) = (a ++ trimRight b)%string.
Proof.
  induction a as [| c a IH]; simpl; intros b H; [reflexivity |].
  apply andb_true_iff in H; destruct H as [Hc Ha].
  rewrite (IH b Ha).
  apply negb_true_iff in Hc; rewrite Hc.
  destruct (a ++ trimRight b)%string; reflexivity.
Qed.

Lemma trimLeft_noSpaces_app :
  forall a b, noSpaces a = true -> a <> "" ->
    trimLeft (a ++ b) = (a ++ b)%string.
Proof.
  intros [| c a] b H Hne; [congruence |].
  simpl in *; apply andb_true_iff in H; destruct H as [Hc _].
  apply negb_true_iff in Hc; rewrite Hc; reflexivity.
Qed.

(** The white space after a word is kept when something follows it. *)
Lemma trimRight_space_word :
  forall a b, a <> "" -> noSpaces a = true ->
    trimRight (String " " (a ++ b)) = String " " (a ++ trimRight b).
Proof.
  intros a b Hne Ha.
  change (trimRight (String " " (a ++ b)))
    with (match trimRight (a ++ b) with
          | EmptyString => EmptyString
          | kept => String " " kept
          end).
  rewrite (trimRight_noSpaces_app a b Ha).
  destruct a; [congruence | reflexivity].
Qed.

Lemma trimRight_letter :
  forall c rest, isSpace c = false ->
    trimRight (String c rest) = String c (trimRight rest).
Proof.
  intros c rest Hc; simpl; rewrite Hc.
  destruct (trimRight rest); reflexivity.
Qed.

Lemma TrimSpace_word :
  forall x c rest, isSpace c = false ->
    TrimSpace (itoa x ++ String c rest)
    = (itoa x ++ String c (trimRight rest))%string.
Proof.
  intros x c rest Hc; unfold TrimSpace.
  rewrite (trimLeft_noSpaces_app _ _ (itoa_noSpaces x) (itoa_nonempty x)).
  rewrite (trimRight_noSpaces_app _ _ (itoa_noSpaces x)).
  rewrite (trimRight_letter _ _ Hc); reflexivity.
Qed.

Lemma trimRight_space_end : trimRight (String " " "") = "".
Proof. reflexivity. Qed.

Lemma trimRight_empty : trimRight "" = "".
Proof. reflexivity. Qed.

Lemma trimRight_space_itoa :
  forall x rest,
    trimRight (String " " (itoa x ++ rest))
    = String " " (itoa x ++ trimRight rest).
Proof.
  intros; apply trimRight_space_word;
    [apply itoa_nonempty | apply itoa_noSpaces].
Qed.

(** X18. For a positive number of seconds that fits an [int], the
    formatted duration is the non-zero ones among the hours, the minutes
    below 60 and the seconds below 60, written [<n>h], [<n>m], [<n>s] and
    separated by single spaces, with no space at either end; for zero and
    for a negative number it is empty. *)
Theorem formatStatusReasonTimeInterval_words :
  forall t,
    (- 2 ^ 63 <= t < 2 ^ 63)%Z ->
    ((t <= 0)%Z -> formatStatusReasonTimeInterval t = "") /\
    ((0 < t)%Z ->
     formatStatusReasonTimeInterval t
     = timeWords (t / 3600) ((t mod 3600) / 60) (t mod 60) /\
     (t = (t / 3600) * 3600 + ((t mod 3600) / 60) * 60 + t mod 60)%Z /\
     (0 <= (t mod 3600) / 60 < 60)%Z /\ (0 <= t mod 60 < 60)%Z).
Proof.
  intros t Hrange; unfold formatStatusReasonTimeInterval.
  assert (Hh : wrapInt (t ÷ 3600 * 3600) = (t ÷ 3600 * 3600)%Z).
  { apply wrapInt_id; Z.quot_rem_to_equations; lia. }
  rewrite Hh.
  assert (Hr1 : wrapInt (t - t ÷ 3600 * 3600) = Z.rem t 3600).
  { rewrite wrapInt_id; Z.quot_rem_to_equations; lia. }
  rewrite Hr1.
  assert (Hm : wrapInt (Z.rem t 3600 ÷ 60 * 60) = (Z.rem t 3600 ÷ 60 * 60)%Z).
  { apply wrapInt_id; Z.quot_rem_to_equations; lia. }
  rewrite Hm.
  assert (Hr2 : wrapInt (Z.rem t 3600 - Z.rem t 3600 ÷ 60 * 60)
                = Z.rem (Z.rem t 3600) 60).
  { rewrite wrapInt_id; Z.quot_rem_to_equations; lia. }
  rewrite Hr2.
  split.
  - intros Hneg.
    assert (H1 : (0 <? t ÷ 3600)%Z = false)
      by (apply Z.ltb_ge; Z.quot_rem_to_equations; lia).
    assert (H2 : (0 <? Z.rem t 3600 ÷ 60)%Z = false)
      by (apply Z.ltb_ge; Z.quot_rem_to_equations; lia).
    assert (H3 : (0 <? Z.rem (Z.rem t 3600) 60)%Z = false)
      by (apply Z.ltb_ge; Z.quot_rem_to_equations; lia).
    rewrite H1, H2, H3; reflexivity.
  - intros Hpos.
    assert (Eh : (t ÷ 3600 = t / 3600)%Z)
      by (apply Z.quot_div_nonneg; lia).
    assert (Er : Z.rem t 3600 = (t mod 3600)%Z)
      by (apply Z.rem_mod_nonneg; lia).
    assert (Em : (Z.rem t 3600 ÷ 60 = (t mod 3600) / 60)%Z).
    { rewrite Er; apply Z.quot_div_nonneg; [| lia].
      apply Z.mod_pos_bound; lia. }
    assert (Es : Z.rem (Z.rem t 3600) 60 = (t mod 60)%Z).
    { rewrite Er, Z.rem_mod_nonneg;
        [| apply Z.mod_pos_bound; lia | lia].
      Z.div_mod_to_equations; lia. }
    rewrite Eh, Em, Es.
    split; [| repeat split; Z.div_mod_to_equations; lia].
    unfold timeWords.
    destruct (0 <? t / 3600)%Z eqn:Ph;
      destruct (0 <? (t mod 3600) / 60)%Z eqn:Pm;
      destruct (0 <? t mod 60)%Z eqn:Ps;
      cbn [List.app String.concat];
      rewrite ?append_assoc; cbn [append];
      try (rewrite TrimSpace_word by reflexivity;
           repeat first
             [ rewrite trimRight_space_itoa
             | rewrite (trimRight_noSpaces_app _ _ (itoa_noSpaces _))
             | rewrite trimRight_letter by reflexivity
             | rewrite trimRight_space_end
             | rewrite trimRight_empty ];
           reflexivity).
    apply Z.ltb_ge in Ph, Pm, Ps.
    exfalso; Z.div_mod_to_equations; lia.
Qed.

Lemma formatStatusReasonTimeInterval_words_witness :
  formatStatusReasonTimeInterval 3725 = "1h 2m 5s" /\
  formatStatusReasonTimeInterval 7200 = "2h" /\
  formatStatusReasonTimeInterval (-5) = "".
Proof.
  split; [| split].
  - destruct (formatStatusReasonTimeInterval_words 3725) as [_ H]; [lia |].
    destruct H as [H _]; [lia | exact H].
  - destruct (formatStatusReasonTimeInterval_words 7200) as [_ H]; [lia |].
    destruct H as [H _]; [lia | exact H].
  - destruct (formatStatusReasonTimeInterval_words (-5)) as [H _]; [lia |].
    apply H; lia.
Defined.

(** * Command parameters *)

Module TriggerParamsFacts.
Import TriggerParams.

Section ParsingFacts.

Variable jsonUnmarshal : string -> RunAndTriggerParamsModel + error.
Variable base64Decode : string -> string + error.

Local Abbreviation parse :=
  (parseRunAndTriggerParams jsonUnmarshal base64Decode).

(** The JSON text that the parser reads: the plain one when given, else the
    decoded base64 one. *)
Lemma parseAndOverride_ok :
  forall workflowToRunID triggerPattern pushBranch prSourceBranch
         prTargetBranch format bitriseConfigPath bitriseConfigBase64Data
         inventoryPath inventoryBase64Data json params,
    parseAndOverride jsonUnmarshal workflowToRunID triggerPattern pushBranch
      prSourceBranch prTargetBranch format bitriseConfigPath
      bitriseConfigBase64Data inventoryPath inventoryBase64Data json
    = (params, None) ->
    exists fromJSON,
      (json = "" /\ fromJSON = zeroParams \/
       json <> "" /\ jsonUnmarshal json = inl fromJSON) /\
      params =
      {| WorkflowToRunID := override workflowToRunID (WorkflowToRunID fromJSON);
         TriggerPattern := override triggerPattern (TriggerPattern fromJSON);
         PushBranch := override pushBranch (PushBranch fromJSON);
         PRSourceBranch := override prSourceBranch (PRSourceBranch fromJSON);
         PRTargetBranch := override prTargetBranch (PRTargetBranch fromJSON);
         Format := override format (Format fromJSON);
         BitriseConfigPath :=
           override bitriseConfigPath (BitriseConfigPath fromJSON);
         BitriseConfigBase64Data :=
           override bitriseConfigBase64Data (BitriseConfigBase64Data fromJSON);
         InventoryPath := override inventoryPath (InventoryPath fromJSON);
         InventoryBase64Data :=
           override inventoryBase64Data (InventoryBase64Data fromJSON) |}.
Proof.
  intros w tp pb ps pt f c cb i ib json params.
  unfold parseAndOverride, parseRunAndTriggerJSONParams.
  destruct (String.eqb_spec json "") as [-> | Hne]; simpl.
  - intros H; inversion H; subst; exists zeroParams; split; auto.
  - destruct (jsonUnmarshal json) as [fromJSON | err] eqn:Hjson;
      [| discriminate].
    intros H; inversion H; subst; exists fromJSON; split; auto.
Qed.

(** X19. When the parameters parse, every field is the command line value
    if that is not empty and the value of the JSON parameters otherwise; the
    JSON parameters are the plain ones when given, else the decoded base64
    ones, else none (every JSON value empty). *)
Theorem parseRunAndTriggerParams_precedence :
  forall workflowToRunID triggerPattern pushBranch prSourceBranch
         prTargetBranch format bitriseConfigPath bitriseConfigBase64Data
         inventoryPath inventoryBase64Data jsonParams base64JSONParams params,
    parse workflowToRunID triggerPattern pushBranch prSourceBranch
      prTargetBranch format bitriseConfigPath bitriseConfigBase64Data
      inventoryPath inventoryBase64Data jsonParams base64JSONParams
    = (params, None) ->
    exists fromJSON,
      (jsonParams <> "" /\ jsonUnmarshal jsonParams = inl fromJSON \/
       jsonParams = "" /\ base64JSONParams = "" /\ fromJSON = zeroParams \/
       jsonParams = "" /\ base64JSONParams <> "" /\
       exists decoded,
         base64Decode base64JSONParams = inl decoded /\
         (decoded = "" /\ fromJSON = zeroParams \/
          decoded <> "" /\ jsonUnmarshal decoded = inl fromJSON)) /\
      WorkflowToRunID params
      = (if workflowToRunID =? "" then WorkflowToRunID fromJSON
         else workflowToRunID) /\
      TriggerPattern params
      = (if triggerPattern =? "" then TriggerPattern fromJSON
         else triggerPattern) /\
      PushBranch params
      = (if pushBranch =? "" then PushBranch fromJSON else pushBranch) /\
      PRSourceBranch params
      = (if prSourceBranch =? "" then PRSourceBranch fromJSON
         else prSourceBranch) /\
      PRTargetBranch params
      = (if prTargetBranch =? "" then PRTargetBranch fromJSON
         else prTargetBranch) /\
      Format params = (if format =? "" then Format fromJSON else format) /\
      BitriseConfigPath params
      = (if bitriseConfigPath =? "" then BitriseConfigPath fromJSON
         else bitriseConfigPath) /\
      BitriseConfigBase64Data params
      = (if bitriseConfigBase64Data =? "" then BitriseConfigBase64Data fromJSON
         else bitriseConfigBase64Data) /\
      InventoryPath params
      = (if inventoryPath =? "" then InventoryPath fromJSON
         else inventoryPath) /\
      InventoryBase64Data params
      = (if inventoryBase64Data =? "" then InventoryBase64Data fromJSON
         else inventoryBase64Data).
Proof.
  intros w tp pb ps pt f c cb i ib json b64 params.
  unfold parseRunAndTriggerParams.
  assert (Hfields : forall fromJSON,
    params =
    {| WorkflowToRunID := override w (WorkflowToRunID fromJSON);
       TriggerPattern := override tp (TriggerPattern fromJSON);
       PushBranch := override pb (PushBranch fromJSON);
       PRSourceBranch := override ps (PRSourceBranch fromJSON);
       PRTargetBranch := override pt (PRTargetBranch fromJSON);
       Format := override f (Format fromJSON);
       BitriseConfigPath := override c (BitriseConfigPath fromJSON);
       BitriseConfigBase64Data := override cb (BitriseConfigBase64Data fromJSON);
       InventoryPath := override i (InventoryPath fromJSON);
       InventoryBase64Data := override ib (InventoryBase64Data fromJSON) |} ->
    WorkflowToRunID params
    = (if w =? "" then WorkflowToRunID fromJSON else w) /\
    TriggerPattern params = (if tp =? "" then TriggerPattern fromJSON else tp) /\
    PushBranch params = (if pb =? "" then PushBranch fromJSON else pb) /\
    PRSourceBranch params = (if ps =? "" then PRSourceBranch fromJSON else ps) /\
    PRTargetBranch params = (if pt =? "" then PRTargetBranch fromJSON else pt) /\
    Format params = (if f =? "" then Format fromJSON else f) /\
    BitriseConfigPath params
    = (if c =? "" then BitriseConfigPath fromJSON else c) /\
    BitriseConfigBase64Data params
    = (if cb =? "" then BitriseConfigBase64Data fromJSON else cb) /\
    InventoryPath params = (if i =? "" then InventoryPath fromJSON else i) /\
    InventoryBase64Data params
    = (if ib =? "" then InventoryBase64Data fromJSON else ib)).
  { intros fromJSON ->; unfold override; simpl.
    destruct (w =? ""), (tp =? ""), (pb =? ""), (ps =? ""), (pt =? ""),
      (f =? ""), (c =? ""), (cb =? ""), (i =? ""), (ib =? "");
      simpl; repeat split. }
  destruct (String.eqb_spec json "") as [-> | Hjson];
    [destruct (String.eqb_spec b64 "") as [-> | Hb64] |]; simpl.
  - intros H; apply parseAndOverride_ok in H.
    destruct H as (fromJSON & [[_ ->] | [Hne _]] & Hparams); [| congruence].
    exists zeroParams; split; [right; left; auto | apply Hfields; assumption].
  - destruct (base64Decode b64) as [decoded | err] eqn:Hdec; [| discriminate].
    intros H; apply parseAndOverride_ok in H.
    destruct H as (fromJSON & Hsrc & Hparams).
    exists fromJSON; split; [| apply Hfields; assumption].
    right; right; repeat split; auto.
    exists decoded; split; [reflexivity | exact Hsrc].
  - intros H; apply parseAndOverride_ok in H.
    destruct H as (fromJSON & [[Hempty _] | [_ Hun]] & Hparams);
      [congruence |].
    exists fromJSON; split; [left; auto | apply Hfields; assumption].
Qed.

(** X20. Without JSON parameters the parse never fails: the result is the
    command line values themselves.  With plain JSON parameters the base64
    ones are not read; and [parseTriggerCheckParams] takes the workflow to
    run from the JSON parameters only. *)
Theorem parseRunAndTriggerParams_sources :
  forall workflowToRunID triggerPattern pushBranch prSourceBranch
         prTargetBranch format bitriseConfigPath bitriseConfigBase64Data
         inventoryPath inventoryBase64Data,
    parse workflowToRunID triggerPattern pushBranch prSourceBranch
      prTargetBranch format bitriseConfigPath bitriseConfigBase64Data
      inventoryPath inventoryBase64Data "" ""
    = ({| WorkflowToRunID := workflowToRunID;
          TriggerPattern := triggerPattern;
          PushBranch := pushBranch;
          PRSourceBranch := prSourceBranch;
          PRTargetBranch := prTargetBranch;
          Format := format;
          BitriseConfigPath := bitriseConfigPath;
          BitriseConfigBase64Data := bitriseConfigBase64Data;
          InventoryPath := inventoryPath;
          InventoryBase64Data := inventoryBase64Data |}, None) /\
    (forall jsonParams base64A base64B,
       jsonParams <> "" ->
       parse workflowToRunID triggerPattern pushBranch prSourceBranch
         prTargetBranch format bitriseConfigPath bitriseConfigBase64Data
         inventoryPath inventoryBase64Data jsonParams base64A
       = parse workflowToRunID triggerPattern pushBranch prSourceBranch
           prTargetBranch format bitriseConfigPath bitriseConfigBase64Data
           inventoryPath inventoryBase64Data jsonParams base64B) /\
    (forall jsonParams fromJSON params,
       jsonParams <> "" ->
       jsonUnmarshal jsonParams = inl fromJSON ->
       parseTriggerCheckParams jsonUnmarshal base64Decode
         triggerPattern pushBranch prSourceBranch prTargetBranch format
         bitriseConfigPath bitriseConfigBase64Data inventoryPath
         inventoryBase64Data jsonParams "" = (params, None) ->
       WorkflowToRunID params = WorkflowToRunID fromJSON).
Proof.
  intros w tp pb ps pt f c cb i ib; split; [| split].
  - unfold parseRunAndTriggerParams, parseAndOverride, override; simpl.
    destruct (w =? "") eqn:Hw, (tp =? "") eqn:Htp, (pb =? "") eqn:Hpb,
      (ps =? "") eqn:Hps, (pt =? "") eqn:Hpt, (f =? "") eqn:Hf,
      (c =? "") eqn:Hc, (cb =? "") eqn:Hcb, (i =? "") eqn:Hi,
      (ib =? "") eqn:Hib; simpl;
      repeat match goal with
             | H : (_ =? "") = true |- _ => apply String.eqb_eq in H; subst
             end; reflexivity.
  - intros json a b Hne; unfold parseRunAndTriggerParams.
    apply String.eqb_neq in Hne; rewrite Hne; reflexivity.
  - intros json fromJSON params Hne Hun.
    unfold parseTriggerCheckParams, parseRunAndTriggerParams.
    apply String.eqb_neq in Hne; rewrite Hne; simpl.
    unfold parseAndOverride, parseRunAndTriggerJSONParams.
    rewrite Hne, Hun; simpl.
    intros H; inversion H; reflexivity.
Qed.

End ParsingFacts.

Lemma parseRunAndTriggerParams_precedence_witness :
  exists fromJSON,
    sampleUnmarshal samplePatternJSON = inl fromJSON /\
    TriggerPattern (fst sampleParse) = TriggerPattern fromJSON /\
    PushBranch (fst sampleParse) = "main" /\
    Format (fst sampleParse) = "raw".
Proof.
  destruct (parseRunAndTriggerParams_precedence sampleUnmarshal sampleDecode
              "" "" "main" "" "" "raw" "" "" "" "" samplePatternJSON ""
              (fst sampleParse) eq_refl)
    as (fromJSON & [[_ Hsrc] | [[H _] | [H _]]]
        & _ & Htp & Hpb & _ & _ & Hf & _);
    try discriminate H.
  exists fromJSON; split; [exact Hsrc | split; [exact Htp |]].
  split; [exact Hpb | exact Hf].
Defined.

Lemma parseRunAndTriggerParams_sources_witness :
  parseRunAndTriggerParams sampleUnmarshal sampleDecode
    "" "" "main" "" "" "raw" "" "" "" "" samplePatternJSON "e30="
  = parseRunAndTriggerParams sampleUnmarshal sampleDecode
      "" "" "main" "" "" "raw" "" "" "" "" samplePatternJSON "not base64".
Proof.
  destruct (parseRunAndTriggerParams_sources sampleUnmarshal sampleDecode
              "" "" "main" "" "" "raw" "" "" "" "") as (_ & H & _).
  apply H; discriminate.
Defined.

End TriggerParamsFacts.
